(** * Jenkins agent automation: installer and health monitor

    A shallow embedding of the two scripts of the repository,

      - [Scripts/test.py]                  (module [Monitor]): install + supervise,
      - [Scripts/Jenkins_agent_manager.py]  (module [Manager]): install only,

    over a small model of the Python runtime they use (module [Py]).
    Every side effect a script attempts (a log record, a [subprocess.run], a
    [time.sleep], a file write, an SMTP step) is appended to a trace; what the
    host answers (exit statuses, captured output, I/O failures, signals) is
    read from a [world], a strategy that sees the trace so far. *)

From Stdlib Require Import String Ascii List ZArith Bool Lia Arith.
From Stdlib Require Import Numbers.DecimalString.
Import ListNotations.
Local Open Scope list_scope.
Local Open Scope string_scope.

(* ================================================================== *)
(** * The Python runtime the scripts rely on *)
(* ================================================================== *)

Module Py.

(** ** Text

    A [string] is read as a sequence of code points below 256. *)

Definition chr (n : nat) : string := String (ascii_of_nat n) EmptyString.

(** The characters that cannot be typed inside a literal here. *)
Definition dq : string := chr 34.   (* double quote *)
Definition nl : string := chr 10.   (* line feed *)
Definition bs : string := chr 92.   (* backslash *)

(** [str.isspace] on one character (code points below 256). *)
Definition is_space (c : ascii) : bool :=
  let n := nat_of_ascii c in
  (((9 <=? n) && (n <=? 13)) || ((28 <=? n) && (n <=? 32))
   || (n =? 133) || (n =? 160))%nat.

Fixpoint all_space (s : string) : bool :=
  match s with
  | EmptyString => true
  | String c s' => is_space c && all_space s'
  end.

Fixpoint lstrip (s : string) : string :=
  match s with
  | EmptyString => EmptyString
  | String c s' => if is_space c then lstrip s' else s
  end.

Fixpoint rstrip (s : string) : string :=
  match s with
  | EmptyString => EmptyString
  | String c s' =>
      match rstrip s' with
      | EmptyString => if is_space c then EmptyString else String c EmptyString
      | r => String c r
      end
  end.

(** [s.strip()] *)
Definition strip (s : string) : string := rstrip (lstrip s).

(** [s.split(chr(10))]: the lines of a text. *)
Fixpoint split_lines (s : string) : list string :=
  match s with
  | EmptyString => [EmptyString]
  | String c rest =>
      if Ascii.eqb c (ascii_of_nat 10) then EmptyString :: split_lines rest
      else match split_lines rest with
           | line :: lines => String c line :: lines
           | [] => [String c EmptyString]
           end
  end.

(** No line feed in [s]. *)
Fixpoint one_line (s : string) : bool :=
  match s with
  | EmptyString => true
  | String c rest => negb (Ascii.eqb c (ascii_of_nat 10)) && one_line rest
  end.

(** [needle in hay] on strings. *)
Fixpoint contains (needle hay : string) : bool :=
  if String.prefix needle hay then true
  else match hay with
       | EmptyString => false
       | String _ hay' => contains needle hay'
       end.

(** [str.lower] on one character: A-Z and the upper-case letters of Latin-1. *)
Definition lower_char (c : ascii) : ascii :=
  let n := nat_of_ascii c in
  if (((65 <=? n) && (n <=? 90))
      || ((192 <=? n) && (n <=? 222) && negb (n =? 215)))%nat
  then ascii_of_nat (n + 32) else c.

Fixpoint lower (s : string) : string :=
  match s with
  | EmptyString => EmptyString
  | String c s' => String (lower_char c) (lower s')
  end.

(** [str(n)] for an integer. *)
Definition str_int (z : Z) : string := NilZero.string_of_int (Z.to_int z).

Definition hex_digit (n : nat) : string :=
  String.substring n 1 "0123456789abcdef".

Definition has_char (c : ascii) (s : string) : bool :=
  contains (String c EmptyString) s.

(** [repr] of a string: the quote is the single quote unless the text holds
    one and no double quote; the quote and the backslash are escaped, control
    and unprintable characters are written as escapes. *)
Definition repr_quote (s : string) : ascii :=
  if has_char (ascii_of_nat 39) s && negb (has_char (ascii_of_nat 34) s)
  then ascii_of_nat 34 else ascii_of_nat 39.

Definition printable (n : nat) : bool :=
  (((32 <=? n) && (n <=? 126)) || ((161 <=? n) && negb (n =? 173)))%nat.

Definition repr_char (q c : ascii) : string :=
  let n := nat_of_ascii c in
  if Ascii.eqb c q || (n =? 92)%nat then bs ++ String c EmptyString
  else if (n =? 9)%nat then bs ++ "t"
  else if (n =? 10)%nat then bs ++ "n"
  else if (n =? 13)%nat then bs ++ "r"
  else if printable n then String c EmptyString
  else bs ++ "x" ++ hex_digit (n / 16) ++ hex_digit (n mod 16).

Fixpoint repr_body (q : ascii) (s : string) : string :=
  match s with
  | EmptyString => EmptyString
  | String c s' => repr_char q c ++ repr_body q s'
  end.

Definition repr_str (s : string) : string :=
  let q := repr_quote s in
  String q EmptyString ++ repr_body q s ++ String q EmptyString.

(** [str(l)] for a list of strings, as an f-string prints a command vector. *)
Definition str_list (l : list string) : string :=
  "[" ++ String.concat ", " (map repr_str l) ++ "]".

(** Truthiness of an optional string: [None] and the empty string are false. *)
Definition truthy (o : option string) : bool :=
  match o with
  | Some (String _ _) => true
  | _ => false
  end.

(** [range(n)] *)
Definition range (n : Z) : list Z := map Z.of_nat (seq 0 (Z.to_nat n)).

(** Dictionary lookup in a parsed JSON object. *)
Fixpoint assoc {V : Type} (k : string) (d : list (string * V)) : option V :=
  match d with
  | [] => None
  | (k', v) :: d' => if String.eqb k k' then Some v else assoc k d'
  end.

(** ** Exceptions *)

(** Classes below [Exception]. *)
Inductive exc_class : Type :=
  | ExceptionC | RuntimeErrorC | ValueErrorC | TypeErrorC | KeyErrorC
  | NameErrorC | OSErrorC | SMTPExceptionC.

Inductive exn : Type :=
  | Exc (c : exc_class) (msg : string)
  | CalledProcessError (cmd : list string) (returncode : Z)
                       (stdout stderr : string)
  | SystemExit (code : Z).

(** [isinstance(e, Exception)]: [SystemExit] derives from [BaseException]
    only. *)
Definition is_Exception (e : exn) : bool :=
  match e with
  | SystemExit _ => false
  | _ => true
  end.

Definition is_CalledProcessError (e : exn) : bool :=
  match e with
  | CalledProcessError _ _ _ _ => true
  | _ => false
  end.

(** [str(e)], for a child that exited with a status. *)
Definition str_exn (e : exn) : string :=
  match e with
  | Exc _ msg => msg
  | CalledProcessError cmd rc _ _ =>
      "Command '" ++ str_list cmd ++ "' returned non-zero exit status "
        ++ str_int rc ++ "."
  | SystemExit code => str_int code
  end.

(** ** Effects *)

Inductive level : Type := DEBUG | INFO | WARNING | ERROR | CRITICAL.

Inductive event : Type :=
  | Log (lv : level) (msg : string)
  | Run (cmd : list string)                     (* subprocess.run *)
  | Sleep (secs : Z)                            (* time.sleep *)
  | WriteFile (path content : string)           (* open(path, "w").write *)
  | MakeDirs (path : string)                    (* mkdir / os.makedirs *)
  | Chmod (path : string) (mode : Z)            (* os.chmod *)
  | LoadDotenv
  | SmtpConnect (host : string) (port : Z)      (* smtplib.SMTP(host, port) *)
  | SmtpStartTls
  | SmtpLogin (user : string) (password : option string)
  | SmtpSendmail (sender rcpt subject body : string)
  | SmtpQuit.                                   (* leaving the with block *)

Definition trace := list event.

(** How a child process ends: with an exit status and captured output, or
    not started at all ([FileNotFoundError] and the like). *)
Inductive proc_outcome : Type :=
  | Exited (status : Z) (out err : string)
  | SpawnFailed (msg : string).

(** The host.  The dynamic answers see the trace so far. *)
Record world : Type := {
  platform_system : string;                      (* platform.system() *)
  getenv : string -> option string;              (* os.getenv *)
  getcwd : string;                               (* os.getcwd() *)
  getlogin : string;                             (* os.getlogin() *)
  home : string;                                 (* os.path.expanduser("~") *)
  path_join : list string -> string;             (* os.path.join *)
  dirname : string -> string;                    (* os.path.dirname *)
  path_exists : trace -> string -> bool;         (* os.path.exists *)
  proc : trace -> list string -> proc_outcome;   (* what a command does *)
  fault : trace -> event -> option (exc_class * string);
                                                 (* an I/O step that raises *)
  sigs : trace -> option Z                       (* a signal during a sleep *)
}.

(** ** Computations: a trace threaded through, and an exception or a value *)

Inductive result (A : Type) : Type :=
  | Ok (a : A)
  | Raise (e : exn).
Arguments Ok {A} a.
Arguments Raise {A} e.

Definition M (A : Type) : Type := trace -> result A * trace.

Definition ret {A} (a : A) : M A := fun tr => (Ok a, tr).

Definition bind {A B} (m : M A) (k : A -> M B) : M B :=
  fun tr =>
    match m tr with
    | (Ok a, tr') => k a tr'
    | (Raise e, tr') => (Raise e, tr')
    end.

Definition raise {A} (e : exn) : M A := fun tr => (Raise e, tr).

Definition emit (ev : event) : M unit := fun tr => (Ok tt, (tr ++ [ev])%list).

Definition history : M trace := fun tr => (Ok tr, tr).

(** [try: m  except <handles> as e: h e] *)
Definition try_except {A} (m : M A) (handles : exn -> bool)
           (h : exn -> M A) : M A :=
  fun tr =>
    match m tr with
    | (Raise e, tr') => if handles e then h e tr' else (Raise e, tr')
    | r => r
    end.

Declare Scope py_scope.
Delimit Scope py_scope with py.
Notation "x <- m ;; k" := (bind m (fun x => k))
  (at level 61, m at next level, right associativity) : py_scope.
Notation "m ;; k" := (bind m (fun _ => k))
  (at level 61, right associativity) : py_scope.
Local Open Scope py_scope.

(** [logging.<level>(msg)] *)
Definition logging (lv : level) (msg : string) : M unit := emit (Log lv msg).

(** [d[k]] *)
Definition getitem {V} (d : list (string * V)) (k : string) : M V :=
  match assoc k d with
  | Some v => ret v
  | None => raise (Exc KeyErrorC (repr_str k))
  end.

Section Host.
Variable w : world.

(** An I/O step: attempted, then it raises if the host says so. *)
Definition io (ev : event) : M unit :=
  h <- history ;;
  emit ev ;;
  match fault w h ev with
  | Some (c, msg) => raise (Exc c msg)
  | None => ret tt
  end.

(** What [subprocess.run] hands back. *)
Record completed : Type := {
  returncode : Z;
  stdout : string;
  stderr : string
}.

(** [subprocess.run(command, ..., check=True)]: a non-zero status becomes
    [CalledProcessError]. *)
Definition subprocess_run (command : list string) : M completed :=
  h <- history ;;
  emit (Run command) ;;
  match proc w h command with
  | Exited rc out err =>
      if (rc =? 0)%Z
      then ret {| returncode := rc; stdout := out; stderr := err |}
      else raise (CalledProcessError command rc out err)
  | SpawnFailed msg => raise (Exc OSErrorC msg)
  end.
End Host.

(** The status of the interpreter when [main] ends this way. *)
Definition exit_code {A} (r : result A) : Z :=
  match r with
  | Ok _ => 0
  | Raise (SystemExit c) => c
  | Raise _ => 1
  end.

(** Projections of a trace. *)
Definition logs (tr : trace) : list (level * string) :=
  flat_map (fun e => match e with Log lv m => [(lv, m)] | _ => [] end) tr.

Definition runs (tr : trace) : list (list string) :=
  flat_map (fun e => match e with Run c => [c] | _ => [] end) tr.

Definition sleeps (tr : trace) : list Z :=
  flat_map (fun e => match e with Sleep d => [d] | _ => [] end) tr.

Definition writes (tr : trace) : list (string * string) :=
  flat_map (fun e => match e with WriteFile p c => [(p, c)] | _ => [] end) tr.

(** Alerts: one SMTP session is opened per alert sent. *)
Definition alerts (tr : trace) : nat :=
  length (filter (fun e => match e with SmtpConnect _ _ => true | _ => false end) tr).

End Py.

Import Py.
Local Open Scope py_scope.

(* ================================================================== *)
(** * Scripts/test.py: install, then supervise *)
(* ================================================================== *)

Module Monitor.

(** One entry of [config["AGENT_DETAILS"]]. *)
Record agent_entry : Type := {
  AGENT_NAME : string;
  AGENT_WORKDIR : string
}.

(** The values the module reads from config.json when it is imported.
    [AGENT_DETAILS] is the only required key that the import itself does not
    index, so it is the only one that can still be missing in [main]. *)
Record config : Type := {
  JENKINS_SERVER_URL : string;
  AGENT_DETAILS : option (list (string * agent_entry));
  ALERT_EMAIL : string;
  SMTP_SERVER : string;
  SMTP_PORT : Z;
  SMTP_USERNAME : string;
  CHECK_INTERVAL : Z;
  DEBUG_MODE : bool
}.

(** The names bound at module level: the imports (lines 1-13) and the
    definitions of the module itself. *)
Definition module_globals : list string :=
  [ "os"; "platform"; "subprocess"; "time"; "psutil"; "json"; "smtplib";
    "logging"; "MIMEText"; "load_dotenv"; "Path"; "signal"; "threading";
    "CONFIG_PATH"; "config_file"; "config"; "JENKINS_SERVER_URL";
    "ALERT_EMAIL"; "SMTP_SERVER"; "SMTP_PORT"; "SMTP_USERNAME";
    "SMTP_PASSWORD"; "CHECK_INTERVAL"; "DEBUG_MODE"; "log_dir";
    "signal_handler"; "validate_configuration"; "get_agent_details";
    "run_command_with_retry"; "download_jenkins_agent";
    "install_service_linux"; "install_service_windows";
    "send_alert_email"; "monitor_service"; "main" ].

(** Evaluating a global name. *)
Definition global (name : string) : M unit :=
  if existsb (String.eqb name) module_globals then ret tt
  else raise (Exc NameErrorC ("name '" ++ name ++ "' is not defined")).

Definition default_retries : Z := 3.
Definition default_delay : Z := 5.

Section Script.
Variable w : world.
Variable config : config.

Definition SMTP_PASSWORD : option string := getenv w "SMTP_PASSWORD".

(** [signal_handler], installed for SIGINT and SIGTERM. *)
Definition signal_handler (sig : Z) : M unit :=
  logging INFO "Received shutdown signal, cleaning up..." ;;
  global "sys" ;;
  raise (SystemExit 0).                        (* sys.exit(0) *)

(** [time.sleep(secs)]: a signal that arrives meanwhile runs its handler in
    the sleeping thread. *)
Definition time_sleep (secs : Z) : M unit :=
  h <- history ;;
  emit (Sleep secs) ;;
  match sigs w h with
  | Some sig => signal_handler sig
  | None => ret tt
  end.

Definition validate_configuration : M unit :=
  match AGENT_DETAILS config with
  | None =>
      raise (Exc ValueErrorC
               "Missing required configuration key: AGENT_DETAILS")
  | Some _ =>
      if negb (truthy SMTP_PASSWORD)
      then raise (Exc ValueErrorC "Missing SMTP_PASSWORD in .env")
      else logging INFO "Configuration validated successfully."
  end.

(** [agent_details[...]] where [agent_details] comes from [dict.get]. *)
Definition subscript (agent_details : option agent_entry) : M agent_entry :=
  match agent_details with
  | Some d => ret d
  | None => raise (Exc TypeErrorC "'NoneType' object is not subscriptable")
  end.

Definition get_agent_details : M (string * string * string) :=
  let system_platform := platform_system w in
  details <- match AGENT_DETAILS config with
             | Some d => ret d
             | None => raise (Exc KeyErrorC (repr_str "AGENT_DETAILS"))
             end ;;
  let agent_details := assoc system_platform details in
  r <- (if String.eqb system_platform "Linux" then
          d <- subscript agent_details ;;
          ret (AGENT_NAME d, getenv w "LINUX_AGENT_SECRET", AGENT_WORKDIR d)
        else if String.eqb system_platform "Windows" then
          d <- subscript agent_details ;;
          ret (AGENT_NAME d, getenv w "WINDOWS_AGENT_SECRET", AGENT_WORKDIR d)
        else
          raise (Exc ExceptionC
                   "Unsupported platform. Only Windows and Linux are supported.")) ;;
  let '(agent_name, agent_secret, agent_workdir) := r in
  match agent_secret with
  | Some (String c s) => ret (agent_name, String c s, agent_workdir)
  | _ => raise (Exc ValueErrorC
                  ("Agent secret for " ++ system_platform
                     ++ " not found in .env"))
  end.

(** The [for attempt in range(retries)] loop of [run_command_with_retry];
    [None] when the loop runs out. *)
Fixpoint retry_loop (command : list string) (error_message : string)
         (retries delay : Z) (attempts : list Z) : M (option completed) :=
  match attempts with
  | [] => ret None
  | attempt :: rest =>
      r <- try_except
             (result <- subprocess_run w command ;; ret (Some result))
             is_CalledProcessError
             (fun e =>
                logging ERROR
                  (error_message ++ ": " ++ str_exn e ++ ". Attempt "
                     ++ str_int (attempt + 1) ++ "/" ++ str_int retries) ;;
                time_sleep delay ;;
                ret None) ;;
      match r with
      | Some result => ret (Some result)
      | None => retry_loop command error_message retries delay rest
      end
  end.

Definition run_command_with_retry (command : list string)
           (error_message : string) (retries delay : Z) : M completed :=
  r <- retry_loop command error_message retries delay (range retries) ;;
  match r with
  | Some result => ret result
  | None =>
      logging CRITICAL
        ("Command failed after " ++ str_int retries ++ " attempts: "
           ++ str_list command) ;;
      raise (Exc RuntimeErrorC error_message)
  end.

Definition download_jenkins_agent : M string :=
  logging INFO "Downloading Jenkins agent..." ;;
  let agent_jar_path := "agent.jar" in
  let jar_download_url := JENKINS_SERVER_URL config ++ "/jnlpJars/agent.jar" in
  run_command_with_retry ["curl"; "-o"; agent_jar_path; jar_download_url]
    "Failed to download Jenkins agent JAR" default_retries default_delay ;;
  ret agent_jar_path.

Definition service_script (agent_name agent_secret agent_workdir
                           agent_jar_path : string) : string :=
  nl ++
  "    [Unit]" ++ nl ++
  "    Description=Jenkins Agent Service" ++ nl ++
  "    After=network.target" ++ nl ++
  nl ++
  "    [Service]" ++ nl ++
  "    ExecStart=/usr/bin/java -jar " ++ getcwd w ++ "/" ++ agent_jar_path
    ++ " -jnlpUrl " ++ JENKINS_SERVER_URL config ++ "/computer/"
    ++ agent_name ++ "/slave-agent.jnlp -secret " ++ agent_secret
    ++ " -workDir " ++ dq ++ agent_workdir ++ dq ++ nl ++
  "    Restart=always" ++ nl ++
  "    User=" ++ getlogin w ++ nl ++
  nl ++
  "    [Install]" ++ nl ++
  "    WantedBy=multi-user.target" ++ nl ++
  "    ".

Definition install_service_linux (agent_name agent_secret agent_workdir
                                  agent_jar_path : string) : M unit :=
  logging INFO "Configuring Jenkins agent as a Linux service..." ;;
  let service_path := "/etc/systemd/system/" ++ agent_name ++ ".service" in
  io w (WriteFile service_path
          (service_script agent_name agent_secret agent_workdir
             agent_jar_path)) ;;
  run_command_with_retry ["systemctl"; "daemon-reload"]
    "Failed to reload systemd configuration"
    default_retries default_delay ;;
  run_command_with_retry ["systemctl"; "enable"; agent_name]
    ("Failed to enable service '" ++ agent_name ++ "'")
    default_retries default_delay ;;
  run_command_with_retry ["systemctl"; "start"; agent_name]
    ("Failed to start service '" ++ agent_name ++ "'")
    default_retries default_delay ;;
  logging INFO "Jenkins agent service installed and started on Linux.".

Definition create_service_cmd (service_name agent_secret agent_workdir
                               agent_jar_path : string) : list string :=
  [ "sc.exe"; "create"; service_name;
    "binPath=";
    dq ++ "java -jar " ++ path_join w [getcwd w; agent_jar_path]
      ++ " -jnlpUrl " ++ JENKINS_SERVER_URL config ++ "/computer/"
      ++ service_name ++ "/slave-agent.jnlp -secret " ++ agent_secret
      ++ " -workDir " ++ agent_workdir ++ dq;
    "DisplayName="; "Jenkins Agent - " ++ service_name;
    "start="; "auto" ].

Definition install_service_windows (agent_name agent_secret agent_workdir
                                    agent_jar_path : string) : M unit :=
  logging INFO "Configuring Jenkins agent as a Windows service..." ;;
  let service_name := agent_name in
  run_command_with_retry
    (create_service_cmd service_name agent_secret agent_workdir
       agent_jar_path)
    ("Failed to create Windows service '" ++ service_name ++ "'")
    default_retries default_delay ;;
  run_command_with_retry ["sc.exe"; "start"; service_name]
    ("Failed to start Windows service '" ++ service_name ++ "'")
    default_retries default_delay ;;
  logging INFO
    ("Jenkins agent service '" ++ service_name
       ++ "' installed and started on Windows.").

(** [with smtplib.SMTP(...) as server: body]: leaving the block says QUIT,
    also when the body raised; what QUIT raises replaces the body's
    exception. *)
Definition with_smtp (body : M unit) : M unit :=
  io w (SmtpConnect (SMTP_SERVER config) (SMTP_PORT config)) ;;
  fun tr =>
    match body tr with
    | (Ok _, tr') => io w SmtpQuit tr'
    | (Raise e, tr') =>
        match io w SmtpQuit tr' with
        | (Ok _, tr'') => (Raise e, tr'')
        | (Raise e', tr'') => (Raise e', tr'')
        end
    end.

Definition send_alert_email (subject message : string) : M unit :=
  logging INFO ("Sending alert email with subject: " ++ subject) ;;
  try_except
    (with_smtp
       (io w SmtpStartTls ;;
        io w (SmtpLogin (SMTP_USERNAME config) SMTP_PASSWORD) ;;
        io w (SmtpSendmail (SMTP_USERNAME config) (ALERT_EMAIL config)
                subject message)) ;;
     logging INFO "Alert email sent successfully.")
    is_Exception
    (fun e => logging ERROR ("Failed to send alert email: " ++ str_exn e)).

(** The status test of the loop body, on the captured output. *)
Definition linux_active (out : string) : bool :=
  String.eqb (strip out) "active".

Definition windows_active (out : string) : bool :=
  contains "RUNNING" out.

(** One pass of the [while True] body up to the sleep: the [try] block and
    its handler. *)
Definition monitor_iteration (agent_name : string) : M unit :=
  try_except
    (is_active <-
       (if String.eqb (platform_system w) "Linux" then
          result <- run_command_with_retry
                      ["systemctl"; "is-active"; agent_name]
                      ("Failed to check status for Linux service '"
                         ++ agent_name ++ "'")
                      default_retries default_delay ;;
          ret (linux_active (stdout result))
        else if String.eqb (platform_system w) "Windows" then
          result <- run_command_with_retry
                      ["sc.exe"; "query"; agent_name]
                      ("Failed to check status for Windows service '"
                         ++ agent_name ++ "'")
                      default_retries default_delay ;;
          ret (windows_active (stdout result))
        else ret false) ;;
     if negb is_active then
       let alert_message :=
         "ALERT: Jenkins agent service '" ++ agent_name ++ "' is down!" in
       logging WARNING alert_message ;;
       send_alert_email ("Jenkins Agent Alert: " ++ agent_name) alert_message
     else ret tt)
    is_Exception
    (fun e =>
       logging ERROR
         ("Unexpected error while monitoring '" ++ agent_name ++ "': "
            ++ str_exn e)).

(** [ticks] passes of the loop.  The loop has no exit of its own: [Ok tt]
    means it is still running after that many passes. *)
Fixpoint monitor_loop (agent_name : string) (ticks : nat) : M unit :=
  match ticks with
  | O => ret tt
  | S n =>
      monitor_iteration agent_name ;;
      time_sleep (CHECK_INTERVAL config) ;;
      monitor_loop agent_name n
  end.

Definition monitor_service (agent_name : string) (ticks : nat) : M unit :=
  logging INFO ("Starting monitoring for service '" ++ agent_name ++ "'") ;;
  monitor_loop agent_name ticks.

Definition main (ticks : nat) : M unit :=
  validate_configuration ;;
  d <- get_agent_details ;;
  let '(agent_name, agent_secret, agent_workdir) := d in
  agent_jar_path <- download_jenkins_agent ;;
  let system_platform := platform_system w in
  if String.eqb system_platform "Linux" then
    install_service_linux agent_name agent_secret agent_workdir
      agent_jar_path ;;
    monitor_service agent_name ticks
  else if String.eqb system_platform "Windows" then
    install_service_windows agent_name agent_secret agent_workdir
      agent_jar_path ;;
    monitor_service agent_name ticks
  else
    logging ERROR
      "Unsupported platform. This script only supports Windows and Linux.".
End Script.

End Monitor.

(* ================================================================== *)
(** * Scripts/Jenkins_agent_manager.py: install only *)
(* ================================================================== *)

Module Manager.

(** A platform's object inside [AGENT_DETAILS]: keys to values, the values
    being the strings the installers format into the unit file and the
    service command. *)
Definition platform_entry : Type := list (string * string).

(** What [json.load] binds to a platform key of [AGENT_DETAILS]: the
    script never checks that it is an object, so it is any JSON value.  Of
    a number that is not an integer only its truth value can be seen
    here. *)
#[warnings="-register-all"] Inductive value : Type :=
  | Object (entry : platform_entry)
  | Array (items : list value)
  | Text (s : string)
  | Integer (n : Z)
  | Real (zero : bool)
  | Boolean (b : bool)
  | Null.

(** [type(v).__name__] *)
Definition type_name (v : value) : string :=
  match v with
  | Object _ => "dict"
  | Array _ => "list"
  | Text _ => "str"
  | Integer _ => "int"
  | Real _ => "float"
  | Boolean _ => "bool"
  | Null => "NoneType"
  end.

(** [bool(v)] *)
Definition value_truthy (v : value) : bool :=
  match v with
  | Object entry => match entry with [] => false | _ => true end
  | Array items => match items with [] => false | _ => true end
  | Text s => match s with EmptyString => false | _ => true end
  | Integer n => negb (n =? 0)%Z
  | Real zero => negb zero
  | Boolean b => b
  | Null => false
  end.

(** [k in d] for a dict [d]. *)
Definition has_key {V} (k : string) (d : list (string * V)) : bool :=
  match assoc k d with Some _ => true | None => false end.

(** [k in v]: a key of a dict, an element of a list, a substring of a
    string; the other values are no containers. *)
Definition value_contains (k : string) (v : value) : M bool :=
  match v with
  | Object entry => ret (has_key k entry)
  | Array items =>
      ret (existsb (fun item => match item with
                                | Text s => String.eqb k s
                                | _ => false
                                end) items)
  | Text s => ret (contains k s)
  | _ =>
      raise (Exc TypeErrorC
               ("argument of type '" ++ type_name v ++ "' is not iterable"))
  end.

(** [v[k]] for a string [k] (the messages are those of CPython 3.11 and
    later). *)
Definition value_getitem (v : value) (k : string) : M string :=
  match v with
  | Object entry => getitem entry k
  | Array _ =>
      raise (Exc TypeErrorC "list indices must be integers or slices, not str")
  | Text _ =>
      raise (Exc TypeErrorC "string indices must be integers, not 'str'")
  | _ =>
      raise (Exc TypeErrorC
               ("'" ++ type_name v ++ "' object is not subscriptable"))
  end.

(** The parsed config.json, with the two keys the script uses: the server
    URL, a string when the key is there, and the agent details, an object
    when the key is there, from platform keys to JSON values. *)
Record config : Type := {
  JENKINS_SERVER_URL : option string;
  AGENT_DETAILS : option (list (string * value))
}.

(** What reading config.json comes to. *)
Inductive config_file : Type :=
  | Parsed (c : config)
  | NotFound
  | InvalidJson (msg : string)
  | Unreadable (msg : string).

Definition service_file_path : string :=
  "/etc/systemd/system/jenkins-agent.service".

Section Script.
Variable w : world.

Definition get_platform : string := lower (platform_system w).

Definition setup_logging : M unit :=
  io w (MakeDirs "../../logs") ;;
  logging INFO "Logging is set up. Logging to file and console.".

Definition load_env_file : M unit :=
  try_except
    (io w LoadDotenv ;;
     logging INFO "Successfully loaded .env file.")
    is_Exception
    (fun e =>
       logging ERROR "Error loading .env file" ;;
       raise (Exc RuntimeErrorC
                "Failed to load .env file. Please ensure it exists and is correctly formatted.")).

(** [None] is the fall-through after a missing file has been logged. *)
Definition load_config_file (CONFIG_PATH : string) (f : config_file)
  : M (option config) :=
  match f with
  | Parsed c =>
      logging INFO ("Successfully loaded the config file from " ++ CONFIG_PATH) ;;
      ret (Some c)
  | NotFound =>
      logging ERROR
        ("Config file error: Config file not found: " ++ CONFIG_PATH) ;;
      ret None
  | InvalidJson msg =>
      logging ERROR ("JSON parsing error in config file: " ++ msg) ;;
      raise (Exc ValueErrorC
               "Config file contains invalid JSON. Please check the file format.")
  | Unreadable msg =>
      logging ERROR ("Unexpected error loading config file " ++ msg) ;;
      raise (Exc RuntimeErrorC "Failed to load file due to unexpected error.")
  end.

(** [all(k in platform_value for k in keys)]: the generator is consumed up
    to the first key that is not in. *)
Fixpoint all_in (keys : list string) (platform_value : value) : M bool :=
  match keys with
  | [] => ret true
  | k :: rest =>
      found <- value_contains k platform_value ;;
      if found then all_in rest platform_value else ret false
  end.

(** The loop over [agent_details.items()]. *)
Fixpoint validate_platforms (items : list (string * value))
  : M unit :=
  match items with
  | [] => ret tt
  | (platform_key, platform_value) :: rest =>
      rejected <-
        (if negb (value_truthy platform_value) then ret true
         else
           complete <- all_in ["AGENT_NAME"; "AGENT_WORKDIR"]
                         platform_value ;;
           ret (negb complete)) ;;
      if rejected
      then raise (Exc ValueErrorC
                    ("Each platform in AGENT_DETAILS ('" ++ platform_key
                       ++ "') must contain 'AGENT_NAME' and 'AGENT_WORKDIR'"))
      else validate_platforms rest
  end.

Definition missing_key {A} (key : string) : M A :=
  raise (Exc ValueErrorC ("Missing required configuration key: " ++ key)).

Definition empty_key {A} (key : string) : M A :=
  raise (Exc ValueErrorC ("Configuration key '" ++ key ++ "' cannot be empty")).

Definition validate_configuration (config : option config) : M unit :=
  match config with
  | None =>
      raise (Exc TypeErrorC "argument of type 'NoneType' is not iterable")
  | Some config =>
      match JENKINS_SERVER_URL config with
      | None => missing_key "JENKINS_SERVER_URL"
      | Some EmptyString => empty_key "JENKINS_SERVER_URL"
      | Some _ =>
          match AGENT_DETAILS config with
          | None => missing_key "AGENT_DETAILS"
          | Some [] => empty_key "AGENT_DETAILS"
          | Some agent_details =>
              if negb (has_key "LINUX" agent_details)
                 && negb (has_key "WINDOWS" agent_details)
              then raise (Exc ValueErrorC
                            "AGENT_DETAILS must contain keys for both 'Linux' and 'Windows'")
              else
                validate_platforms agent_details ;;
                logging INFO "Configuration validated successfully."
          end
      end
  end.

(** [config['JENKINS_SERVER_URL']] and
    [config['AGENT_DETAILS'][platform][key]]. *)
Definition server_url (config : config) : M string :=
  match JENKINS_SERVER_URL config with
  | Some u => ret u
  | None => raise (Exc KeyErrorC (repr_str "JENKINS_SERVER_URL"))
  end.

Definition agent_detail (config : config) (platform key : string)
  : M string :=
  details <- match AGENT_DETAILS config with
             | Some d => ret d
             | None => raise (Exc KeyErrorC (repr_str "AGENT_DETAILS"))
             end ;;
  entry <- getitem details platform ;;
  value_getitem entry key.

Definition run_command (command : list string) (error_message : string)
  : M unit :=
  try_except
    (result <- subprocess_run w command ;;
     logging INFO ("Command output: " ++ stdout result) ;;
     logging INFO ("Command error output (if any): " ++ stderr result) ;;
     (if negb (returncode result =? 0)%Z
      then raise (Exc RuntimeErrorC
                    (error_message ++ ": " ++ stderr result))
      else ret tt) ;;
     logging INFO "Command completed successfully.")
    is_CalledProcessError
    (fun e =>
       logging ERROR (error_message ++ ": " ++ str_exn e) ;;
       match e with
       | CalledProcessError _ _ out err =>
           logging ERROR ("Command output: " ++ out) ;;
           logging ERROR ("Command error output: " ++ err)
       | _ => ret tt
       end ;;
       raise (Exc RuntimeErrorC error_message)).

Definition download_jenkins_agent (config : config) : M string :=
  logging INFO "Downloading Agent jar..." ;;
  let agent_jar_path :=
    if String.eqb get_platform "windows"
    then path_join w ["D:"; "jenkins"; "agent"; "agent.jar"]
    else path_join w [home w; "jenkins"; "agent.jar"] in
  let jenkins_dir := dirname w agent_jar_path in
  h <- history ;;
  (if negb (path_exists w h jenkins_dir)
   then io w (MakeDirs jenkins_dir) else ret tt) ;;
  (if negb (String.eqb get_platform "windows")
   then io w (Chmod jenkins_dir 493) else ret tt) ;;      (* 0o755 *)
  url <- server_url config ;;
  let jar_download_url := url ++ "/jnlpJars/agent.jar" in
  run_command ["curl"; "-o"; agent_jar_path; jar_download_url]
    "Failed to download Jenkins agent jar" ;;
  logging INFO ("Jenkins agent jar downloaded to: " ++ agent_jar_path) ;;
  ret agent_jar_path.

(** The f-string [service_file_content]. *)
Definition service_file_content (agent_jar_path url secret name workdir
                                 : string) : string :=
  nl ++
  "    [Unit]" ++ nl ++
  "    Description=Jenkins Agent" ++ nl ++
  "    After=network.target" ++ nl ++
  nl ++
  "    [Service]" ++ nl ++
  "    ExecStart=/usr/bin/java -jar " ++ agent_jar_path ++ " -url " ++ url
    ++ " -secret " ++ secret ++ " -name " ++ dq ++ name ++ dq
    ++ " -workDir " ++ dq ++ workdir ++ dq ++ nl ++
  "    User=gopal" ++ nl ++
  "    Restart=always" ++ nl ++
  nl ++
  "    [Install]" ++ nl ++
  "    WantedBy=multi-user.target" ++ nl ++
  "    ".

Definition configure_linux_service (agent_jar_path : string)
           (config : config) : M unit :=
  let linux_agent_secret := getenv w "LINUX_AGENT_SECRET" in
  if negb (truthy linux_agent_secret) then
    logging ERROR "LINUX_AGENT_SECRET is not set in the .env file." ;;
    raise (Exc ValueErrorC "LINUX_AGENT_SECRET is required in the .env file")
  else
    let secret := match linux_agent_secret with
                  | Some s => s
                  | None => EmptyString
                  end in
    url <- server_url config ;;
    name <- agent_detail config "LINUX" "AGENT_NAME" ;;
    workdir <- agent_detail config "LINUX" "AGENT_WORKDIR" ;;
    try_except
      (logging INFO "Granting write permission to /etc/systemd/system/" ;;
       subprocess_run w ["sudo"; "chmod"; "o+w"; "/etc/systemd/system/"] ;;
       logging INFO "Writing the service file." ;;
       io w (WriteFile service_file_path
               (service_file_content agent_jar_path url secret name
                  workdir)) ;;
       logging INFO "Service file written successfully." ;;
       logging INFO "Reverting write permission for /etc/systemd/system/" ;;
       subprocess_run w ["sudo"; "chmod"; "o-w"; "/etc/systemd/system/"] ;;
       run_command ["sudo"; "systemctl"; "daemon-reload"]
         "Failed to reload systemd daemon" ;;
       run_command ["sudo"; "systemctl"; "enable"; "jenkins-agent"]
         "Failed to enable Jenkins agent service" ;;
       run_command ["sudo"; "systemctl"; "start"; "jenkins-agent"]
         "Failed to start Jenkins agent service")
      is_CalledProcessError
      (fun e =>
         logging ERROR
           ("Failed to configure Jenkins agent service: " ++ str_exn e)).

Definition sc_create_command (java_path agent_jar_path url secret
                              service_name agent_workdir : string)
  : list string :=
  [ "sc.exe"; "create"; service_name;
    "binPath= " ++ dq ++ java_path ++ " -jar " ++ agent_jar_path
      ++ " -url " ++ url ++ " -secret " ++ secret ++ " -name "
      ++ service_name ++ " -workDir " ++ agent_workdir ++ dq;
    "start="; "auto" ].

Definition configure_windows_service (agent_jar_path : string)
           (config : config) : M unit :=
  let windows_agent_secret := getenv w "WINDOWS_AGENT_SECRET" in
  if negb (truthy windows_agent_secret) then
    logging ERROR "WINDOWS_AGENT_SECRET is not set in the .env file." ;;
    raise (Exc ValueErrorC "WINDOWS_AGENT_SECRET is required in the .env file")
  else
    let secret := match windows_agent_secret with
                  | Some s => s
                  | None => EmptyString
                  end in
    service_name <- agent_detail config "WINDOWS" "AGENT_NAME" ;;
    agent_workdir <- agent_detail config "WINDOWS" "AGENT_WORKDIR" ;;
    java_path <- match getenv w "JAVA_HOME" with
                 | Some java_home =>
                     ret (path_join w [java_home; "bin"; "java.exe"])
                 | None =>
                     raise (Exc TypeErrorC
                              "expected str, bytes or os.PathLike object, not NoneType")
                 end ;;
    url <- server_url config ;;
    let command := sc_create_command java_path agent_jar_path url secret
                     service_name agent_workdir in
    logging INFO
      ("Registering Jenkins agent as a Windows service with name '"
         ++ service_name ++ "'") ;;
    run_command command
      ("Failed to create Windows service '" ++ service_name ++ "'") ;;
    let sc_start_command := ["sc.exe"; "start"; service_name] in
    run_command sc_start_command
      ("Failed to start Windows service '" ++ service_name ++ "'").

Definition main (f : config_file) : M unit :=
  setup_logging ;;
  load_env_file ;;
  let CONFIG_PATH := "../config.json" in
  config <- load_config_file CONFIG_PATH f ;;
  validate_configuration config ;;
  match config with
  | None => ret tt     (* not reached: the validation has raised *)
  | Some config =>
      agent_jar_path <- download_jenkins_agent config ;;
      if String.eqb get_platform "linux" then
        configure_linux_service agent_jar_path config
      else if String.eqb get_platform "windows" then
        configure_windows_service agent_jar_path config
      else
        logging ERROR
          "Unsupported platform. Only Windows and Linux are supported."
  end.
End Script.

End Manager.

(* ================================================================== *)
(** * Hosts and configurations used in the examples *)
(* ================================================================== *)

Module Examples.

Definition is_nil_Z (l : list Z) : bool :=
  match l with [] => true | _ => false end.

Definition env_of (vars : list (string * string)) : string -> option string :=
  fun name => assoc name vars.

(** A host where no I/O step fails and no signal arrives; commands answer
    by [p]. *)
Definition host (system : string) (vars : list (string * string))
           (p : trace -> list string -> proc_outcome) : world :=
  {| platform_system := system;
     getenv := env_of vars;
     getcwd := "/opt/jenkins";
     getlogin := "ci";
     home := "/home/ci";
     path_join := String.concat "/";
     dirname := fun _ => "/home/ci/jenkins";
     path_exists := fun _ _ => false;
     proc := p;
     fault := fun _ _ => None;
     sigs := fun _ => None |}.

(** Every command exits with status 0 and prints nothing. *)
Definition succeeds : trace -> list string -> proc_outcome :=
  fun _ _ => Exited 0 EmptyString EmptyString.

(** Every command exits with status 1. *)
Definition always_fails : trace -> list string -> proc_outcome :=
  fun _ _ => Exited 1 EmptyString "boom".

(** The n-th command run prints the n-th element of [outs]. *)
Definition scripted (outs : list string) : trace -> list string -> proc_outcome :=
  fun h _ => Exited 0 (nth (length (runs h)) outs EmptyString) EmptyString.

(** The download goes through, [sc.exe] exits with status 1. *)
Definition sc_fails : trace -> list string -> proc_outcome :=
  fun _ cmd =>
    match cmd with
    | exe :: _ => if String.eqb exe "sc.exe"
                  then Exited 1 EmptyString "denied"
                  else Exited 0 EmptyString EmptyString
    | [] => Exited 0 EmptyString EmptyString
    end.

(** The first [n] commands run exit with status 1, the later ones with
    status 0. *)
Definition fails_first (n : nat) : trace -> list string -> proc_outcome :=
  fun h _ =>
    if Nat.ltb (length (runs h)) n
    then Exited 1 EmptyString "busy"
    else Exited 0 "done" EmptyString.

(** A stopped unit: [systemctl is-active] prints "inactive" and exits
    with status 3; every other command exits with status 0. *)
Definition unit_down : trace -> list string -> proc_outcome :=
  fun _ cmd =>
    match cmd with
    | [_; verb; _] => if String.eqb verb "is-active"
                      then Exited 3 ("inactive" ++ nl) EmptyString
                      else Exited 0 EmptyString EmptyString
    | _ => Exited 0 EmptyString EmptyString
    end.

(** No command can be started. *)
Definition cannot_start : trace -> list string -> proc_outcome :=
  fun _ _ => SpawnFailed "[Errno 2] No such file or directory".

(** [systemctl enable] exits with status 1, every other command with
    status 0. *)
Definition enable_fails : trace -> list string -> proc_outcome :=
  fun _ cmd =>
    match cmd with
    | [_; verb; _] => if String.eqb verb "enable"
                      then Exited 1 EmptyString "masked"
                      else Exited 0 EmptyString EmptyString
    | _ => Exited 0 EmptyString EmptyString
    end.

(** A command that has [arg] among its words exits with status 1, every
    other command with status 0. *)
Definition fails_on (arg : string) : trace -> list string -> proc_outcome :=
  fun _ cmd =>
    if existsb (String.eqb arg) cmd
    then Exited 1 EmptyString "denied"
    else Exited 0 EmptyString EmptyString.

(** A config that names a Windows agent only. *)
Definition windows_only_config : Manager.config :=
  {| Manager.JENKINS_SERVER_URL := Some "http://jenkins:8080";
     Manager.AGENT_DETAILS :=
       Some [ ("WINDOWS", Manager.Object
                            [ ("AGENT_NAME", "agent-1");
                              ("AGENT_WORKDIR", "D:/jenkins") ]) ] |}.

(** An environment with the secrets and without JAVA_HOME. *)
Definition no_java_home : list (string * string) :=
  [ ("SMTP_PASSWORD", "pw"); ("LINUX_AGENT_SECRET", "tok123");
    ("WINDOWS_AGENT_SECRET", "tok123") ].

(** An environment with the agent secrets and without SMTP_PASSWORD. *)
Definition no_smtp_password : list (string * string) :=
  [ ("LINUX_AGENT_SECRET", "tok123"); ("WINDOWS_AGENT_SECRET", "tok123") ].

(** A monitor config whose agent details name a Windows agent only. *)
Definition monitor_windows_only_config : Monitor.config :=
  {| Monitor.JENKINS_SERVER_URL := "http://jenkins:8080";
     Monitor.AGENT_DETAILS :=
       Some [ ("Windows", {| Monitor.AGENT_NAME := "agent-1";
                             Monitor.AGENT_WORKDIR := "D:/jenkins" |}) ];
     Monitor.ALERT_EMAIL := "ops@example.org";
     Monitor.SMTP_SERVER := "smtp.example.org";
     Monitor.SMTP_PORT := 587;
     Monitor.SMTP_USERNAME := "monitor@example.org";
     Monitor.CHECK_INTERVAL := 30;
     Monitor.DEBUG_MODE := false |}.

(** A config whose LINUX value is an array of the two key names: the
    document
    [{"JENKINS_SERVER_URL": "http://jenkins:8080",
      "AGENT_DETAILS": {"LINUX": ["AGENT_NAME", "AGENT_WORKDIR"]}}]. *)
Definition array_entry_config : Manager.config :=
  {| Manager.JENKINS_SERVER_URL := Some "http://jenkins:8080";
     Manager.AGENT_DETAILS :=
       Some [ ("LINUX", Manager.Array [ Manager.Text "AGENT_NAME";
                                        Manager.Text "AGENT_WORKDIR" ]) ] |}.

Definition secrets : list (string * string) :=
  [ ("SMTP_PASSWORD", "pw"); ("LINUX_AGENT_SECRET", "tok123");
    ("WINDOWS_AGENT_SECRET", "tok123"); ("JAVA_HOME", "C:/java") ].

Definition no_agent_secret : list (string * string) :=
  [ ("SMTP_PASSWORD", "pw"); ("JAVA_HOME", "C:/java") ].

Definition monitor_config : Monitor.config :=
  {| Monitor.JENKINS_SERVER_URL := "http://jenkins:8080";
     Monitor.AGENT_DETAILS :=
       Some [ ("Linux", {| Monitor.AGENT_NAME := "agent-1";
                           Monitor.AGENT_WORKDIR := "/var/jenkins" |});
              ("Windows", {| Monitor.AGENT_NAME := "agent-1";
                             Monitor.AGENT_WORKDIR := "D:/jenkins" |}) ];
     Monitor.ALERT_EMAIL := "ops@example.org";
     Monitor.SMTP_SERVER := "smtp.example.org";
     Monitor.SMTP_PORT := 587;
     Monitor.SMTP_USERNAME := "monitor@example.org";
     Monitor.CHECK_INTERVAL := 30;
     Monitor.DEBUG_MODE := false |}.

Definition manager_config : Manager.config :=
  {| Manager.JENKINS_SERVER_URL := Some "http://jenkins:8080";
     Manager.AGENT_DETAILS :=
       Some [ ("LINUX", Manager.Object
                          [ ("AGENT_NAME", "agent-1");
                            ("AGENT_WORKDIR", "/var/jenkins") ]);
              ("WINDOWS", Manager.Object
                            [ ("AGENT_NAME", "agent-1");
                              ("AGENT_WORKDIR", "D:/jenkins") ]) ] |}.

(** What [systemctl is-active] prints for a running unit. *)
Definition active_out : string := "active" ++ nl.

(** The state line of [sc.exe query], for a running and for a stopped
    service. *)
Definition running_out : string :=
  "        STATE              : 4  RUNNING " ++ nl.
Definition stopped_out : string :=
  "        STATE              : 1  STOPPED " ++ nl.

(** The observed sequence Active, Inactive, Inactive, Inactive, Active,
    Inactive, as [sc.exe query] prints it. *)
Definition outage_script : list string :=
  [ running_out; stopped_out; stopped_out; stopped_out; running_out;
    stopped_out ].

(** A host that delivers SIGTERM during the first sleep between two
    passes of the monitor loop, that is the first sleep of the configured
    interval. *)
Definition sigterm_between_ticks (system : string) : world :=
  {| platform_system := system;
     getenv := env_of secrets;
     getcwd := "/opt/jenkins";
     getlogin := "ci";
     home := "/home/ci";
     path_join := String.concat "/";
     dirname := fun _ => "/home/ci/jenkins";
     path_exists := fun _ _ => false;
     proc := fun _ _ => Exited 0 active_out EmptyString;
     fault := fun _ _ => None;
     sigs := fun h => if is_nil_Z (sleeps h) then Some 15%Z else None |}.

End Examples.

(* ================================================================== *)
(** * Vocabulary of the statements *)
(* ================================================================== *)

Local Open Scope list_scope.

(** A command that exits with a non-zero status. *)
Definition fails (o : proc_outcome) : bool :=
  match o with
  | Exited rc _ _ => negb (rc =? 0)%Z
  | SpawnFailed _ => false
  end.

(** No signal is ever delivered. *)
Definition quiet (w : world) : Prop := forall h, sigs w h = None.

(** The platforms the scripts know. *)
Definition supported (system : string) : Prop :=
  system = "Linux"%string \/ system = "Windows"%string.

(** The status query of the monitor and its reading of the output, per
    platform, as [monitor_iteration] has them. *)
Definition status_query (system name : string) : list string :=
  if String.eqb system "Linux"
  then ["systemctl"; "is-active"; name]%string
  else ["sc.exe"; "query"; name]%string.

Definition status_context (system name : string) : string :=
  (if String.eqb system "Linux"
   then "Failed to check status for Linux service '" ++ name ++ "'"
   else "Failed to check status for Windows service '" ++ name ++ "'")%string.

Definition observed_active (system out : string) : bool :=
  if String.eqb system "Linux" then Monitor.linux_active out
  else if String.eqb system "Windows" then Monitor.windows_active out
  else false.

Definition alert_message (name : string) : string :=
  ("ALERT: Jenkins agent service '" ++ name ++ "' is down!")%string.

(** The platform's agent secret is unset or empty in the environment. *)
Definition monitor_secret_absent (w : world) : Prop :=
  (platform_system w = "Linux"%string
   /\ truthy (getenv w "LINUX_AGENT_SECRET") = false)
  \/ (platform_system w = "Windows"%string
      /\ truthy (getenv w "WINDOWS_AGENT_SECRET") = false).

Definition manager_secret_absent (w : world) : Prop :=
  (Manager.get_platform w = "linux"%string
   /\ truthy (getenv w "LINUX_AGENT_SECRET") = false)
  \/ (Manager.get_platform w = "windows"%string
      /\ truthy (getenv w "WINDOWS_AGENT_SECRET") = false).

Definition manager_supported (w : world) : Prop :=
  Manager.get_platform w = "linux"%string
  \/ Manager.get_platform w = "windows"%string.

(** The monitor's config has an entry for the platform of the host. *)
Definition has_entry (w : world) (cfg : Monitor.config) : Prop :=
  exists details entry,
    Monitor.AGENT_DETAILS cfg = Some details
    /\ assoc (platform_system w) details = Some entry.

(** What [validate_configuration] of the monitor lets through. *)
Definition monitor_valid (w : world) (cfg : Monitor.config) : Prop :=
  Monitor.AGENT_DETAILS cfg <> None
  /\ truthy (Monitor.SMTP_PASSWORD w) = true.

(** Events that leave the service manager and its unit files alone: no
    file is written, and the only command is the download of the jar. *)
Definition no_service_action (ev : event) : Prop :=
  match ev with
  | WriteFile _ _ => False
  | Run c => hd_error c = Some "curl"%string
  | _ => True
  end.

(** The commands of the Linux installer of Jenkins_agent_manager.py. *)
Definition linux_service_commands : list (list string) :=
  [ ["sudo"; "chmod"; "o+w"; "/etc/systemd/system/"];
    ["sudo"; "chmod"; "o-w"; "/etc/systemd/system/"];
    ["sudo"; "systemctl"; "daemon-reload"];
    ["sudo"; "systemctl"; "enable"; "jenkins-agent"];
    ["sudo"; "systemctl"; "start"; "jenkins-agent"] ]%string.

(** What the Linux installer may do: log, run one of its commands, write
    the unit file at its fixed path. *)
Definition linux_unit_event (jar : string) (ev : event) : Prop :=
  match ev with
  | Log _ _ => True
  | Run c => In c linux_service_commands
  | WriteFile path content =>
      path = Manager.service_file_path
      /\ exists url secret name workdir,
           content = Manager.service_file_content jar url secret name workdir
  | _ => False
  end.

Definition user_line : string := (nl ++ "    User=gopal" ++ nl)%string.

(** A trace with the contents of the written files blanked. *)
Definition redact_ev (ev : event) : event :=
  match ev with
  | WriteFile path _ => WriteFile path EmptyString
  | _ => ev
  end.

Definition redact (tr : trace) : trace := map redact_ev tr.

(** The host does not look into the files the script writes: its answers
    are the same on traces that differ in file contents only. *)
Definition blind (w : world) : Prop :=
  (forall h h' c, redact h = redact h' -> proc w h c = proc w h' c)
  /\ (forall h h' ev ev', redact h = redact h' ->
                          redact_ev ev = redact_ev ev' ->
                          fault w h ev = fault w h' ev')
  /\ (forall h h', redact h = redact h' -> sigs w h = sigs w h')
  /\ (forall h h' p, redact h = redact h' ->
                     path_exists w h p = path_exists w h' p).

(** The host [w] with the environment variable [var] set to [value]. *)
Definition with_env (w : world) (var value : string) : world :=
  {| platform_system := platform_system w;
     getenv := fun v => if String.eqb v var then Some value else getenv w v;
     getcwd := getcwd w;
     getlogin := getlogin w;
     home := home w;
     path_join := path_join w;
     dirname := dirname w;
     path_exists := path_exists w;
     proc := proc w;
     fault := fault w;
     sigs := sigs w |}.

(** Two computations that, from traces equal up to file contents, reach
    traces equal up to file contents, with the same exception or with
    values related by [R]. *)
Definition sim {A B} (R : A -> B -> Prop) (m1 : M A) (m2 : M B) : Prop :=
  forall t1 t2,
    redact t1 = redact t2 ->
    redact (snd (m1 t1)) = redact (snd (m2 t2))
    /\ match fst (m1 t1), fst (m2 t2) with
       | Ok a, Ok b => R a b
       | Raise e1, Raise e2 => e1 = e2
       | _, _ => False
       end.

(** Characters that [repr] prints as they are, whatever the quote. *)
Definition plain_char (c : ascii) : bool :=
  let n := nat_of_ascii c in
  (printable n && negb (n =? 34) && negb (n =? 39) && negb (n =? 92))%nat.

Fixpoint plain (s : string) : bool :=
  match s with
  | EmptyString => true
  | String c s' => plain_char c && plain s'
  end.

(** Some log record of the trace contains [s]. *)
Definition logged (s : string) (tr : trace) : bool :=
  existsb (fun r => contains s (snd r)) (logs tr).

(** The unit file and the commands of the Linux installer of test.py, for
    the agent [name]. *)
Definition monitor_unit_path (name : string) : string :=
  ("/etc/systemd/system/" ++ name ++ ".service")%string.



(** What the monitoring phase of test.py may do for the service [name]:
    log, sleep, ask for the status of that service with the query of the
    platform, and talk to the configured SMTP server about that service. *)
Definition monitoring_event (w : world) (cfg : Monitor.config)
           (name : string) (ev : event) : Prop :=
  match ev with
  | Log _ _ => True
  | Sleep _ => True
  | Run c => c = status_query (platform_system w) name
  | SmtpConnect server port =>
      server = Monitor.SMTP_SERVER cfg /\ port = Monitor.SMTP_PORT cfg
  | SmtpStartTls => True
  | SmtpLogin user password =>
      user = Monitor.SMTP_USERNAME cfg /\ password = Monitor.SMTP_PASSWORD w
  | SmtpSendmail sender rcpt subject body =>
      sender = Monitor.SMTP_USERNAME cfg
      /\ rcpt = Monitor.ALERT_EMAIL cfg
      /\ subject = ("Jenkins Agent Alert: " ++ name)%string
      /\ body = alert_message name
  | SmtpQuit => True
  | _ => False
  end.

(** [m] reads and writes no state: its result is the same from every
    trace, and the trace is handed on as it is. *)
Definition pure {A} (m : M A) : Prop :=
  forall tr, m tr = (fst (m []), tr).

(** The platform values that the validation of Jenkins_agent_manager.py
    lets through: an object with both keys, an array with both key names
    among its elements, or a string with both key names inside. *)
Definition accepted_value (v : Manager.value) : Prop :=
  match v with
  | Manager.Object entry =>
      exists name workdir,
        assoc "AGENT_NAME" entry = Some name
        /\ assoc "AGENT_WORKDIR" entry = Some workdir
  | Manager.Array items =>
      In (Manager.Text "AGENT_NAME") items
      /\ In (Manager.Text "AGENT_WORKDIR") items
  | Manager.Text s =>
      contains "AGENT_NAME" s = true /\ contains "AGENT_WORKDIR" s = true
  | _ => False
  end.

(** [m] raises from every trace. *)
Definition always_raises {A} (m : M A) : Prop :=
  forall tr, exists e, fst (m tr) = Raise e.

(** The installer's config passes its validation. *)
Definition manager_valid (cfg : Manager.config) : bool :=
  match fst (Manager.validate_configuration (Some cfg) []) with
  | Ok _ => true
  | Raise _ => false
  end.

(** One failed attempt of the retry runner, with its log message. *)
Definition failed_attempt (command : list string) (delay : Z) (m : string)
  : trace :=
  [Run command; Log ERROR m; Sleep delay].

(** The exceptions a result may carry. *)
Definition raises_only {A} (X : exn -> Prop) (r : result A) : Prop :=
  match r with
  | Ok _ => True
  | Raise e => X e
  end.

(** [m] extends any trace, by events that satisfy [E], and raises only
    exceptions that satisfy [X]. *)
Definition triple {A} (m : M A) (E : event -> Prop) (X : exn -> Prop)
  : Prop :=
  forall tr, exists new,
    snd (m tr) = tr ++ new /\ Forall E new /\ raises_only X (fst (m tr)).

Definition any_event : event -> Prop := fun _ => True.
Definition any_exn : exn -> Prop := fun _ => True.
Definition no_exn : exn -> Prop := fun _ => False.
Definition below_Exception : exn -> Prop := fun e => is_Exception e = true.

(* ================================================================== *)
(** * Basic facts *)
(* ================================================================== *)

Lemma logs_app (a b : trace) : logs (a ++ b) = (logs a ++ logs b).
Proof. apply flat_map_app. Qed.

Lemma runs_app (a b : trace) : runs (a ++ b) = (runs a ++ runs b).
Proof. apply flat_map_app. Qed.

Lemma sleeps_app (a b : trace) : sleeps (a ++ b) = (sleeps a ++ sleeps b).
Proof. apply flat_map_app. Qed.

Lemma writes_app (a b : trace) : writes (a ++ b) = (writes a ++ writes b).
Proof. apply flat_map_app. Qed.

Lemma alerts_app (a b : trace) : alerts (a ++ b) = alerts a + alerts b.
Proof. unfold alerts. now rewrite filter_app, length_app. Qed.

Lemma fails_inv (o : proc_outcome) :
  fails o = true ->
  exists rc out err, o = Exited rc out err /\ (rc =? 0)%Z = false.
Proof.
  destruct o as [rc out err | msg]; simpl; [ | discriminate ].
  intro H. exists rc, out, err. split; [ reflexivity | ].
  now destruct (rc =? 0)%Z.
Qed.

Section RetryRunner.
Variable w : world.

Lemma time_sleep_quiet (d : Z) (tr : trace) :
  quiet w -> Monitor.time_sleep w d tr = (Ok tt, (tr ++ [Sleep d])).
Proof.
  intro Hq. unfold Monitor.time_sleep, bind, history, emit, ret.
  now rewrite Hq.
Qed.

(** The loop over the attempts when each of them fails: one [Run], one
    error record and one sleep per attempt, and the loop runs out. *)
Lemma retry_loop_all_fail (command : list string) (error_message : string)
      (retries delay : Z) :
  quiet w ->
  (forall h, fails (proc w h command) = true) ->
  forall (attempts : list Z) (tr : trace),
  exists errs,
    length errs = length attempts /\
    Monitor.retry_loop w command error_message retries delay attempts tr
    = (Ok None, (tr ++ flat_map (failed_attempt command delay) errs)).
Proof.
  intros Hq Hf attempts.
  induction attempts as [ | attempt rest IH ]; intro tr.
  - exists []. split; [ reflexivity | ].
    simpl. now rewrite app_nil_r.
  - destruct (fails_inv _ (Hf tr)) as (rc & out & err & Hp & Hrc).
    set (m := (error_message ++ ": "
                 ++ str_exn (CalledProcessError command rc out err)
                 ++ ". Attempt " ++ str_int (attempt + 1) ++ "/"
                 ++ str_int retries)%string).
    destruct (IH (tr ++ failed_attempt command delay m))
      as (errs & Hlen & Hrun).
    exists (m :: errs). split; [ simpl; now rewrite Hlen | ].
    cbn [Monitor.retry_loop].
    unfold bind at 1, try_except, bind at 1, subprocess_run.
    unfold bind at 1, history. unfold bind at 1, emit.
    rewrite Hp, Hrc. unfold raise at 1. cbn [is_CalledProcessError].
    unfold bind at 1, logging, emit. unfold bind at 1.
    rewrite time_sleep_quiet by assumption. unfold ret at 1.
    unfold failed_attempt in *. subst m.
    rewrite <- !app_assoc in *. cbn [app flat_map] in *. exact Hrun.
Qed.
End RetryRunner.

(** ** Rules for [triple] *)

Section Rules.
Context {A B : Type}.
Variable E : event -> Prop.
Variable X : exn -> Prop.

Lemma triple_ret (a : A) : triple (ret a) E X.
Proof. intro tr. exists []. simpl. now rewrite app_nil_r. Qed.

Lemma triple_raise (e : exn) : X e -> triple (@raise A e) E X.
Proof. intros He tr. exists []. simpl. now rewrite app_nil_r. Qed.

Lemma triple_bind (m : M A) (k : A -> M B) :
  triple m E X -> (forall a, triple (k a) E X) -> triple (bind m k) E X.
Proof.
  intros Hm Hk tr. unfold bind.
  destruct (Hm tr) as (n1 & H1 & F1 & R1).
  destruct (m tr) as [[a | e] tr1]; simpl in *; subst tr1.
  - destruct (Hk a (tr ++ n1)) as (n2 & H2 & F2 & R2).
    exists (n1 ++ n2). rewrite H2, app_assoc.
    split; [ reflexivity | split; [ now apply Forall_app | exact R2 ] ].
  - exists n1. auto.
Qed.

Lemma triple_try (X1 : exn -> Prop) (m : M A) (handles : exn -> bool)
      (h : exn -> M A) :
  triple m E X1 ->
  (forall e, handles e = true -> X1 e -> triple (h e) E X) ->
  (forall e, handles e = false -> X1 e -> X e) ->
  triple (try_except m handles h) E X.
Proof.
  intros Hm Hh Hx tr. unfold try_except.
  destruct (Hm tr) as (n1 & H1 & F1 & R1).
  destruct (m tr) as [[a | e] tr1]; simpl in *; subst tr1.
  - exists n1. auto.
  - destruct (handles e) eqn:Hc.
    + destruct (Hh e Hc R1 (tr ++ n1)) as (n2 & H2 & F2 & R2).
      exists (n1 ++ n2). rewrite H2, app_assoc.
      split; [ reflexivity | split; [ now apply Forall_app | exact R2 ] ].
    + exists n1. simpl. auto.
Qed.

Lemma triple_weaken (E1 : event -> Prop) (X1 : exn -> Prop) (m : M A) :
  triple m E1 X1 ->
  (forall ev, E1 ev -> E ev) -> (forall e, X1 e -> X e) ->
  triple m E X.
Proof.
  intros Hm HE HX tr. destruct (Hm tr) as (n & H & F & R).
  exists n. split; [ exact H | split ].
  - eapply Forall_impl; [ | exact F ]. exact HE.
  - destruct (fst (m tr)); simpl in *; auto.
Qed.
End Rules.

Section UnitRules.
Variable E : event -> Prop.
Variable X : exn -> Prop.

Lemma triple_emit (ev : event) : E ev -> triple (emit ev) E X.
Proof. intros He tr. exists [ev]. simpl. auto. Qed.

Lemma triple_logging (lv : level) (msg : string) :
  E (Log lv msg) -> triple (logging lv msg) E X.
Proof. apply triple_emit. Qed.

Lemma triple_history {B : Type} (k : trace -> M B) :
  (forall h, triple (k h) E X) -> triple (bind history k) E X.
Proof.
  intros Hk tr. unfold bind, history. apply Hk.
Qed.

Lemma triple_io (w : world) (ev : event) :
  E ev -> (forall c msg, X (Exc c msg)) -> triple (io w ev) E X.
Proof.
  intros He Hx tr. unfold io, bind, history, emit.
  exists [ev]. destruct (fault w tr ev) as [[c msg] | ]; simpl; auto.
Qed.

Lemma triple_subprocess_run (w : world) (command : list string) :
  E (Run command) ->
  (forall rc out err, X (CalledProcessError command rc out err)) ->
  (forall msg, X (Exc OSErrorC msg)) ->
  triple (subprocess_run w command) E X.
Proof.
  intros He Hc Ho tr. unfold subprocess_run, bind, history, emit.
  exists [Run command].
  destruct (proc w tr command) as [rc out err | msg]; simpl; auto.
  destruct (rc =? 0)%Z; simpl; auto.
Qed.
End UnitRules.

Ltac tri :=
  lazymatch goal with
  | |- triple (ret _) _ _ => apply triple_ret
  | |- triple (raise _) _ _ => apply triple_raise
  | |- triple (bind history _) _ _ => apply triple_history; intro
  | |- triple (bind _ _) _ _ => apply triple_bind; [ | intro ]
  | |- triple (logging _ _) _ _ => apply triple_logging
  | |- triple (emit _) _ _ => apply triple_emit
  | |- triple (io _ _) _ _ => apply triple_io
  | |- triple (subprocess_run _ _) _ _ => apply triple_subprocess_run
  | |- triple (match ?x with _ => _ end) _ _ => destruct x eqn:?
  end.

Ltac tri_side :=
  first [ exact I | (intros; exact I) | (intros; reflexivity) ].

(** Decompose a goal along the program, closing what the given tactic or a
    side condition closes. *)
Ltac tri_with known := repeat first [ known | tri | tri_side ].

Ltac flatten_trace :=
  rewrite <- ?app_assoc; cbn [app].

(** ** The alert mail *)

Section Alert.
Variable w : world.
Variable cfg : Monitor.config.

Let connect := SmtpConnect (Monitor.SMTP_SERVER cfg) (Monitor.SMTP_PORT cfg).
Let login := SmtpLogin (Monitor.SMTP_USERNAME cfg) (Monitor.SMTP_PASSWORD w).

(** Whatever the transport does, [send_alert_email] returns; it opens one
    session; and either the whole session went through and the success is
    logged, or a step raised and an error record carries its message. *)
Lemma send_alert_email_cases (subject message : string) (tr : trace) :
  let announce :=
    Log INFO ("Sending alert email with subject: " ++ subject)%string in
  let mail := SmtpSendmail (Monitor.SMTP_USERNAME cfg)
                (Monitor.ALERT_EMAIL cfg) subject message in
  exists new,
    Monitor.send_alert_email w cfg subject message tr
    = (Ok tt, tr ++ announce :: connect :: new)
    /\ alerts new = 0 /\ runs new = []
    /\ ((new = [SmtpStartTls; login; mail; SmtpQuit;
                Log INFO "Alert email sent successfully."]
         /\ fault w (tr ++ [announce]) connect = None
         /\ fault w (tr ++ [announce; connect]) SmtpStartTls = None
         /\ fault w (tr ++ [announce; connect; SmtpStartTls]) login = None
         /\ fault w (tr ++ [announce; connect; SmtpStartTls; login]) mail
            = None
         /\ fault w (tr ++ [announce; connect; SmtpStartTls; login; mail])
              SmtpQuit = None)
        \/ (exists h ev c msg,
               fault w h ev = Some (c, msg)
               /\ In (Log ERROR ("Failed to send alert email: " ++ msg)%string)
                    new)).
Proof.
  intros announce mail.
  cbv beta iota delta [Monitor.send_alert_email Monitor.with_smtp
                         try_except bind logging io history emit raise ret].
  fold connect login announce mail.
  repeat (match goal with
          | |- context [fault w ?h ?ev] =>
              destruct (fault w h ev) as [[? ?] | ] eqn:?
          end; cbv beta iota; flatten_trace).
  all: cbn [is_Exception str_exn].
  all: eexists; (split; [ reflexivity | ]);
    (split; [ reflexivity | split; [ reflexivity | ] ]).
  all: first
         [ left; repeat split; reflexivity
         | right;
           match goal with
           | H : fault w ?h ?ev = Some (?c, ?msg) |- _ =>
               exists h, ev, c, msg; split; [ exact H | simpl; tauto ]
           end ].
Qed.

Lemma send_alert_email_triple (subject message : string) :
  triple (Monitor.send_alert_email w cfg subject message) any_event no_exn.
Proof.
  intro tr.
  destruct (send_alert_email_cases subject message tr) as (new & H & _).
  rewrite H. simpl. eexists. split; [ reflexivity | split; [ | exact I ] ].
  apply Forall_forall. intros; exact I.
Qed.
End Alert.

(** ** The retry runner and the monitor loop on any host *)

Section MonitorFacts.
Variable w : world.
Variable cfg : Monitor.config.

Lemma signal_handler_raises (sig : Z) (tr : trace) :
  Monitor.signal_handler sig tr
  = (Raise (Exc NameErrorC "name 'sys' is not defined"),
     tr ++ [Log INFO "Received shutdown signal, cleaning up..."]).
Proof. reflexivity. Qed.

Lemma time_sleep_triple (d : Z) :
  triple (Monitor.time_sleep w d) any_event below_Exception.
Proof.
  intro tr. unfold Monitor.time_sleep, bind, history, emit.
  destruct (sigs w tr) as [sig | ].
  - rewrite signal_handler_raises. simpl. eexists.
    rewrite <- app_assoc.
    split; [ reflexivity | split; [ | reflexivity ] ].
    repeat constructor.
  - exists [Sleep d]. simpl. repeat constructor.
Qed.

Lemma retry_loop_triple (command : list string) (error_message : string)
      (retries delay : Z) (attempts : list Z) :
  triple (Monitor.retry_loop w command error_message retries delay attempts)
         any_event below_Exception.
Proof.
  induction attempts as [ | attempt rest IH ]; cbn [Monitor.retry_loop].
  - tri.
  - tri; [ | tri_with ltac:(exact IH) ].
    eapply triple_try with (X1 := below_Exception).
    + tri_with fail.
    + intros e _ _. tri_with ltac:(apply time_sleep_triple).
    + intros e _ He. exact He.
Qed.

Lemma run_command_with_retry_triple (command : list string)
      (error_message : string) (retries delay : Z) :
  triple (Monitor.run_command_with_retry w command error_message retries
            delay)
         any_event below_Exception.
Proof.
  unfold Monitor.run_command_with_retry.
  tri_with ltac:(apply retry_loop_triple).
Qed.

Lemma send_alert_email_below (subject message : string) :
  triple (Monitor.send_alert_email w cfg subject message)
         any_event below_Exception.
Proof.
  eapply triple_weaken; [ apply send_alert_email_triple | auto | ].
  intros e [].
Qed.

(** One pass of the loop body never raises, whatever the host does. *)
Lemma monitor_iteration_triple (agent_name : string) :
  triple (Monitor.monitor_iteration w cfg agent_name) any_event no_exn.
Proof.
  unfold Monitor.monitor_iteration.
  eapply triple_try with (X1 := below_Exception).
  - tri_with ltac:(first [ apply run_command_with_retry_triple
                         | apply send_alert_email_below ]).
  - intros e _ _. tri_with fail.
  - intros e H1 H2. unfold below_Exception in H2. congruence.
Qed.

Lemma range_pos (n : Z) :
  (0 < n)%Z -> exists rest, range n = 0%Z :: rest.
Proof.
  intro H. unfold range.
  destruct (Z.to_nat n) as [ | k ] eqn:Hk; [ lia | ].
  simpl. eexists. reflexivity.
Qed.

(** A command that exits with status 0 at the first attempt. *)
Lemma run_command_with_retry_first (command : list string)
      (error_message : string) (retries delay : Z) (tr : trace)
      (out err : string) :
  (0 < retries)%Z ->
  proc w tr command = Exited 0 out err ->
  Monitor.run_command_with_retry w command error_message retries delay tr
  = (Ok {| returncode := 0; stdout := out; stderr := err |},
     tr ++ [Run command]).
Proof.
  intros Hr Hp. unfold Monitor.run_command_with_retry.
  destruct (range_pos retries Hr) as (rest & ->).
  cbn [Monitor.retry_loop].
  cbv beta iota delta [bind try_except subprocess_run history emit ret].
  rewrite Hp. reflexivity.
Qed.

(** The runner when every attempt exits with a non-zero status. *)
Lemma run_command_with_retry_all_fail (command : list string)
      (error_message : string) (retries delay : Z) (tr : trace) :
  quiet w ->
  (forall h, fails (proc w h command) = true) ->
  exists errs,
    length errs = Z.to_nat retries /\
    Monitor.run_command_with_retry w command error_message retries delay tr
    = (Raise (Exc RuntimeErrorC error_message),
       tr ++ flat_map (failed_attempt command delay) errs
          ++ [Log CRITICAL
                ("Command failed after " ++ str_int retries
                   ++ " attempts: " ++ str_list command)%string]).
Proof.
  intros Hq Hf.
  destruct (retry_loop_all_fail w command error_message retries delay
              Hq Hf (range retries) tr) as (errs & Hlen & Hrun).
  exists errs. split.
  - rewrite Hlen. unfold range. now rewrite length_map, length_seq.
  - unfold Monitor.run_command_with_retry, bind. rewrite Hrun.
    unfold logging, emit, raise. now rewrite <- app_assoc.
Qed.
End MonitorFacts.

(** ** One pass of the monitor loop *)

Section Tick.
Variable w : world.
Variable cfg : Monitor.config.

Ltac platform_cases Hs :=
  destruct Hs as [Hs | Hs];
  unfold status_query, status_context, observed_active in *;
  unfold Monitor.monitor_iteration;
  rewrite Hs in *;
  change (String.eqb "Linux" "Linux") with true in *;
  change (String.eqb "Windows" "Linux") with false in *;
  change (String.eqb "Windows" "Windows") with true in *;
  cbv beta iota in *.

(** The query succeeds and prints [out]: the pass alerts if and only if
    [out] does not read as active; it keeps no memory of earlier passes. *)
Lemma monitor_iteration_observed (name : string) (tr : trace)
      (out err : string) :
  let system := platform_system w in
  supported system ->
  proc w tr (status_query system name) = Exited 0 out err ->
  exists new,
    Monitor.monitor_iteration w cfg name tr
    = (Ok tt, tr ++ Run (status_query system name) :: new)
    /\ runs new = []
    /\ alerts new = (if observed_active system out then 0 else 1)
    /\ (In (Log WARNING (alert_message name)) new
        <-> observed_active system out = false).
Proof.
  intros system Hs Hp. subst system.
  platform_cases Hs.
  all: cbv beta iota delta [try_except bind].
  all: rewrite (run_command_with_retry_first w _ _ Monitor.default_retries
                  _ _ out err eq_refl Hp).
  all: cbv beta iota delta [ret stdout].
  all: match goal with
       | |- context [negb ?b] => destruct b
       end; cbn [negb]; cbv beta iota delta [logging emit].
  all: try (exists []; split; [ reflexivity | ];
            split; [ reflexivity | split; [ reflexivity | ] ];
            split; [ intros [] | discriminate ]).
  all: match goal with
       | |- context [Monitor.send_alert_email w cfg ?s ?m ?t] =>
           destruct (send_alert_email_cases w cfg s m t)
             as (new & Hsend & Ha & Hr & _);
           rewrite Hsend
       end.
  all: eexists; split; [ flatten_trace; reflexivity | ].
  all: split; [ exact Hr
              | split; [ unfold alerts in *; simpl; now rewrite Ha | ] ].
  all: split; [ reflexivity | intros _; left; reflexivity ].
Qed.

(** The query fails at every attempt: the pass logs the error and sends
    nothing. *)
Lemma monitor_iteration_query_fails (name : string) (tr : trace) :
  let system := platform_system w in
  supported system ->
  quiet w ->
  (forall h, fails (proc w h (status_query system name)) = true) ->
  exists errs,
    length errs = 3 /\
    Monitor.monitor_iteration w cfg name tr
    = (Ok tt,
       tr ++ flat_map (failed_attempt (status_query system name) 5) errs
          ++ [Log CRITICAL
                ("Command failed after 3 attempts: "
                   ++ str_list (status_query system name))%string;
              Log ERROR
                ("Unexpected error while monitoring '" ++ name ++ "': "
                   ++ status_context system name)%string]).
Proof.
  intros system Hs Hq Hf. subst system.
  platform_cases Hs.
  all: match goal with
       | |- context [Monitor.run_command_with_retry w ?c ?m ?r ?d] =>
           destruct (run_command_with_retry_all_fail w c m r d tr Hq Hf)
             as (errs & Hlen & Hrun)
       end.
  all: exists errs; split; [ exact Hlen | ].
  all: cbv beta iota delta [try_except bind].
  all: rewrite Hrun; cbn [is_Exception str_exn].
  all: cbv beta iota delta [logging emit].
  all: now rewrite <- !app_assoc.
Qed.
End Tick.

(** ** The loop over a sequence of observations *)

Section Loop.
Variable w : world.
Variable cfg : Monitor.config.
Variable name : string.

Let system := platform_system w.
Let inactive := fun out => negb (observed_active system out).

Lemma monitor_iteration_returns (tr : trace) :
  fst (Monitor.monitor_iteration w cfg name tr) = Ok tt.
Proof.
  destruct (monitor_iteration_triple w cfg name tr) as (new & _ & _ & R).
  destruct (fst (Monitor.monitor_iteration w cfg name tr)) as [[] | e];
    [ reflexivity | destruct R ].
Qed.

Lemma monitor_loop_step (n : nat) (tr new : trace) :
  quiet w ->
  Monitor.monitor_iteration w cfg name tr = (Ok tt, tr ++ new) ->
  Monitor.monitor_loop w cfg name (S n) tr
  = Monitor.monitor_loop w cfg name n
      (tr ++ new ++ [Sleep (Monitor.CHECK_INTERVAL cfg)]).
Proof.
  intros Hq Hit. cbn [Monitor.monitor_loop]. unfold bind at 1.
  rewrite Hit. unfold bind at 1.
  rewrite time_sleep_quiet by assumption. now rewrite <- app_assoc.
Qed.

(** The queries answer by the script [outs]: after the observations
    [done], a pass per remaining observation, and one alert per
    observation that does not read as active. *)
Lemma monitor_loop_scripted (outs : list string) :
  supported system ->
  quiet w ->
  (forall h, proc w h (status_query system name)
             = Exited 0 (nth (length (runs h)) outs EmptyString)
                 EmptyString) ->
  forall (rest done : list string) (tr : trace),
    outs = done ++ rest ->
    length (runs tr) = length done ->
    exists tr',
      Monitor.monitor_loop w cfg name (length rest) tr = (Ok tt, tr')
      /\ alerts tr' = alerts tr + length (filter inactive rest)
      /\ length (runs tr') = length outs.
Proof.
  intros Hs Hq Hp rest.
  induction rest as [ | o rest IH ]; intros done tr Houts Hlen.
  - exists tr. simpl. rewrite Houts, app_nil_r.
    repeat split; auto; lia.
  - assert (Ho : proc w tr (status_query system name)
                 = Exited 0 o EmptyString).
    { rewrite Hp, Hlen, Houts. now rewrite nth_middle. }
    destruct (monitor_iteration_observed w cfg name tr o EmptyString
                Hs Ho) as (new & Hit & Hr & Ha & _).
    cbn [length].
    rewrite (monitor_loop_step _ _ _ Hq Hit).
    destruct (IH (done ++ [o])
                (tr ++ (Run (status_query (platform_system w) name) :: new)
                    ++ [Sleep (Monitor.CHECK_INTERVAL cfg)]))
      as (tr' & Hrun & Hal & Hru).
    + now rewrite Houts, <- app_assoc.
    + rewrite !runs_app, !length_app. simpl. rewrite Hr. simpl. lia.
    + exists tr'. split; [ exact Hrun | ].
      split; [ | exact Hru ].
      rewrite Hal, !alerts_app.
      change (Run (status_query (platform_system w) name) :: new)
        with ([Run (status_query (platform_system w) name)] ++ new).
      rewrite alerts_app, Ha. simpl. unfold inactive. fold system.
      destruct (observed_active system o); simpl; unfold alerts; simpl;
        lia.
Qed.
End Loop.

(** ** Text: substring test and stripping *)

Section Text.
Local Open Scope string_scope.

Lemma sapp_assoc (a b c : string) : (a ++ b) ++ c = a ++ b ++ c.
Proof. induction a as [ | x a IH ]; simpl; [ | rewrite IH ]; reflexivity. Qed.

Lemma sapp_nil_r (a : string) : a ++ EmptyString = a.
Proof. induction a as [ | x a IH ]; simpl; [ | rewrite IH ]; reflexivity. Qed.

Lemma one_line_app (a b : string) :
  one_line (a ++ b) = one_line a && one_line b.
Proof.
  induction a as [ | x a IH ]; simpl; [ reflexivity | ].
  now rewrite IH, andb_assoc.
Qed.

Lemma split_lines_one_line (a : string) :
  one_line a = true -> split_lines a = [a].
Proof.
  induction a as [ | x a IH ]; simpl; [ reflexivity | ].
  intro H. apply andb_prop in H. destruct H as (Hx & Ha).
  apply negb_true_iff in Hx. rewrite Hx, (IH Ha). reflexivity.
Qed.

(** A line feed after a text without one ends its first line. *)
Lemma split_lines_app (a b : string) :
  one_line a = true -> split_lines (a ++ nl ++ b) = a :: split_lines b.
Proof.
  induction a as [ | x a IH ]; simpl; [ reflexivity | ].
  intro H. apply andb_prop in H. destruct H as (Hx & Ha).
  apply negb_true_iff in Hx. rewrite Hx. simpl in IH. rewrite (IH Ha).
  reflexivity.
Qed.

(** Splitting undoes joining, for texts that are lines. *)
Lemma split_lines_concat (l : string) (ls : list string) :
  forallb one_line (l :: ls) = true ->
  split_lines (String.concat nl (l :: ls)) = l :: ls.
Proof.
  revert l. induction ls as [ | l' ls IH ]; intros l H.
  - simpl in H. rewrite andb_true_r in H.
    now apply split_lines_one_line.
  - cbn [forallb] in H. apply andb_prop in H. destruct H as (Hl & H).
    cbn [String.concat]. rewrite (split_lines_app l _ Hl).
    f_equal. apply IH. exact H.
Qed.

Lemma prefix_iff (n h : string) :
  String.prefix n h = true <-> exists r, h = n ++ r.
Proof.
  revert h. induction n as [ | x n IH ]; intro h.
  - destruct h; simpl; split; eauto.
  - destruct h as [ | y h ]; simpl.
    + split; [ discriminate | intros (r & Hr); discriminate ].
    + destruct (ascii_dec x y) as [-> | Hxy].
      * rewrite IH. split; intros (r & Hr); exists r; congruence.
      * split; [ discriminate | intros (r & Hr); congruence ].
Qed.

(** [needle in hay] holds exactly when [hay] splits around [needle]. *)
Lemma contains_iff (n h : string) :
  contains n h = true <-> exists l r, h = l ++ n ++ r.
Proof.
  induction h as [ | y h IH ]; cbn [contains].
  - destruct (String.prefix n EmptyString) eqn:Hp.
    + apply prefix_iff in Hp. destruct Hp as (r & Hr).
      split; [ intros _; exists EmptyString, r; exact Hr | auto ].
    + split; [ discriminate | ].
      intros (l & r & H). destruct l; simpl in H; [ | discriminate ].
      assert (String.prefix n EmptyString = true)
        by (apply prefix_iff; eauto).
      congruence.
  - destruct (String.prefix n (String y h)) eqn:Hp.
    + apply prefix_iff in Hp. destruct Hp as (r & Hr).
      split; [ intros _; exists EmptyString, r; exact Hr | auto ].
    + rewrite IH. split.
      * intros (l & r & H). exists (String y l), r. simpl. now rewrite H.
      * intros (l & r & H). destruct l as [ | z l ]; simpl in H.
        -- assert (String.prefix n (String y h) = true)
             by (apply prefix_iff; eauto).
           congruence.
        -- exists l, r. congruence.
Qed.

Lemma lstrip_split (s : string) :
  exists l, all_space l = true /\ s = l ++ lstrip s.
Proof.
  induction s as [ | c s (l & Hl & Hs) ].
  - exists EmptyString. auto.
  - simpl. destruct (is_space c) eqn:Hc.
    + exists (String c l). simpl. rewrite Hc, Hl.
      split; [ reflexivity | f_equal; exact Hs ].
    + exists EmptyString. auto.
Qed.

Lemma rstrip_split (s : string) :
  exists r, all_space r = true /\ s = rstrip s ++ r.
Proof.
  induction s as [ | c s (r & Hr & Hs) ].
  - exists EmptyString. auto.
  - simpl. destruct (rstrip s) as [ | d t ] eqn:Ht.
    + destruct (is_space c) eqn:Hc.
      * exists (String c r). simpl in *. rewrite Hc, Hr.
        split; [ reflexivity | f_equal; exact Hs ].
      * exists r. simpl in *. split; [ exact Hr | f_equal; exact Hs ].
    + exists r. split; [ exact Hr | ]. simpl. f_equal. exact Hs.
Qed.

Lemma lstrip_spaces (l s : string) :
  all_space l = true -> lstrip (l ++ s) = lstrip s.
Proof.
  induction l as [ | c l IH ]; simpl; [ reflexivity | ].
  destruct (is_space c); simpl; [ exact IH | discriminate ].
Qed.

Lemma rstrip_all_space (r : string) :
  all_space r = true -> rstrip r = EmptyString.
Proof.
  induction r as [ | c r IH ]; simpl; [ reflexivity | ].
  destruct (is_space c); simpl; [ | discriminate ].
  intro H. now rewrite IH.
Qed.

Lemma rstrip_spaces (s r : string) :
  all_space r = true -> rstrip (s ++ r) = rstrip s.
Proof.
  intro Hr. induction s as [ | c s IH ]; simpl.
  - now apply rstrip_all_space.
  - now rewrite IH.
Qed.

(** [strip] gives [t], a text with no space at either end, exactly on
    [t] with spaces around it. *)
Lemma strip_iff (t s : string) :
  lstrip t = t -> rstrip t = t -> t <> EmptyString ->
  (strip s = t
   <-> exists l r, all_space l = true /\ all_space r = true
                   /\ s = l ++ t ++ r).
Proof.
  intros Hlt Hrt Hne. unfold strip. split.
  - intro H.
    destruct (lstrip_split s) as (l & Hl & Hs).
    destruct (rstrip_split (lstrip s)) as (r & Hr & Hs').
    exists l, r. rewrite H in Hs'. rewrite <- Hs'. auto.
  - intros (l & r & Hl & Hr & ->).
    rewrite lstrip_spaces by assumption.
    assert (Hk : lstrip (t ++ r) = t ++ r).
    { destruct t as [ | c t ]; [ congruence | ].
      simpl in *. destruct (is_space c); [ | reflexivity ].
      exfalso.
      assert (Hlen : String.length (lstrip t) <= String.length t).
      { clear. induction t as [ | d t IH ]; simpl; [ lia | ].
        destruct (is_space d); simpl; lia. }
      rewrite Hlt in Hlen. simpl in Hlen. lia. }
    rewrite Hk, rstrip_spaces by assumption. exact Hrt.
Qed.

Lemma linux_active_iff (out : string) :
  Monitor.linux_active out = true
  <-> exists l r, all_space l = true /\ all_space r = true
                  /\ out = l ++ "active" ++ r.
Proof.
  unfold Monitor.linux_active. rewrite String.eqb_eq.
  apply strip_iff; [ reflexivity | reflexivity | discriminate ].
Qed.

Lemma windows_active_iff (out : string) :
  Monitor.windows_active out = true
  <-> exists l r, out = l ++ "RUNNING" ++ r.
Proof. apply contains_iff. Qed.
End Text.

(** ** test.py before the installation: secret and platform checks *)

Section MonitorChecks.
Variable w : world.
Variable cfg : Monitor.config.

Let validated := Log INFO "Configuration validated successfully.".

Ltac run_main :=
  cbv beta iota zeta delta [Monitor.main Monitor.validate_configuration
                         Monitor.get_agent_details Monitor.subscript
                         bind ret raise logging emit].

(** The agent secret is absent: [main] raises before the download; the
    only thing it may have done is to log that the config is valid. *)
Lemma monitor_main_secret_absent (ticks : nat) (tr : trace) :
  monitor_secret_absent w ->
  exists e new,
    Monitor.main w cfg ticks tr = (Raise e, tr ++ new)
    /\ (new = [] \/ new = [validated])
    /\ (has_entry w cfg -> exists msg, e = Exc ValueErrorC msg).
Proof.
  intros Habs. run_main.
  destruct (Monitor.AGENT_DETAILS cfg) as [details | ] eqn:Hd.
  2: { do 2 eexists. rewrite app_nil_r.
       split; [ reflexivity | split; [ now left | eauto ] ]. }
  destruct (truthy (Monitor.SMTP_PASSWORD w)); cbv beta iota delta [negb].
  2: { do 2 eexists. rewrite app_nil_r.
       split; [ reflexivity | split; [ now left | eauto ] ]. }
  destruct Habs as [[Hp Hs] | [Hp Hs]]; rewrite Hp;
    change (String.eqb "Linux" "Linux") with true;
    change (String.eqb "Windows" "Linux") with false;
    change (String.eqb "Windows" "Windows") with true;
    cbv beta iota.
  all: match goal with
       | |- context [assoc ?k ?d] =>
           destruct (assoc k d) as [entry | ] eqn:Ha
       end; cbv beta iota.
  all: try (do 2 eexists; split; [ reflexivity | split; [ now right | ] ];
            intros (d' & e' & Hd' & He'); rewrite Hp in He'; congruence).
  all: match goal with
       | |- context [getenv w ?v] =>
           destruct (getenv w v) as [[ | c s] | ]; try discriminate Hs
       end.
  all: do 2 eexists; split; [ reflexivity | split; [ now right | eauto ] ].
Qed.

(** An unknown platform: [main] raises in [get_agent_details], before the
    download. *)
Lemma monitor_main_unsupported (ticks : nat) (tr : trace) :
  ~ supported (platform_system w) ->
  exists e new,
    Monitor.main w cfg ticks tr = (Raise e, tr ++ new)
    /\ (new = [] \/ new = [validated])
    /\ (monitor_valid w cfg ->
        e = Exc ExceptionC
              "Unsupported platform. Only Windows and Linux are supported.").
Proof.
  intros Hns. run_main. unfold monitor_valid.
  destruct (Monitor.AGENT_DETAILS cfg) as [details | ] eqn:Hd.
  2: { do 2 eexists. rewrite app_nil_r.
       split; [ reflexivity | split; [ now left | ] ].
       intros [H _]. congruence. }
  destruct (truthy (Monitor.SMTP_PASSWORD w)); cbv beta iota delta [negb].
  2: { do 2 eexists. rewrite app_nil_r.
       split; [ reflexivity | split; [ now left | ] ].
       intros [_ H]. discriminate. }
  destruct (String.eqb (platform_system w) "Linux") eqn:Hl.
  { apply String.eqb_eq in Hl. elim Hns. now left. }
  destruct (String.eqb (platform_system w) "Windows") eqn:Hw.
  { apply String.eqb_eq in Hw. elim Hns. now right. }
  do 2 eexists. split; [ reflexivity | split; [ now right | auto ] ].
Qed.
End MonitorChecks.

(** ** Jenkins_agent_manager.py: what each step may do *)

Lemma always_raises_bind_l {A B} (m : M A) (k : A -> M B) :
  always_raises m -> always_raises (bind m k).
Proof.
  intros Hm tr. destruct (Hm tr) as (e & He). unfold bind.
  destruct (m tr) as [[a | e'] tr']; simpl in He; [ discriminate | ].
  exists e'. reflexivity.
Qed.

Lemma always_raises_bind_r {A B} (m : M A) (k : A -> M B) :
  (forall a, always_raises (k a)) -> always_raises (bind m k).
Proof.
  intros Hk tr. unfold bind.
  destruct (m tr) as [[a | e'] tr']; [ apply Hk | exists e'; reflexivity ].
Qed.

Lemma pure_bind {A B} (m : M A) (k : A -> M B) :
  pure m -> (forall a, pure (k a)) -> pure (bind m k).
Proof.
  intros Hm Hk tr. unfold bind. rewrite (Hm tr), (Hm []).
  destruct (fst (m [])) as [a | e]; [ apply Hk | reflexivity ].
Qed.

Lemma value_contains_pure (k : string) (v : Manager.value) :
  pure (Manager.value_contains k v).
Proof. destruct v; intro tr; reflexivity. Qed.

Lemma all_in_pure (keys : list string) (v : Manager.value) :
  pure (Manager.all_in keys v).
Proof.
  induction keys as [ | k rest IH ]; cbn [Manager.all_in].
  - intro tr. reflexivity.
  - apply pure_bind; [ apply value_contains_pure | ].
    intros [ | ]; [ exact IH | intro tr; reflexivity ].
Qed.

Lemma validate_platforms_pure (items : list (string * Manager.value)) :
  pure (Manager.validate_platforms items).
Proof.
  induction items as [ | [k v] rest IH ]; cbn [Manager.validate_platforms].
  - intro tr. reflexivity.
  - apply pure_bind.
    + destruct (negb (Manager.value_truthy v)); [ intro tr; reflexivity | ].
      apply pure_bind; [ apply all_in_pure | intros b tr; reflexivity ].
    + intros [ | ]; [ intro tr; reflexivity | exact IH ].
Qed.

Lemma pure_triple {A} (m : M A) (E : event -> Prop) :
  pure m -> triple m E any_exn.
Proof.
  intros Hm tr. exists []. rewrite (Hm tr). cbn [fst snd].
  rewrite app_nil_r. split; [ reflexivity | split; [ constructor | ] ].
  destruct (fst (m [])); exact I.
Qed.

Section ManagerSteps.
Variable w : world.
Variable E : event -> Prop.
Hypothesis E_log : forall lv msg, E (Log lv msg).

Ltac steps := tri_with ltac:(apply E_log).

Lemma run_command_triple (command : list string) (error_message : string) :
  E (Run command) ->
  triple (Manager.run_command w command error_message) E any_exn.
Proof.
  intro Hrun. unfold Manager.run_command.
  eapply triple_try with (X1 := any_exn).
  - tri_with ltac:(first [ apply E_log | exact Hrun ]).
  - intros e _ _. steps.
  - intros; exact I.
Qed.

Lemma setup_logging_triple :
  E (MakeDirs "../../logs") -> triple (Manager.setup_logging w) E any_exn.
Proof.
  intro H. unfold Manager.setup_logging.
  tri_with ltac:(first [ apply E_log | exact H ]).
Qed.

Lemma load_env_file_triple :
  E LoadDotenv -> triple (Manager.load_env_file w) E any_exn.
Proof.
  intro H. unfold Manager.load_env_file.
  eapply triple_try with (X1 := any_exn).
  - tri_with ltac:(first [ apply E_log | exact H ]).
  - intros e _ _. steps.
  - intros; exact I.
Qed.

Lemma load_config_file_triple (path : string) (f : Manager.config_file) :
  triple (Manager.load_config_file path f) E any_exn.
Proof. unfold Manager.load_config_file. steps. Qed.

Lemma validate_platforms_triple (items : list (string * Manager.value)) :
  triple (Manager.validate_platforms items) E any_exn.
Proof. apply pure_triple, validate_platforms_pure. Qed.

Lemma validate_configuration_triple (c : option Manager.config) :
  triple (Manager.validate_configuration c) E any_exn.
Proof.
  unfold Manager.validate_configuration, Manager.missing_key,
    Manager.empty_key.
  tri_with ltac:(first [ apply E_log | apply validate_platforms_triple ]).
Qed.

Lemma server_url_triple (c : Manager.config) :
  triple (Manager.server_url c) E any_exn.
Proof. unfold Manager.server_url. steps. Qed.

Lemma agent_detail_triple (c : Manager.config) (platform key : string) :
  triple (Manager.agent_detail c platform key) E any_exn.
Proof.
  unfold Manager.agent_detail, Manager.value_getitem, getitem. steps.
Qed.

Lemma download_jenkins_agent_triple (c : Manager.config) :
  (forall path, E (MakeDirs path)) ->
  (forall path mode, E (Chmod path mode)) ->
  (forall path url, E (Run ["curl"; "-o"; path; url]%string)) ->
  triple (Manager.download_jenkins_agent w c) E any_exn.
Proof.
  intros Hm Hc Hr. unfold Manager.download_jenkins_agent.
  tri_with ltac:(first [ apply E_log | apply Hm | apply Hc
                       | apply server_url_triple
                       | apply run_command_triple; apply Hr ]).
Qed.
End ManagerSteps.

Section ManagerChecks.
Variable w : world.

(** The secret check of the Linux installer comes first. *)
Lemma configure_linux_secret_absent (jar : string) (c : Manager.config)
      (tr : trace) :
  truthy (getenv w "LINUX_AGENT_SECRET") = false ->
  Manager.configure_linux_service w jar c tr
  = (Raise (Exc ValueErrorC
              "LINUX_AGENT_SECRET is required in the .env file"),
     tr ++ [Log ERROR "LINUX_AGENT_SECRET is not set in the .env file."]).
Proof.
  intro H. unfold Manager.configure_linux_service. rewrite H. reflexivity.
Qed.

(** The secret check of the Windows installer comes first. *)
Lemma configure_windows_secret_absent (jar : string) (c : Manager.config)
      (tr : trace) :
  truthy (getenv w "WINDOWS_AGENT_SECRET") = false ->
  Manager.configure_windows_service w jar c tr
  = (Raise (Exc ValueErrorC
              "WINDOWS_AGENT_SECRET is required in the .env file"),
     tr ++ [Log ERROR "WINDOWS_AGENT_SECRET is not set in the .env file."]).
Proof.
  intro H. unfold Manager.configure_windows_service. rewrite H. reflexivity.
Qed.

Lemma raised_triple {A} (m : M A) (e : exn) (new : trace)
      (E : event -> Prop) :
  (forall tr, m tr = (Raise e, tr ++ new)) -> Forall E new ->
  triple m E any_exn.
Proof.
  intros Hm HE tr. exists new. rewrite Hm. simpl.
  split; [ reflexivity | split; [ exact HE | exact I ] ].
Qed.

Ltac before_install :=
  first [ (intros; exact I) | (intros; reflexivity)
        | apply setup_logging_triple
        | apply load_env_file_triple
        | apply load_config_file_triple
        | apply validate_configuration_triple
        | apply download_jenkins_agent_triple ].

(** Without the secret, or on an unknown platform, [main] never writes a
    file and runs no command but the download. *)
Lemma manager_main_no_service_action (f : Manager.config_file) :
  manager_secret_absent w \/ ~ manager_supported w ->
  triple (Manager.main w f) no_service_action any_exn.
Proof.
  intro H. unfold Manager.main.
  tri_with before_install.
  all: match goal with
       | Hp : String.eqb (Manager.get_platform w) _ = true |- _ =>
           apply String.eqb_eq in Hp
       end.
  all: destruct H as [[[Hq Hs] | [Hq Hs]] | Hn];
    try (rewrite Hq in *; discriminate);
    try (elim Hn; unfold manager_supported; now auto).
  - eapply raised_triple;
      [ intro tr; now apply configure_linux_secret_absent
      | repeat constructor ].
  - eapply raised_triple;
      [ intro tr; now apply configure_windows_secret_absent
      | repeat constructor ].
Qed.

(** Without the secret on a known platform, [main] ends in an
    exception. *)
Lemma manager_main_raises (f : Manager.config_file) :
  manager_secret_absent w -> always_raises (Manager.main w f).
Proof.
  intro H. unfold Manager.main.
  apply always_raises_bind_r; intros _.
  apply always_raises_bind_r; intros _.
  apply always_raises_bind_r. intros [c | ].
  2: { apply always_raises_bind_l. intro tr. eexists. reflexivity. }
  apply always_raises_bind_r; intros _.
  apply always_raises_bind_r; intros jar.
  destruct H as [[Hq Hs] | [Hq Hs]]; rewrite Hq;
    change (String.eqb "linux" "linux") with true;
    change (String.eqb "windows" "linux") with false;
    change (String.eqb "windows" "windows") with true;
    cbv beta iota; intro tr; eexists.
  - now rewrite configure_linux_secret_absent.
  - now rewrite configure_windows_secret_absent.
Qed.
End ManagerChecks.

(** ** Jenkins_agent_manager.py on a platform it does not know *)

Section ManagerUnsupported.
Variable w : world.

Lemma validate_configuration_valid (c : Manager.config) (tr : trace) :
  manager_valid c = true ->
  Manager.validate_configuration (Some c) tr
  = (Ok tt, tr ++ [Log INFO "Configuration validated successfully."])
  /\ exists url, Manager.JENKINS_SERVER_URL c = Some url.
Proof.
  unfold manager_valid, Manager.validate_configuration,
    Manager.missing_key, Manager.empty_key.
  destruct (Manager.JENKINS_SERVER_URL c) as [[ | x url] | ];
    try discriminate.
  destruct (Manager.AGENT_DETAILS c) as [[ | d ds] | ]; try discriminate.
  destruct (_ && _); try discriminate.
  unfold bind. rewrite (validate_platforms_pure (d :: ds) tr).
  rewrite (validate_platforms_pure (d :: ds) []).
  destruct (fst (Manager.validate_platforms (d :: ds) [])) as [[] | e];
    cbn [fst]; try discriminate.
  intros _. split; [ reflexivity | eauto ].
Qed.

(** Nothing fails and the platform is unknown: the jar is downloaded, then
    the platform is reported in the log, and [main] returns. *)
Lemma manager_main_unsupported_run (c : Manager.config) (tr : trace)
      (out err : string) :
  ~ manager_supported w ->
  (forall h ev, fault w h ev = None) ->
  (forall h cmd, proc w h cmd = Exited 0 out err) ->
  manager_valid c = true ->
  exists new path url,
    Manager.main w (Manager.Parsed c) tr = (Ok tt, tr ++ new)
    /\ writes new = []
    /\ runs new = [["curl"; "-o"; path; url]%string]
    /\ In (Chmod (dirname w path) 493) new
    /\ In (Log ERROR
             "Unsupported platform. Only Windows and Linux are supported.")
          new.
Proof.
  intros Hns Hf Hp Hv.
  assert (Hl : String.eqb (Manager.get_platform w) "linux" = false).
  { apply String.eqb_neq. intro H. apply Hns. now left. }
  assert (Hw : String.eqb (Manager.get_platform w) "windows" = false).
  { apply String.eqb_neq. intro H. apply Hns. now right. }
  unfold Manager.main, Manager.setup_logging, Manager.load_env_file,
    Manager.load_config_file, Manager.download_jenkins_agent,
    Manager.run_command.
  rewrite Hl, Hw.
  cbv beta iota zeta delta [bind try_except io history emit logging ret
                              subprocess_run negb].
  destruct (validate_configuration_valid c [] Hv) as (_ & url & Hurl).
  repeat (rewrite ?Hf; cbv beta iota delta [raise ret]).
  rewrite (proj1 (validate_configuration_valid c _ Hv)).
  unfold Manager.server_url. rewrite Hurl. cbv beta iota.
  destruct (path_exists w _ _); cbv beta iota.
  all: repeat (rewrite ?Hf, ?Hp;
               cbv beta iota delta [raise ret returncode stdout stderr];
               cbn [Z.eqb negb]).
  all: eexists; do 2 eexists;
    (split; [ flatten_trace; reflexivity | ]);
    (split; [ reflexivity | split; [ reflexivity | ] ]);
    split; simpl; tauto.
Qed.
End ManagerUnsupported.

(** ** The Linux installer of Jenkins_agent_manager.py *)

Section LinuxUnit.
Variable w : world.
Variable jar : string.

Lemma linux_unit_log (lv : level) (msg : string) :
  linux_unit_event jar (Log lv msg).
Proof. exact I. Qed.

Ltac unit_steps :=
  first [ (intros; exact I)
        | apply server_url_triple
        | apply agent_detail_triple
        | apply run_command_triple
        | (simpl; tauto)
        | (split; [ reflexivity | eauto ]) ].

(** Whatever the host answers, the installer writes no file but the unit
    file at its fixed path and runs none but its five commands. *)
Lemma configure_linux_service_triple (c : Manager.config) :
  triple (Manager.configure_linux_service w jar c)
         (linux_unit_event jar) any_exn.
Proof.
  unfold Manager.configure_linux_service.
  destruct (negb (truthy (getenv w "LINUX_AGENT_SECRET"))).
  - tri_with unit_steps.
  - tri; [ apply server_url_triple; apply linux_unit_log | ].
    tri; [ apply agent_detail_triple; apply linux_unit_log | ].
    tri; [ apply agent_detail_triple; apply linux_unit_log | ].
    eapply triple_try with (X1 := any_exn).
    + tri_with unit_steps.
    + intros e _ _. tri_with unit_steps.
    + intros; exact I.
Qed.

(** Every unit file the installer can write has the fixed user line. *)
Lemma service_file_user_line (url secret name workdir : string) :
  contains user_line
    (Manager.service_file_content jar url secret name workdir) = true.
Proof.
  apply contains_iff. unfold Manager.service_file_content, user_line.
  exists (nl ++ "    [Unit]" ++ nl ++ "    Description=Jenkins Agent" ++ nl
            ++ "    After=network.target" ++ nl ++ nl ++ "    [Service]" ++ nl
            ++ "    ExecStart=/usr/bin/java -jar " ++ jar ++ " -url " ++ url
            ++ " -secret " ++ secret ++ " -name " ++ dq ++ name ++ dq
            ++ " -workDir " ++ dq ++ workdir ++ dq)%string.
  eexists. rewrite !sapp_assoc. reflexivity.
Qed.

(** The lines of the unit file, when no value that goes in has a line
    feed: twelve fixed lines around the ExecStart line, which holds the
    agent name between the quotes after [-name]. *)
Lemma service_file_lines (url secret name workdir : string) :
  one_line jar = true -> one_line url = true -> one_line secret = true ->
  one_line name = true -> one_line workdir = true ->
  split_lines (Manager.service_file_content jar url secret name workdir)
  = [ EmptyString;
      "    [Unit]";
      "    Description=Jenkins Agent";
      "    After=network.target";
      EmptyString;
      "    [Service]";
      "    ExecStart=/usr/bin/java -jar " ++ jar ++ " -url " ++ url
        ++ " -secret " ++ secret ++ " -name " ++ dq ++ name ++ dq
        ++ " -workDir " ++ dq ++ workdir ++ dq;
      "    User=gopal";
      "    Restart=always";
      EmptyString;
      "    [Install]";
      "    WantedBy=multi-user.target";
      "    " ]%string.
Proof.
  intros Hj Hu Hs Hn Hw.
  match goal with
  | |- _ = ?l :: ?ls =>
      rewrite <- (split_lines_concat l ls); [ f_equal | ]
  end.
  - unfold Manager.service_file_content. cbn [String.concat].
    rewrite !sapp_assoc. reflexivity.
  - cbn [forallb].
    rewrite !one_line_app, Hj, Hu, Hs, Hn, Hw. reflexivity.
Qed.

(** Nothing fails: the unit file is written once, at the fixed path, and
    the five commands run in order. *)
Lemma configure_linux_service_run (c : Manager.config) (tr : trace)
      (url secret name workdir out err : string)
      (details : list (string * Manager.value))
      (entry : Manager.platform_entry) :
  truthy (getenv w "LINUX_AGENT_SECRET") = true ->
  getenv w "LINUX_AGENT_SECRET" = Some secret ->
  Manager.JENKINS_SERVER_URL c = Some url ->
  Manager.AGENT_DETAILS c = Some details ->
  assoc "LINUX" details = Some (Manager.Object entry) ->
  assoc "AGENT_NAME" entry = Some name ->
  assoc "AGENT_WORKDIR" entry = Some workdir ->
  (forall h ev, fault w h ev = None) ->
  (forall h cmd, proc w h cmd = Exited 0 out err) ->
  exists new,
    Manager.configure_linux_service w jar c tr = (Ok tt, tr ++ new)
    /\ writes new
       = [(Manager.service_file_path,
           Manager.service_file_content jar url secret name workdir)]
    /\ runs new = linux_service_commands.
Proof.
  intros Ht Hs Hu Hd Hl Hn Hw Hf Hp.
  unfold Manager.configure_linux_service, Manager.agent_detail,
    Manager.value_getitem, Manager.server_url, Manager.run_command, getitem.
  rewrite Ht, Hs, Hu, Hd.
  cbv beta iota zeta delta [bind try_except io history emit logging ret
                              subprocess_run negb].
  rewrite Hl, Hn, Hw.
  repeat (rewrite ?Hf, ?Hp;
          cbv beta iota delta [raise ret returncode stdout stderr];
          cbn [Z.eqb negb]).
  eexists. split; [ flatten_trace; reflexivity | ].
  split; reflexivity.
Qed.
End LinuxUnit.

(** ** Runs that differ in the secret only *)

Lemma logs_redact (tr : trace) : logs (redact tr) = logs tr.
Proof.
  induction tr as [ | ev tr IH ]; [ reflexivity | ].
  simpl. rewrite IH. now destruct ev.
Qed.

Lemma runs_redact (tr : trace) : runs (redact tr) = runs tr.
Proof.
  induction tr as [ | ev tr IH ]; [ reflexivity | ].
  simpl. rewrite IH. now destruct ev.
Qed.

Lemma redact_app (a b : trace) : redact (a ++ b) = redact a ++ redact b.
Proof. apply map_app. Qed.

Section SimRules.
Context {A A' B B' : Type}.

Lemma sim_ret (R : A -> A' -> Prop) (a : A) (a' : A') :
  R a a' -> sim R (ret a) (ret a').
Proof. intros H t1 t2 Ht. simpl. auto. Qed.

Lemma sim_raise (R : A -> A' -> Prop) (e : exn) :
  sim R (raise e) (raise e).
Proof. intros t1 t2 Ht. simpl. auto. Qed.

Lemma sim_bind (R : A -> A' -> Prop) (S : B -> B' -> Prop)
      (m : M A) (m' : M A') (k : A -> M B) (k' : A' -> M B') :
  sim R m m' ->
  (forall a a', R a a' -> sim S (k a) (k' a')) ->
  sim S (bind m k) (bind m' k').
Proof.
  intros Hm Hk t1 t2 Ht. unfold bind.
  destruct (Hm t1 t2 Ht) as (Htr & Hr).
  destruct (m t1) as [[a | e] u1], (m' t2) as [[a' | e'] u2];
    simpl in *; try contradiction.
  - now apply Hk.
  - auto.
Qed.

Lemma sim_try (R : A -> A' -> Prop) (m : M A) (m' : M A')
      (handles : exn -> bool) (h : exn -> M A) (h' : exn -> M A') :
  sim R m m' ->
  (forall e, handles e = true -> sim R (h e) (h' e)) ->
  sim R (try_except m handles h) (try_except m' handles h').
Proof.
  intros Hm Hh t1 t2 Ht. unfold try_except.
  destruct (Hm t1 t2 Ht) as (Htr & Hr).
  destruct (m t1) as [[a | e] u1], (m' t2) as [[a' | e'] u2];
    simpl in *; try contradiction; auto.
  subst e'. destruct (handles e) eqn:He; [ now apply Hh | simpl; auto ].
Qed.

Lemma sim_history (S : B -> B' -> Prop) (k : trace -> M B)
      (k' : trace -> M B') :
  (forall h h', redact h = redact h' -> sim S (k h) (k' h')) ->
  sim S (bind history k) (bind history k').
Proof.
  intros Hk t1 t2 Ht. unfold bind, history. now apply Hk.
Qed.
End SimRules.

Lemma sim_emit (ev ev' : event) :
  redact_ev ev = redact_ev ev' -> sim eq (emit ev) (emit ev').
Proof.
  intros He t1 t2 Ht. simpl. rewrite !redact_app, Ht. simpl. rewrite He.
  auto.
Qed.

Lemma sim_logging (lv : level) (msg : string) :
  sim eq (logging lv msg) (logging lv msg).
Proof. now apply sim_emit. Qed.

Section SimHost.
Variable w : world.
Variable var s1 s2 : string.
Hypothesis Hblind : blind w.

Let w1 := with_env w var s1.
Let w2 := with_env w var s2.

Lemma sim_io (ev ev' : event) :
  redact_ev ev = redact_ev ev' -> sim eq (io w1 ev) (io w2 ev').
Proof.
  intros He t1 t2 Ht. unfold io, bind, history, emit.
  cbn [fault w1 w2 with_env].
  destruct Hblind as (_ & Hf & _).
  rewrite (Hf t1 t2 ev ev' Ht He).
  destruct (fault w t2 ev') as [[c msg] | ]; simpl;
    rewrite !redact_app, Ht; simpl; rewrite He; auto.
Qed.

Lemma sim_subprocess_run (command : list string) :
  sim eq (subprocess_run w1 command) (subprocess_run w2 command).
Proof.
  intros t1 t2 Ht. unfold subprocess_run, bind, history, emit.
  cbn [proc w1 w2 with_env].
  destruct Hblind as (Hp & _).
  rewrite (Hp t1 t2 command Ht).
  destruct (proc w t2 command) as [rc out err | msg]; simpl;
    [ destruct (rc =? 0)%Z; simpl | ];
    rewrite !redact_app, Ht; auto.
Qed.

Lemma sim_time_sleep (d : Z) :
  sim eq (Monitor.time_sleep w1 d) (Monitor.time_sleep w2 d).
Proof.
  intros t1 t2 Ht. unfold Monitor.time_sleep, bind, history, emit.
  cbn [sigs w1 w2 with_env].
  destruct Hblind as (_ & _ & Hs & _).
  rewrite (Hs t1 t2 Ht).
  destruct (sigs w t2) as [sig | ].
  - rewrite !signal_handler_raises. simpl.
    rewrite !redact_app, Ht. auto.
  - simpl. rewrite !redact_app, Ht. auto.
Qed.
End SimHost.

Ltac sim_step :=
  lazymatch goal with
  | |- sim _ (ret _) (ret _) => apply (sim_ret eq); reflexivity
  | |- sim _ (raise _) (raise _) => apply sim_raise
  | |- sim _ (bind history _) (bind history _) =>
      apply sim_history; intros ? ? ?
  | |- sim _ (bind _ _) (bind _ _) => eapply sim_bind
  | |- forall _ _, _ -> sim _ _ _ => intros ? ? ?; subst
  | |- sim _ (try_except _ _ _) (try_except _ _ _) =>
      eapply sim_try; [ | intros ? ? ]
  | |- sim _ (logging _ _) (logging _ _) => apply sim_logging
  | |- sim _ (emit _) (emit _) => apply sim_emit; reflexivity
  | |- sim _ (io _ _) (io _ _) => apply sim_io; [ assumption | reflexivity ]
  | |- sim _ (subprocess_run _ _) (subprocess_run _ _) =>
      apply sim_subprocess_run; assumption
  | |- sim _ (match ?x with _ => _ end) (match ?x with _ => _ end) =>
      destruct x eqn:?
  end.

Ltac sim_with known := repeat first [ known | sim_step ].

Section SimMonitor.
Variable w : world.
Variable var s1 s2 : string.
Variable cfg : Monitor.config.
Hypothesis Hblind : blind w.
Hypothesis Hvar : String.eqb "SMTP_PASSWORD" var = false.

Let w1 := with_env w var s1.
Let w2 := with_env w var s2.

Lemma smtp_password_same : Monitor.SMTP_PASSWORD w1 = Monitor.SMTP_PASSWORD w2.
Proof.
  unfold Monitor.SMTP_PASSWORD. cbn [getenv w1 w2 with_env].
  now rewrite Hvar.
Qed.

Lemma sim_retry_loop (command : list string) (error_message : string)
      (retries delay : Z) (attempts : list Z) :
  sim eq (Monitor.retry_loop w1 command error_message retries delay attempts)
         (Monitor.retry_loop w2 command error_message retries delay attempts).
Proof.
  induction attempts as [ | attempt rest IH ]; cbn [Monitor.retry_loop].
  - sim_step.
  - sim_with ltac:(first [ exact IH | apply sim_time_sleep; assumption ]).
Qed.

Lemma sim_run_command_with_retry (command : list string)
      (error_message : string) (retries delay : Z) :
  sim eq (Monitor.run_command_with_retry w1 command error_message retries delay)
         (Monitor.run_command_with_retry w2 command error_message retries delay).
Proof.
  unfold Monitor.run_command_with_retry.
  sim_with ltac:(apply sim_retry_loop).
Qed.

Lemma sim_with_smtp (body body' : M unit) :
  sim eq body body' ->
  sim eq (Monitor.with_smtp w1 cfg body) (Monitor.with_smtp w2 cfg body').
Proof.
  intro Hb. unfold Monitor.with_smtp.
  eapply sim_bind; [ now apply sim_io | intros _ _ _ ].
  intros t1 t2 Ht. destruct (Hb t1 t2 Ht) as (Htr & Hr).
  pose proof (sim_io w var s1 s2 Hblind SmtpQuit SmtpQuit eq_refl
                (snd (body t1)) (snd (body' t2)) Htr) as (Hq & Hqr).
  fold w1 w2 in Hq, Hqr.
  destruct (body t1) as [[[] | e] u1], (body' t2) as [[[] | e'] u2];
    simpl in *; try contradiction.
  - auto.
  - subst e'.
    destruct (io w1 SmtpQuit u1) as [[[] | q] v1],
             (io w2 SmtpQuit u2) as [[[] | q'] v2];
      simpl in *; try contradiction; auto.
Qed.

Lemma sim_send_alert_email (subject message : string) :
  sim eq (Monitor.send_alert_email w1 cfg subject message)
         (Monitor.send_alert_email w2 cfg subject message).
Proof.
  unfold Monitor.send_alert_email. rewrite smtp_password_same.
  sim_with ltac:(apply sim_with_smtp).
Qed.

Lemma sim_monitor_iteration (name : string) :
  sim eq (Monitor.monitor_iteration w1 cfg name)
         (Monitor.monitor_iteration w2 cfg name).
Proof.
  unfold Monitor.monitor_iteration.
  cbn [platform_system w1 w2 with_env].
  sim_with ltac:(first [ apply sim_run_command_with_retry
                       | apply sim_send_alert_email ]).
Qed.

Lemma sim_monitor_loop (name : string) (ticks : nat) :
  sim eq (Monitor.monitor_loop w1 cfg name ticks)
         (Monitor.monitor_loop w2 cfg name ticks).
Proof.
  induction ticks as [ | n IH ]; cbn [Monitor.monitor_loop].
  - sim_step.
  - sim_with ltac:(first [ exact IH | apply sim_monitor_iteration
                         | apply sim_time_sleep; assumption ]).
Qed.

(** The Linux installer of test.py with two secrets. *)
Lemma sim_install_service_linux (name workdir jar : string) :
  sim eq (Monitor.install_service_linux w1 cfg name s1 workdir jar)
         (Monitor.install_service_linux w2 cfg name s2 workdir jar).
Proof.
  unfold Monitor.install_service_linux.
  sim_with ltac:(apply sim_run_command_with_retry).
Qed.
End SimMonitor.

Section SimLinux.
Variable w : world.
Variable c1 c2 : ascii.
Variable r1 r2 : string.
Hypothesis Hblind : blind w.

(** Two non-empty secrets. *)
Let s1 := String c1 r1.
Let s2 := String c2 r2.
Let w1 := with_env w "LINUX_AGENT_SECRET" s1.
Let w2 := with_env w "LINUX_AGENT_SECRET" s2.

Lemma get_agent_details_linux (v : world) (cfg : Monitor.config)
      (c : ascii) (r : string) (tr : trace) :
  platform_system v = "Linux"%string ->
  getenv v "LINUX_AGENT_SECRET" = Some (String c r) ->
  Monitor.get_agent_details v cfg tr
  = match Monitor.AGENT_DETAILS cfg with
    | None => (Raise (Exc KeyErrorC (repr_str "AGENT_DETAILS")), tr)
    | Some details =>
        match assoc "Linux" details with
        | None =>
            (Raise (Exc TypeErrorC "'NoneType' object is not subscriptable"),
             tr)
        | Some d =>
            (Ok (Monitor.AGENT_NAME d, String c r, Monitor.AGENT_WORKDIR d),
             tr)
        end
    end.
Proof.
  intros Hp He. unfold Monitor.get_agent_details, Monitor.subscript.
  rewrite Hp, He.
  destruct (Monitor.AGENT_DETAILS cfg) as [details | ]; [ | reflexivity ].
  cbv beta iota zeta delta [bind ret].
  change (String.eqb "Linux" "Linux") with true. cbv beta iota.
  destruct (assoc "Linux" details); reflexivity.
Qed.

(** The details read with the two secrets: the same name and work
    directory, and the secret of each host. *)
Let same_agent (a b : string * string * string) : Prop :=
  exists name workdir, a = (name, s1, workdir) /\ b = (name, s2, workdir).

Lemma sim_get_agent_details (cfg : Monitor.config) :
  platform_system w = "Linux"%string ->
  sim same_agent (Monitor.get_agent_details w1 cfg)
                 (Monitor.get_agent_details w2 cfg).
Proof.
  intros Hp t1 t2 Ht.
  rewrite (get_agent_details_linux w1 cfg c1 r1 t1 Hp eq_refl).
  rewrite (get_agent_details_linux w2 cfg c2 r2 t2 Hp eq_refl).
  destruct (Monitor.AGENT_DETAILS cfg) as [details | ]; simpl; auto.
  destruct (assoc "Linux" details) as [d | ]; simpl; auto.
  split; [ exact Ht | ]. do 2 eexists. split; reflexivity.
Qed.

Lemma sim_validate_configuration (cfg : Monitor.config) :
  sim eq (Monitor.validate_configuration w1 cfg)
         (Monitor.validate_configuration w2 cfg).
Proof.
  unfold Monitor.validate_configuration, Monitor.SMTP_PASSWORD.
  cbn [getenv w1 w2 with_env].
  change (String.eqb "SMTP_PASSWORD" "LINUX_AGENT_SECRET") with false.
  cbv beta iota. sim_with fail.
Qed.

Ltac monitor_sims :=
  first [ apply sim_run_command_with_retry; assumption
        | apply sim_install_service_linux; assumption
        | apply sim_monitor_loop; first [ assumption | reflexivity ] ].

(** test.py on Linux: the whole run, up to the contents of the unit file,
    does not depend on the secret. *)
Lemma sim_monitor_main (cfg : Monitor.config) (ticks : nat) :
  platform_system w = "Linux"%string ->
  sim eq (Monitor.main w1 cfg ticks) (Monitor.main w2 cfg ticks).
Proof.
  intro Hp. unfold Monitor.main.
  eapply sim_bind; [ apply sim_validate_configuration | intros _ _ _ ].
  eapply sim_bind; [ now apply sim_get_agent_details | ].
  intros a b (name & workdir & -> & ->).
  cbn [platform_system w1 w2 with_env]. rewrite Hp.
  change (String.eqb "Linux" "Linux") with true. cbv beta iota zeta.
  unfold Monitor.download_jenkins_agent, Monitor.monitor_service.
  sim_with monitor_sims.
Qed.

Lemma sim_run_command (command : list string) (error_message : string) :
  sim eq (Manager.run_command w1 command error_message)
         (Manager.run_command w2 command error_message).
Proof. unfold Manager.run_command. sim_with fail. Qed.

Lemma sim_download_jenkins_agent (c : Manager.config) :
  sim eq (Manager.download_jenkins_agent w1 c)
         (Manager.download_jenkins_agent w2 c).
Proof.
  unfold Manager.download_jenkins_agent, Manager.get_platform,
    Manager.server_url.
  cbn [platform_system home path_join dirname path_exists w1 w2 with_env].
  eapply sim_bind; [ apply sim_logging | intros _ _ _ ].
  apply sim_history. intros h h' Hh.
  destruct Hblind as (_ & _ & _ & Hx). rewrite (Hx h h' _ Hh).
  sim_with ltac:(apply sim_run_command).
Qed.

(** The Linux installer of Jenkins_agent_manager.py with two secrets. *)
Lemma sim_configure_linux_service (jar : string) (c : Manager.config) :
  sim eq (Manager.configure_linux_service w1 jar c)
         (Manager.configure_linux_service w2 jar c).
Proof.
  unfold Manager.configure_linux_service, Manager.server_url,
    Manager.agent_detail, Manager.value_getitem, getitem.
  cbn [getenv w1 w2 with_env].
  change (String.eqb "LINUX_AGENT_SECRET" "LINUX_AGENT_SECRET") with true.
  cbv beta iota zeta delta [truthy negb s1 s2].
  sim_with ltac:(apply sim_run_command).
Qed.

Lemma pure_sim {T} (m : M T) : pure m -> sim eq m m.
Proof.
  intros Hm t1 t2 Ht. rewrite (Hm t1), (Hm t2). cbn [fst snd].
  split; [ exact Ht | destruct (fst (m [])); reflexivity ].
Qed.

Lemma sim_validate_platforms (items : list (string * Manager.value)) :
  sim eq (Manager.validate_platforms items)
         (Manager.validate_platforms items).
Proof. apply pure_sim, validate_platforms_pure. Qed.

(** Jenkins_agent_manager.py on Linux: the whole run, up to the contents
    of the unit file, does not depend on the secret. *)
Lemma sim_manager_main (f : Manager.config_file) :
  Manager.get_platform w = "linux"%string ->
  sim eq (Manager.main w1 f) (Manager.main w2 f).
Proof.
  intro Hp.
  unfold Manager.main, Manager.setup_logging, Manager.load_env_file,
    Manager.load_config_file, Manager.validate_configuration,
    Manager.missing_key, Manager.empty_key.
  change (Manager.get_platform w1) with (Manager.get_platform w).
  change (Manager.get_platform w2) with (Manager.get_platform w).
  rewrite Hp.
  change (String.eqb "linux" "linux") with true. cbv beta iota.
  sim_with ltac:(first [ apply sim_download_jenkins_agent
                       | apply sim_configure_linux_service
                       | apply sim_validate_platforms ]).
Qed.

Lemma sim_logs {A} (m1 m2 : M A) (tr : trace) :
  sim eq m1 m2 ->
  logs (snd (m1 tr)) = logs (snd (m2 tr))
  /\ runs (snd (m1 tr)) = runs (snd (m2 tr)).
Proof.
  intro H. destruct (H tr tr eq_refl) as (Hr & _).
  split.
  - rewrite <- (logs_redact (snd (m1 tr))), Hr. apply logs_redact.
  - rewrite <- (runs_redact (snd (m1 tr))), Hr. apply runs_redact.
Qed.
End SimLinux.

(** ** How a command vector is printed *)

Section Repr.
Local Open Scope string_scope.

Lemma repr_quote_cases (s : string) :
  repr_quote s = ascii_of_nat 34 \/ repr_quote s = ascii_of_nat 39.
Proof. unfold repr_quote. destruct (_ && _); auto. Qed.

Lemma repr_char_plain (q c : ascii) :
  q = ascii_of_nat 34 \/ q = ascii_of_nat 39 ->
  plain_char c = true -> repr_char q c = String c EmptyString.
Proof.
  intros [-> | ->] H;
    destruct c as [[] [] [] [] [] [] [] []];
    vm_compute in H; try discriminate H; reflexivity.
Qed.

Lemma repr_body_app (q : ascii) (a b : string) :
  repr_body q (a ++ b) = repr_body q a ++ repr_body q b.
Proof.
  induction a as [ | c a IH ]; simpl; [ reflexivity | ].
  now rewrite IH, sapp_assoc.
Qed.

Lemma repr_body_plain (q : ascii) (s : string) :
  q = ascii_of_nat 34 \/ q = ascii_of_nat 39 ->
  plain s = true -> repr_body q s = s.
Proof.
  intro Hq. induction s as [ | c s IH ]; simpl; [ reflexivity | ].
  intro H. apply andb_prop in H. destruct H as [Hc Hs].
  rewrite (repr_char_plain q c Hq Hc), IH by assumption. reflexivity.
Qed.

Lemma contains_inside (s x y : string) :
  contains s x = true -> (exists pre post, y = pre ++ x ++ post) ->
  contains s y = true.
Proof.
  intros Hx (pre & post & ->).
  apply contains_iff in Hx. destruct Hx as (l & r & ->).
  apply contains_iff. exists (pre ++ l), (r ++ post).
  now rewrite !sapp_assoc.
Qed.

Lemma repr_str_contains (s a b : string) :
  plain s = true -> contains s (repr_str (a ++ s ++ b)) = true.
Proof.
  intro Hs. unfold repr_str.
  set (q := repr_quote (a ++ s ++ b)).
  assert (Hq : q = ascii_of_nat 34 \/ q = ascii_of_nat 39)
    by apply repr_quote_cases.
  rewrite !repr_body_app, (repr_body_plain q s Hq Hs).
  apply contains_iff.
  exists (String q EmptyString ++ repr_body q a),
         (repr_body q b ++ String q EmptyString).
  now rewrite !sapp_assoc.
Qed.

Lemma concat_inside (sep x : string) (l : list string) :
  In x l -> exists pre post, String.concat sep l = pre ++ x ++ post.
Proof.
  induction l as [ | y l IH ]; [ intros [] | ].
  intros [-> | Hin].
  - destruct l as [ | z l ].
    + exists EmptyString, EmptyString. simpl. now rewrite sapp_nil_r.
    + exists EmptyString. eexists. reflexivity.
  - destruct (IH Hin) as (pre & post & Hc).
    destruct l as [ | z l ]; [ destruct Hin | ].
    exists (y ++ sep ++ pre), post.
    change (String.concat sep (y :: z :: l))
      with (y ++ sep ++ String.concat sep (z :: l)).
    rewrite Hc. now rewrite !sapp_assoc.
Qed.

(** A plain text inside an argument shows in the printed command. *)
Lemma str_list_contains (s a b : string) (cmd : list string) :
  plain s = true -> In (a ++ s ++ b) cmd ->
  contains s (str_list cmd) = true.
Proof.
  intros Hs Hin. unfold str_list.
  apply (contains_inside s (repr_str (a ++ s ++ b)));
    [ now apply repr_str_contains | ].
  destruct (concat_inside ", " (repr_str (a ++ s ++ b)) (map repr_str cmd))
    as (pre & post & Hc); [ now apply in_map | ].
  rewrite Hc. exists ("[" ++ pre), (post ++ "]").
  now rewrite !sapp_assoc.
Qed.

Lemma logged_app (s : string) (a b : trace) :
  logged s (a ++ b)%list = logged s a || logged s b.
Proof. unfold logged. now rewrite logs_app, existsb_app. Qed.
End Repr.

(** ** The Windows installers when the service cannot be created *)

Section WindowsLeak.
Variable w : world.
Local Open Scope string_scope.

Lemma contains_suffix (s pre x : string) :
  contains s x = true -> contains s (pre ++ x) = true.
Proof.
  intro H. apply (contains_inside s x); [ exact H | ].
  exists pre, EmptyString. now rewrite sapp_nil_r.
Qed.

Lemma contains_prefix (s x post : string) :
  contains s x = true -> contains s (x ++ post) = true.
Proof.
  intro H. apply (contains_inside s x); [ exact H | ].
  exists EmptyString, post. reflexivity.
Qed.

(** test.py: the secret is part of the fifth argument of [sc.exe create]. *)
Lemma create_service_cmd_secret (cfg : Monitor.config)
      (name secret workdir jar : string) :
  plain secret = true ->
  contains secret
    (str_list (Monitor.create_service_cmd w cfg name secret workdir jar))
  = true.
Proof.
  intro Hs.
  apply (str_list_contains secret
           (dq ++ "java -jar " ++ path_join w [getcwd w; jar]
              ++ " -jnlpUrl " ++ Monitor.JENKINS_SERVER_URL cfg
              ++ "/computer/" ++ name ++ "/slave-agent.jnlp -secret ")
           (" -workDir " ++ workdir ++ dq)); [ exact Hs | ].
  unfold Monitor.create_service_cmd.
  do 4 right. left. rewrite !sapp_assoc. reflexivity.
Qed.

(** test.py: when [sc.exe create] fails at every attempt, the runner logs
    the command, and with it the secret. *)
Lemma install_service_windows_leak (cfg : Monitor.config)
      (name secret workdir jar : string) (tr : trace) :
  quiet w ->
  (forall h,
      fails (proc w h (Monitor.create_service_cmd w cfg name secret
                         workdir jar)) = true) ->
  plain secret = true ->
  fst (Monitor.install_service_windows w cfg name secret workdir jar tr)
  = Raise (Exc RuntimeErrorC
             ("Failed to create Windows service '" ++ name ++ "'"))
  /\ logged secret
       (snd (Monitor.install_service_windows w cfg name secret workdir
               jar tr)) = true.
Proof.
  intros Hq Hf Hs.
  destruct (run_command_with_retry_all_fail w
              (Monitor.create_service_cmd w cfg name secret workdir jar)
              ("Failed to create Windows service '" ++ name ++ "'")
              Monitor.default_retries Monitor.default_delay
              (tr ++ [Log INFO
                        "Configuring Jenkins agent as a Windows service..."])%list
              Hq Hf) as (errs & _ & Hrun).
  assert (Heq : Monitor.install_service_windows w cfg name secret workdir
                  jar tr
                = (Raise (Exc RuntimeErrorC
                            ("Failed to create Windows service '" ++ name
                               ++ "'")),
                   ((tr ++ [Log INFO
                              "Configuring Jenkins agent as a Windows service..."])
                      ++ flat_map
                           (failed_attempt
                              (Monitor.create_service_cmd w cfg name secret
                                 workdir jar)
                              Monitor.default_delay) errs
                      ++ [Log CRITICAL
                            ("Command failed after "
                               ++ str_int Monitor.default_retries
                               ++ " attempts: "
                               ++ str_list
                                    (Monitor.create_service_cmd w cfg name
                                       secret workdir jar))])%list)).
  { cbv beta iota zeta delta [Monitor.install_service_windows bind logging
                                emit].
    now rewrite Hrun. }
  rewrite Heq. cbn [fst snd]. split; [ reflexivity | ].
  rewrite !logged_app. apply orb_true_iff. right.
  apply orb_true_iff. right.
  unfold logged. cbn [logs flat_map app existsb snd].
  rewrite orb_false_r.
  do 3 apply contains_suffix. now apply create_service_cmd_secret.
Qed.

(** Jenkins_agent_manager.py: the secret is part of the [binPath=]
    argument. *)
Lemma sc_create_command_secret
      (java jar url secret name workdir : string) :
  plain secret = true ->
  contains secret
    (str_list (Manager.sc_create_command java jar url secret name workdir))
  = true.
Proof.
  intro Hs.
  apply (str_list_contains secret
           ("binPath= " ++ dq ++ java ++ " -jar " ++ jar ++ " -url " ++ url
              ++ " -secret ")
           (" -name " ++ name ++ " -workDir " ++ workdir ++ dq));
    [ exact Hs | ].
  unfold Manager.sc_create_command.
  do 3 right. left. rewrite !sapp_assoc. reflexivity.
Qed.

(** Jenkins_agent_manager.py: when [sc.exe create] fails, [run_command]
    logs the exception, whose text shows the command and the secret. *)
Lemma configure_windows_service_leak (c : Manager.config) (jar : string)
      (tr : trace) (url secret name workdir java_home : string)
      (details : list (string * Manager.value))
      (entry : Manager.platform_entry) :
  truthy (getenv w "WINDOWS_AGENT_SECRET") = true ->
  getenv w "WINDOWS_AGENT_SECRET" = Some secret ->
  getenv w "JAVA_HOME" = Some java_home ->
  Manager.JENKINS_SERVER_URL c = Some url ->
  Manager.AGENT_DETAILS c = Some details ->
  assoc "WINDOWS" details = Some (Manager.Object entry) ->
  assoc "AGENT_NAME" entry = Some name ->
  assoc "AGENT_WORKDIR" entry = Some workdir ->
  (forall h cmd, fails (proc w h cmd) = true) ->
  plain secret = true ->
  fst (Manager.configure_windows_service w jar c tr)
  = Raise (Exc RuntimeErrorC
             ("Failed to create Windows service '" ++ name ++ "'"))
  /\ logged secret (snd (Manager.configure_windows_service w jar c tr))
     = true.
Proof.
  intros Ht Hs Hj Hu Hd Hw Hn Hk Hf Hp.
  unfold Manager.configure_windows_service, Manager.agent_detail,
    Manager.value_getitem, Manager.server_url, Manager.run_command, getitem.
  rewrite Ht, Hs, Hj, Hu, Hd.
  cbv beta iota zeta delta [bind try_except io history emit logging ret
                              subprocess_run negb].
  rewrite Hw, Hn, Hk. cbv beta iota.
  match goal with
  | |- context [proc w ?h ?cmd] =>
      destruct (fails_inv _ (Hf h cmd)) as (rc & out & err & Hproc & Hrc);
      rewrite Hproc, Hrc
  end.
  cbv beta iota delta [raise is_CalledProcessError].
  cbn [fst snd]. split; [ reflexivity | ].
  rewrite <- !app_assoc. rewrite logged_app. apply orb_true_iff. right.
  unfold logged. cbn [logs flat_map app existsb snd].
  apply orb_true_iff. right. apply orb_true_iff. left.
  apply contains_suffix. cbn [str_exn].
  do 2 apply contains_suffix. apply contains_prefix.
  now apply sc_create_command_secret.
Qed.
End WindowsLeak.

(** ** The monitor loop while the status query keeps failing *)

Lemma failed_attempts_quiet (command : list string) (delay : Z)
      (errs : list string) (msg : string) :
  alerts (flat_map (failed_attempt command delay) errs) = 0
  /\ ~ In (Log WARNING msg) (flat_map (failed_attempt command delay) errs).
Proof.
  induction errs as [ | m errs (Ha & Hn) ]; simpl.
  - split; [ reflexivity | intros [] ].
  - split; [ exact Ha | ].
    intros [H | [H | [H | H]]]; try discriminate. now apply Hn.
Qed.

Lemma runs_failed_attempts (command : list string) (delay : Z)
      (errs : list string) :
  runs (flat_map (failed_attempt command delay) errs)
  = repeat command (length errs)
  /\ writes (flat_map (failed_attempt command delay) errs) = [].
Proof.
  induction errs as [ | m errs (Hr & Hw) ]; [ split; reflexivity | ].
  simpl. split; [ now rewrite Hr | exact Hw ].
Qed.

Section FailingQuery.
Variable w : world.
Variable cfg : Monitor.config.
Variable name : string.
Hypothesis Hp : platform_system w = "Linux"%string.
Hypothesis Hq : quiet w.
Hypothesis Hf :
  forall h, fails (proc w h ["systemctl"; "is-active"; name]%string) = true.

Let query := ["systemctl"; "is-active"; name]%string.
Let unexpected :=
  ("Unexpected error while monitoring '" ++ name
     ++ "': Failed to check status for Linux service '" ++ name ++ "'")%string.

(** One pass: three attempts, the critical record of the runner and the
    error record of the loop body; no warning, no alert. *)
Lemma monitor_iteration_down (tr : trace) :
  exists new,
    Monitor.monitor_iteration w cfg name tr = (Ok tt, tr ++ new)
    /\ runs new = repeat query 3
    /\ alerts new = 0
    /\ (forall msg, ~ In (Log WARNING msg) new)
    /\ In (Log ERROR unexpected) new.
Proof.
  assert (Hs : supported (platform_system w)) by (now left).
  assert (Hf' : forall h, fails (proc w h (status_query (platform_system w)
                                            name)) = true).
  { intro h. rewrite Hp. exact (Hf h). }
  destruct (monitor_iteration_query_fails w cfg name tr Hs Hq Hf')
    as (errs & Hlen & Hit).
  rewrite Hp in Hit.
  change (status_query "Linux" name) with query in Hit.
  eexists. split; [ exact Hit | ].
  destruct (runs_failed_attempts query 5 errs) as (Hr & _).
  split; [ rewrite runs_app, Hr, Hlen; reflexivity | ].
  split.
  - destruct (failed_attempts_quiet query 5 errs EmptyString) as (Ha & _).
    rewrite alerts_app, Ha. reflexivity.
  - split.
    + intros msg H. apply in_app_or in H. destruct H as [H | H].
      * destruct (failed_attempts_quiet query 5 errs msg) as (_ & Hn).
        exact (Hn H).
      * destruct H as [H | [H | []]]; discriminate H.
    + apply in_or_app. right. right. left. reflexivity.
Qed.

Lemma monitor_loop_query_fails (ticks : nat) :
  forall tr,
    exists new,
      Monitor.monitor_loop w cfg name ticks tr = (Ok tt, tr ++ new)
      /\ runs new = repeat query (3 * ticks)
      /\ alerts new = 0
      /\ (forall msg, ~ In (Log WARNING msg) new)
      /\ (0 < ticks -> In (Log ERROR unexpected) new).
Proof.
  induction ticks as [ | n IH ]; intro tr.
  - exists []. simpl. rewrite app_nil_r.
    repeat split; [ intros msg [] | intro H; inversion H ].
  - destruct (monitor_iteration_down tr) as (new & Hit & Hr & Ha & Hw & He).
    rewrite (monitor_loop_step w cfg name n tr new Hq Hit).
    destruct (IH (tr ++ new ++ [Sleep (Monitor.CHECK_INTERVAL cfg)]))
      as (more & Hrun & Hr' & Ha' & Hw' & _).
    exists (new ++ [Sleep (Monitor.CHECK_INTERVAL cfg)] ++ more).
    rewrite Hrun. split; [ now rewrite <- !app_assoc | ].
    split.
    { rewrite !runs_app, Hr, Hr'. cbn [runs flat_map app].
      rewrite <- repeat_app. f_equal. lia. }
    split; [ rewrite !alerts_app, Ha, Ha'; reflexivity | ].
    split.
    + intros msg H. apply in_app_or in H. destruct H as [H | H];
        [ exact (Hw msg H) | ].
      destruct H as [H | H]; [ discriminate H | exact (Hw' msg H) ].
    + intros _. apply in_or_app. left. exact He.
Qed.
End FailingQuery.

(* ================================================================== *)
(** * The claims *)
(* ================================================================== *)

(** ** C1: alerts and runs of Inactive observations *)

(** C1, as the code has it: the monitor keeps no alerted flag.  On a
    supported platform where no signal arrives and the status queries print
    the observations [outs] in turn, the loop makes one query per
    observation, is still running after them, and has sent one alert per
    observation that does not read as active, so every Inactive observation
    of a run alerts, not only the first. *)
Theorem C1_alert_at_every_inactive_observation
        (w : world) (cfg : Monitor.config) (name : string)
        (outs : list string) :
  supported (platform_system w) ->
  quiet w ->
  (forall h, proc w h (status_query (platform_system w) name)
             = Exited 0 (nth (length (runs h)) outs EmptyString)
                 EmptyString) ->
  exists tr',
    Monitor.monitor_loop w cfg name (length outs) [] = (Ok tt, tr')
    /\ alerts tr'
       = length (filter (fun out =>
                           negb (observed_active (platform_system w) out))
                        outs)
    /\ length (runs tr') = length outs.
Proof.
  intros Hs Hq Hp.
  destruct (monitor_loop_scripted w cfg name outs Hs Hq Hp outs [] []
              eq_refl eq_refl) as (tr' & Hrun & Ha & Hr).
  exists tr'. auto.
Qed.

(** C1, witness: the sequence Active, Inactive, Inactive, Inactive, Active,
    Inactive on a Windows host. *)
Lemma C1_alert_at_every_inactive_observation_witness :
  exists tr',
    Monitor.monitor_loop
      (Examples.host "Windows" Examples.secrets
         (Examples.scripted Examples.outage_script))
      Examples.monitor_config "agent-1" 6 [] = (Ok tt, tr')
    /\ alerts tr'
       = length (filter (fun out => negb (observed_active "Windows" out))
                        Examples.outage_script)
    /\ length (runs tr') = 6.
Proof.
  apply (C1_alert_at_every_inactive_observation
           (Examples.host "Windows" Examples.secrets
              (Examples.scripted Examples.outage_script))
           Examples.monitor_config "agent-1" Examples.outage_script).
  - right. reflexivity.
  - intro h. reflexivity.
  - intro h. reflexivity.
Defined.

(** C1, counterexample: on the sequence Active, Inactive, Inactive,
    Inactive, Active, Inactive the monitor sends 4 alerts, not 2. *)
Lemma C1_outage_sequence_sends_four_alerts :
  alerts (snd (Monitor.monitor_loop
                 (Examples.host "Windows" Examples.secrets
                    (Examples.scripted Examples.outage_script))
                 Examples.monitor_config "agent-1" 6 [])) = 4
  /\ alerts (snd (Monitor.monitor_loop
                    (Examples.host "Windows" Examples.secrets
                       (Examples.scripted Examples.outage_script))
                    Examples.monitor_config "agent-1" 6 [])) <> 2.
Proof.
  assert (H : alerts (snd (Monitor.monitor_loop
                             (Examples.host "Windows" Examples.secrets
                                (Examples.scripted Examples.outage_script))
                             Examples.monitor_config "agent-1" 6 [])) = 4)
    by (vm_compute; reflexivity).
  split; [ exact H | rewrite H; discriminate ].
Qed.

(** ** C2: the retry runner on a command that always fails *)

(** C2, as the code has it: when every attempt exits with a non-zero status
    and no signal arrives, the runner makes [retries] attempts, each followed
    by an error record and a sleep of [delay], the last attempt included;
    then it logs the command at critical level and raises one
    [RuntimeError] whose message is the error context.  [retries] and
    [delay] are parameters, with defaults 3 and 5. *)
Theorem C2_retry_exhaustion
        (w : world) (command : list string) (error_message : string)
        (retries delay : Z) (tr : trace) :
  quiet w ->
  (forall h, fails (proc w h command) = true) ->
  (exists errs,
      length errs = Z.to_nat retries
      /\ Monitor.run_command_with_retry w command error_message retries
           delay tr
         = (Raise (Exc RuntimeErrorC error_message),
            tr ++ flat_map (failed_attempt command delay) errs
               ++ [Log CRITICAL
                     ("Command failed after " ++ str_int retries
                        ++ " attempts: " ++ str_list command)%string]))
  /\ Monitor.default_retries = 3%Z /\ Monitor.default_delay = 5%Z.
Proof.
  intros Hq Hf. split; [ | split; reflexivity ].
  now apply run_command_with_retry_all_fail.
Qed.

(** C2, witness: a command that exits with status 1, three attempts, five
    seconds. *)
Lemma C2_retry_exhaustion_witness :
  (exists errs,
      length errs = Z.to_nat 3
      /\ Monitor.run_command_with_retry
           (Examples.host "Linux" Examples.secrets Examples.always_fails)
           ["systemctl"; "start"; "agent-1"]%string "Failed to start" 3 5 []
         = (Raise (Exc RuntimeErrorC "Failed to start"),
            [] ++ flat_map
                    (failed_attempt ["systemctl"; "start"; "agent-1"]%string 5)
                    errs
               ++ [Log CRITICAL
                     ("Command failed after " ++ str_int 3
                        ++ " attempts: "
                        ++ str_list ["systemctl"; "start"; "agent-1"]%string)%string]))
  /\ Monitor.default_retries = 3%Z /\ Monitor.default_delay = 5%Z.
Proof.
  apply (C2_retry_exhaustion
           (Examples.host "Linux" Examples.secrets Examples.always_fails)
           ["systemctl"; "start"; "agent-1"]%string "Failed to start" 3 5 []).
  - intro h. reflexivity.
  - intro h. reflexivity.
Defined.

(** C2, counterexample: with 3 attempts the runner sleeps 3 times, and the
    last sleep comes after the last attempt, right before the critical
    record. *)
Lemma C2_sleep_follows_last_attempt :
  let tr := snd (Monitor.run_command_with_retry
                   (Examples.host "Linux" Examples.secrets
                      Examples.always_fails)
                   ["systemctl"; "start"; "agent-1"]%string
                   "Failed to start" 3 5 []) in
  length (runs tr) = 3
  /\ sleeps tr = [5; 5; 5]%Z
  /\ length (sleeps tr) <> length (runs tr) - 1
  /\ skipn 6 tr
     = [Run ["systemctl"; "start"; "agent-1"]%string;
        Log ERROR
          "Failed to start: Command '['systemctl', 'start', 'agent-1']' returned non-zero exit status 1.. Attempt 3/3";
        Sleep 5;
        Log CRITICAL
          "Command failed after 3 attempts: ['systemctl', 'start', 'agent-1']"].
Proof.
  vm_compute.
  split; [ reflexivity | split; [ reflexivity | split ] ];
    [ discriminate | reflexivity ].
Qed.

(** ** C3: the agent secret is checked before the installation *)

(** C3: when the platform's agent secret is unset or empty, both installers
    of Jenkins_agent_manager.py raise [ValueError] after one error record
    and nothing else; its [main] ends in an exception, having written no
    file and run no command but the download of the jar; and [main] of
    test.py raises before the download, having done nothing but, at most,
    logged that the config is valid, with a [ValueError] when the config has
    an entry for the platform. *)
Theorem C3_secret_checked_before_install
        (w : world) (jar : string) (c : Manager.config)
        (f : Manager.config_file) (cfg : Monitor.config) (ticks : nat)
        (tr : trace) :
  (truthy (getenv w "LINUX_AGENT_SECRET") = false ->
   Manager.configure_linux_service w jar c tr
   = (Raise (Exc ValueErrorC
               "LINUX_AGENT_SECRET is required in the .env file"),
      tr ++ [Log ERROR "LINUX_AGENT_SECRET is not set in the .env file."]))
  /\ (truthy (getenv w "WINDOWS_AGENT_SECRET") = false ->
      Manager.configure_windows_service w jar c tr
      = (Raise (Exc ValueErrorC
                  "WINDOWS_AGENT_SECRET is required in the .env file"),
         tr ++ [Log ERROR
                  "WINDOWS_AGENT_SECRET is not set in the .env file."]))
  /\ (manager_secret_absent w ->
      triple (Manager.main w f) no_service_action any_exn
      /\ always_raises (Manager.main w f))
  /\ (monitor_secret_absent w ->
      exists e new,
        Monitor.main w cfg ticks tr = (Raise e, tr ++ new)
        /\ (new = []
            \/ new = [Log INFO "Configuration validated successfully."])
        /\ (has_entry w cfg -> exists msg, e = Exc ValueErrorC msg)).
Proof.
  split; [ apply configure_linux_secret_absent | ].
  split; [ apply configure_windows_secret_absent | ].
  split.
  - intro H. split.
    + apply manager_main_no_service_action. now left.
    + now apply manager_main_raises.
  - apply monitor_main_secret_absent.
Qed.

(** C3, witness: a Linux host whose environment holds no agent secret. *)
Lemma C3_secret_checked_before_install_witness :
  Manager.configure_linux_service
    (Examples.host "Linux" Examples.no_agent_secret Examples.succeeds)
    "agent.jar" Examples.manager_config []
  = (Raise (Exc ValueErrorC
              "LINUX_AGENT_SECRET is required in the .env file"),
     [] ++ [Log ERROR "LINUX_AGENT_SECRET is not set in the .env file."])
  /\ always_raises
       (Manager.main
          (Examples.host "Linux" Examples.no_agent_secret Examples.succeeds)
          (Manager.Parsed Examples.manager_config))
  /\ exists e new,
       Monitor.main
         (Examples.host "Linux" Examples.no_agent_secret Examples.succeeds)
         Examples.monitor_config 3 [] = (Raise e, [] ++ new)
       /\ (new = []
           \/ new = [Log INFO "Configuration validated successfully."])
       /\ (has_entry
             (Examples.host "Linux" Examples.no_agent_secret
                Examples.succeeds) Examples.monitor_config ->
           exists msg, e = Exc ValueErrorC msg).
Proof.
  destruct (C3_secret_checked_before_install
              (Examples.host "Linux" Examples.no_agent_secret
                 Examples.succeeds)
              "agent.jar" Examples.manager_config
              (Manager.Parsed Examples.manager_config)
              Examples.monitor_config 3 []) as (H1 & _ & H3 & H4).
  split; [ apply H1; reflexivity | ].
  split.
  - apply H3. left. split; reflexivity.
  - apply H4. left. split; reflexivity.
Defined.

(** ** C4: a status query that fails *)

(** C4, the code where it fails: a Linux host on which the unit is down.
    [systemctl is-active] then exits with a non-zero status, which
    [check=True] turns into [CalledProcessError]; after three attempts the
    runner raises, and the handler of the loop body logs the error.  The
    test [if not is_active] is never reached: however long the unit stays
    down, the loop goes on from pass to pass and no "is down" warning is
    logged and no alert is sent.  The failed query is logged and the loop
    survives, as the claim says; it is not treated as Inactive. *)
Theorem C4_down_linux_unit_is_never_alerted
        (w : world) (cfg : Monitor.config) (name : string) (ticks : nat)
        (tr : trace) :
  platform_system w = "Linux"%string ->
  quiet w ->
  (forall h, fails (proc w h ["systemctl"; "is-active"; name]%string)
             = true) ->
  exists new,
    Monitor.monitor_service w cfg name ticks tr = (Ok tt, tr ++ new)
    /\ runs new = repeat ["systemctl"; "is-active"; name]%string (3 * ticks)
    /\ alerts new = 0
    /\ (forall msg, ~ In (Log WARNING msg) new)
    /\ (0 < ticks ->
        In (Log ERROR
              ("Unexpected error while monitoring '" ++ name
                 ++ "': Failed to check status for Linux service '"
                 ++ name ++ "'")%string) new).
Proof.
  intros Hp Hq Hf. unfold Monitor.monitor_service, bind, logging, emit.
  destruct (monitor_loop_query_fails w cfg name Hp Hq Hf ticks
              (tr ++ [Log INFO ("Starting monitoring for service '" ++ name
                                  ++ "'")%string]))
    as (new & Hrun & Hr & Ha & Hw & He).
  rewrite Hrun. eexists. split; [ rewrite <- app_assoc; reflexivity | ].
  split; [ rewrite runs_app, Hr; reflexivity | ].
  split; [ rewrite alerts_app, Ha; reflexivity | ].
  split.
  - intros msg [H | H]; [ discriminate H | exact (Hw msg H) ].
  - intro Hpos. right. exact (He Hpos).
Qed.

(** C4, witness and failing input: the unit "agent-1" is stopped, so
    [systemctl is-active agent-1] prints "inactive" and exits with status
    3; three passes of the loop. *)
Lemma C4_down_linux_unit_is_never_alerted_witness :
  exists new,
    Monitor.monitor_service
      (Examples.host "Linux" Examples.secrets Examples.unit_down)
      Examples.monitor_config "agent-1" 3 [] = (Ok tt, [] ++ new)
    /\ runs new = repeat ["systemctl"; "is-active"; "agent-1"]%string (3 * 3)
    /\ alerts new = 0
    /\ (forall msg, ~ In (Log WARNING msg) new)
    /\ (0 < 3 ->
        In (Log ERROR
              ("Unexpected error while monitoring '" ++ "agent-1"
                 ++ "': Failed to check status for Linux service '"
                 ++ "agent-1" ++ "'")%string) new).
Proof.
  apply (C4_down_linux_unit_is_never_alerted
           (Examples.host "Linux" Examples.secrets Examples.unit_down)
           Examples.monitor_config "agent-1" 3 []).
  - reflexivity.
  - intro h. reflexivity.
  - intro h. reflexivity.
Defined.

(** ** C5: sending the alert mail *)

(** C5: [send_alert_email] returns normally whatever the transport does.
    It announces the mail and opens one session; then either every step of
    the session went through and the success is logged, or some step raised
    and an error record carries the message of an exception the transport
    raised. *)
Theorem C5_send_never_raises
        (w : world) (cfg : Monitor.config) (subject message : string)
        (tr : trace) :
  let announce :=
    Log INFO ("Sending alert email with subject: " ++ subject)%string in
  let connect :=
    SmtpConnect (Monitor.SMTP_SERVER cfg) (Monitor.SMTP_PORT cfg) in
  let login :=
    SmtpLogin (Monitor.SMTP_USERNAME cfg) (Monitor.SMTP_PASSWORD w) in
  let mail := SmtpSendmail (Monitor.SMTP_USERNAME cfg)
                (Monitor.ALERT_EMAIL cfg) subject message in
  exists new,
    Monitor.send_alert_email w cfg subject message tr
    = (Ok tt, tr ++ announce :: connect :: new)
    /\ alerts new = 0 /\ runs new = []
    /\ ((new = [SmtpStartTls; login; mail; SmtpQuit;
                Log INFO "Alert email sent successfully."]
         /\ fault w (tr ++ [announce]) connect = None
         /\ fault w (tr ++ [announce; connect]) SmtpStartTls = None
         /\ fault w (tr ++ [announce; connect; SmtpStartTls]) login = None
         /\ fault w (tr ++ [announce; connect; SmtpStartTls; login]) mail
            = None
         /\ fault w (tr ++ [announce; connect; SmtpStartTls; login; mail])
              SmtpQuit = None)
        \/ (exists h ev c msg,
               fault w h ev = Some (c, msg)
               /\ In (Log ERROR ("Failed to send alert email: " ++ msg)%string)
                    new)).
Proof. apply send_alert_email_cases. Qed.

(** ** C6: a platform that is neither Linux nor Windows *)

(** C6, as the code has it.  test.py raises in [get_agent_details], before
    the download: [main] ends in an exception, having done nothing but, at
    most, logged that the config is valid, and the exception is the
    unsupported-platform one when the config passes the validation.
    Jenkins_agent_manager.py tests the platform after the download: on any
    host its [main] writes no file and runs no command but the download of
    the jar; and when nothing fails it makes the jar's directory
    accessible, downloads the jar, logs the unsupported platform at error
    level and returns without raising. *)
Theorem C6_unsupported_platform
        (w : world) (cfg : Monitor.config) (ticks : nat)
        (f : Manager.config_file) (c : Manager.config) (tr : trace)
        (out err : string) :
  (~ supported (platform_system w) ->
   exists e new,
     Monitor.main w cfg ticks tr = (Raise e, tr ++ new)
     /\ (new = [] \/ new = [Log INFO "Configuration validated successfully."])
     /\ (monitor_valid w cfg ->
         e = Exc ExceptionC
               "Unsupported platform. Only Windows and Linux are supported."))
  /\ (~ manager_supported w ->
      triple (Manager.main w f) no_service_action any_exn)
  /\ (~ manager_supported w ->
      (forall h ev, fault w h ev = None) ->
      (forall h cmd, proc w h cmd = Exited 0 out err) ->
      manager_valid c = true ->
      exists new path url,
        Manager.main w (Manager.Parsed c) tr = (Ok tt, tr ++ new)
        /\ writes new = []
        /\ runs new = [["curl"; "-o"; path; url]%string]
        /\ In (Chmod (dirname w path) 493) new
        /\ In (Log ERROR
                 "Unsupported platform. Only Windows and Linux are supported.")
              new).
Proof.
  split; [ apply monitor_main_unsupported | ].
  split.
  - intro H. apply manager_main_no_service_action. now right.
  - apply manager_main_unsupported_run.
Qed.

Lemma darwin_unsupported :
  ~ supported
      (platform_system
         (Examples.host "Darwin" Examples.secrets Examples.succeeds)).
Proof. intros [H | H]; discriminate H. Qed.

Lemma darwin_manager_unsupported :
  ~ manager_supported
      (Examples.host "Darwin" Examples.secrets Examples.succeeds).
Proof. intros [H | H]; vm_compute in H; discriminate H. Qed.

(** C6, witness: a host that reports "Darwin", where nothing fails. *)
Lemma C6_unsupported_platform_witness :
  (exists e new,
      Monitor.main
        (Examples.host "Darwin" Examples.secrets Examples.succeeds)
        Examples.monitor_config 3 [] = (Raise e, [] ++ new)
      /\ (new = []
          \/ new = [Log INFO "Configuration validated successfully."])
      /\ (monitor_valid
            (Examples.host "Darwin" Examples.secrets Examples.succeeds)
            Examples.monitor_config ->
          e = Exc ExceptionC
                "Unsupported platform. Only Windows and Linux are supported."))
  /\ triple
       (Manager.main
          (Examples.host "Darwin" Examples.secrets Examples.succeeds)
          (Manager.Parsed Examples.manager_config))
       no_service_action any_exn
  /\ exists new path url,
       Manager.main
         (Examples.host "Darwin" Examples.secrets Examples.succeeds)
         (Manager.Parsed Examples.manager_config) [] = (Ok tt, [] ++ new)
       /\ writes new = []
       /\ runs new = [["curl"; "-o"; path; url]%string]
       /\ In (Chmod
                (dirname
                   (Examples.host "Darwin" Examples.secrets Examples.succeeds)
                   path) 493) new
       /\ In (Log ERROR
                "Unsupported platform. Only Windows and Linux are supported.")
             new.
Proof.
  destruct (C6_unsupported_platform
              (Examples.host "Darwin" Examples.secrets Examples.succeeds)
              Examples.monitor_config 3
              (Manager.Parsed Examples.manager_config)
              Examples.manager_config [] EmptyString EmptyString)
    as (H1 & H2 & H3).
  split; [ apply H1; exact darwin_unsupported | ].
  split; [ apply H2; exact darwin_manager_unsupported | ].
  apply H3.
  - exact darwin_manager_unsupported.
  - intros h ev. reflexivity.
  - intros h cmd. reflexivity.
  - reflexivity.
Defined.

(** C6, counterexample: on a host that reports "Darwin" the installer
    script creates the jar's directory, changes its mode and downloads the
    jar, and then returns normally: no error is raised. *)
Lemma C6_installer_downloads_on_unknown_platform :
  let r := Manager.main
             (Examples.host "Darwin" Examples.secrets Examples.succeeds)
             (Manager.Parsed Examples.manager_config) [] in
  fst r = Ok tt
  /\ runs (snd r)
     = [["curl"; "-o"; "/home/ci/jenkins/agent.jar";
         "http://jenkins:8080/jnlpJars/agent.jar"]%string]
  /\ filter (fun ev => match ev with
                       | MakeDirs _ | Chmod _ _ => true
                       | _ => false
                       end) (snd r)
     = [MakeDirs "../../logs"; MakeDirs "/home/ci/jenkins";
        Chmod "/home/ci/jenkins" 493].
Proof. vm_compute. repeat split. Qed.

(** ** C7: a shutdown signal between two passes *)

(** C7, the code at the failing input: SIGTERM arrives during the first
    sleep between two passes of the loop.  The handler logs the shutdown
    and then evaluates [sys], which the module never imports: the sleep
    raises [NameError], no handler of the loop is around it, and the
    interpreter ends with status 1, not 0.  No command follows the
    signal. *)
Theorem C7_shutdown_signal_ends_in_NameError :
  let r := Monitor.main (Examples.sigterm_between_ticks "Linux")
             Examples.monitor_config 3 [] in
  fst r = Raise (Exc NameErrorC "name 'sys' is not defined")
  /\ exit_code (fst r) = 1%Z
  /\ existsb (String.eqb "sys") Monitor.module_globals = false
  /\ skipn (length (snd r) - 3) (snd r)
     = [Run ["systemctl"; "is-active"; "agent-1"]%string;
        Sleep 30;
        Log INFO "Received shutdown signal, cleaning up..."].
Proof. vm_compute. repeat split. Qed.

(** ** C8: reading the status output *)

(** C8: the Linux reading is Active exactly on the token "active" with
    whitespace around it, the Windows reading exactly on an output that has
    "RUNNING" somewhere in it; any other output reads as Inactive. *)
Theorem C8_status_mapping (out : string) :
  (Monitor.linux_active out = true
   <-> exists l r, all_space l = true /\ all_space r = true
                   /\ out = (l ++ "active" ++ r)%string)
  /\ (Monitor.linux_active out = true <-> strip out = "active"%string)
  /\ (Monitor.windows_active out = true
      <-> exists l r, out = (l ++ "RUNNING" ++ r)%string).
Proof.
  split; [ apply linux_active_iff | ].
  split; [ apply String.eqb_eq | apply windows_active_iff ].
Qed.

(** ** C9: the agent secret and the log *)

Lemma host_blind (system : string) (vars : list (string * string))
      (o : proc_outcome) :
  blind (Examples.host system vars (fun _ _ => o)).
Proof. repeat split; intros; reflexivity. Qed.

(** C9, as the code has it.  On a host that does not look into the written
    files, the log of a whole run on Linux, of test.py and of
    Jenkins_agent_manager.py alike, is the same for any two non-empty
    secrets: there the secret only goes into the unit file.  On Windows the
    secret is an argument of [sc.exe create], and a failed command is
    logged with its arguments: when the creation fails, the log of either
    script contains the secret (a secret of plain characters, which are
    printed as they are). *)
Theorem C9_secret_and_log
        (w : world) (c1 c2 : ascii) (r1 r2 : string)
        (cfg : Monitor.config) (ticks : nat) (f : Manager.config_file)
        (c : Manager.config) (tr : trace)
        (name secret workdir jar url java_home : string)
        (details : list (string * Manager.value))
        (entry : Manager.platform_entry) :
  (blind w ->
   platform_system w = "Linux"%string ->
   logs (snd (Monitor.main (with_env w "LINUX_AGENT_SECRET" (String c1 r1))
                cfg ticks tr))
   = logs (snd (Monitor.main (with_env w "LINUX_AGENT_SECRET" (String c2 r2))
                  cfg ticks tr)))
  /\ (blind w ->
      Manager.get_platform w = "linux"%string ->
      logs (snd (Manager.main (with_env w "LINUX_AGENT_SECRET" (String c1 r1))
                   f tr))
      = logs (snd (Manager.main
                     (with_env w "LINUX_AGENT_SECRET" (String c2 r2)) f tr)))
  /\ (quiet w ->
      (forall h,
          fails (proc w h (Monitor.create_service_cmd w cfg name secret
                             workdir jar)) = true) ->
      plain secret = true ->
      logged secret
        (snd (Monitor.install_service_windows w cfg name secret workdir jar
                tr)) = true)
  /\ (truthy (getenv w "WINDOWS_AGENT_SECRET") = true ->
      getenv w "WINDOWS_AGENT_SECRET" = Some secret ->
      getenv w "JAVA_HOME" = Some java_home ->
      Manager.JENKINS_SERVER_URL c = Some url ->
      Manager.AGENT_DETAILS c = Some details ->
      assoc "WINDOWS" details = Some (Manager.Object entry) ->
      assoc "AGENT_NAME" entry = Some name ->
      assoc "AGENT_WORKDIR" entry = Some workdir ->
      (forall h cmd, fails (proc w h cmd) = true) ->
      plain secret = true ->
      logged secret (snd (Manager.configure_windows_service w jar c tr))
      = true).
Proof.
  split; [ | split; [ | split ] ].
  - intros Hb Hp.
    apply (sim_logs _ _ tr (sim_monitor_main w c1 c2 r1 r2 Hb cfg ticks Hp)).
  - intros Hb Hp.
    apply (sim_logs _ _ tr (sim_manager_main w c1 c2 r1 r2 Hb f Hp)).
  - intros Hq Hf Hs.
    now apply install_service_windows_leak.
  - intros. eapply configure_windows_service_leak; eauto.
Qed.

(** C9, witness: a Linux host where every command succeeds, with the
    secrets "tok123" and "other"; and a Windows host where every command
    fails, with the secret "tok123". *)
Lemma C9_secret_and_log_witness :
  logs (snd (Monitor.main
               (with_env
                  (Examples.host "Linux" Examples.secrets
                     (fun _ _ => Exited 0 Examples.active_out EmptyString))
                  "LINUX_AGENT_SECRET" "tok123")
               Examples.monitor_config 2 []))
  = logs (snd (Monitor.main
                 (with_env
                    (Examples.host "Linux" Examples.secrets
                       (fun _ _ => Exited 0 Examples.active_out EmptyString))
                    "LINUX_AGENT_SECRET" "other")
                 Examples.monitor_config 2 []))
  /\ logged "tok123"
       (snd (Monitor.install_service_windows
               (Examples.host "Windows" Examples.secrets
                  Examples.always_fails)
               Examples.monitor_config "agent-1" "tok123" "D:/jenkins"
               "agent.jar" [])) = true
  /\ logged "tok123"
       (snd (Manager.configure_windows_service
               (Examples.host "Windows" Examples.secrets
                  Examples.always_fails)
               "agent.jar" Examples.manager_config [])) = true.
Proof.
  split; [ | split ].
  - destruct (C9_secret_and_log
                (Examples.host "Linux" Examples.secrets
                   (fun _ _ => Exited 0 Examples.active_out EmptyString))
                "t" "o" "ok123" "ther" Examples.monitor_config 2
                (Manager.Parsed Examples.manager_config)
                Examples.manager_config [] EmptyString EmptyString
                EmptyString EmptyString EmptyString EmptyString [] [])
      as (H & _).
    apply H; [ apply host_blind | reflexivity ].
  - destruct (C9_secret_and_log
                (Examples.host "Windows" Examples.secrets
                   Examples.always_fails)
                "t" "o" "ok123" "ther" Examples.monitor_config 2
                (Manager.Parsed Examples.manager_config)
                Examples.manager_config [] "agent-1" "tok123" "D:/jenkins"
                "agent.jar" EmptyString EmptyString [] [])
      as (_ & _ & H & _).
    apply H; [ intro h; reflexivity | intro h; reflexivity | reflexivity ].
  - destruct (C9_secret_and_log
                (Examples.host "Windows" Examples.secrets
                   Examples.always_fails)
                "t" "o" "ok123" "ther" Examples.monitor_config 2
                (Manager.Parsed Examples.manager_config)
                Examples.manager_config [] "agent-1" "tok123" "D:/jenkins"
                "agent.jar" "http://jenkins:8080" "C:/java"
                [ ("LINUX", Manager.Object [ ("AGENT_NAME", "agent-1");
                              ("AGENT_WORKDIR", "/var/jenkins") ]);
                  ("WINDOWS", Manager.Object [ ("AGENT_NAME", "agent-1");
                                ("AGENT_WORKDIR", "D:/jenkins") ]) ]%string
                [ ("AGENT_NAME", "agent-1");
                  ("AGENT_WORKDIR", "D:/jenkins") ]%string)
      as (_ & _ & _ & H).
    apply H; first [ reflexivity | intros; reflexivity ].
Defined.

(** C9, counterexample: on a Windows host where [sc.exe] exits with status
    1, the log of either script contains the secret "tok123". *)
Lemma C9_failed_create_logs_the_secret :
  logged "tok123"
    (snd (Monitor.main
            (Examples.host "Windows" Examples.secrets Examples.sc_fails)
            Examples.monitor_config 3 [])) = true
  /\ logged "tok123"
       (snd (Manager.main
               (Examples.host "Windows" Examples.secrets Examples.sc_fails)
               (Manager.Parsed Examples.manager_config) [])) = true.
Proof. vm_compute. split; reflexivity. Qed.

(** ** C10: the identity of the Linux unit in Jenkins_agent_manager.py *)

(** C10: whatever the config and the host, the Linux installer writes no
    file but the unit file at /etc/systemd/system/jenkins-agent.service and
    runs no command but its five fixed ones, which name the unit
    "jenkins-agent".  Every unit file it can write has the line User=gopal;
    and when no value that goes into it has a line feed, its lines are
    twelve fixed lines, User=gopal among them, and the ExecStart line, in
    which the configured agent name stands between the quotes after
    [-name]: no other line depends on the config.  When nothing fails, the
    file is written once, with the AGENT_NAME of the LINUX entry as that
    name, and the five commands run in order; and with the agent name
    "agent-1" the installer starts "jenkins-agent" while the monitor
    queries "agent-1". *)
Theorem C10_linux_unit_identity
        (w : world) (jar : string) (c : Manager.config) (tr : trace)
        (url secret name workdir out err : string)
        (details : list (string * Manager.value))
        (entry : Manager.platform_entry) :
  triple (Manager.configure_linux_service w jar c)
         (linux_unit_event jar) any_exn
  /\ (contains user_line
        (Manager.service_file_content jar url secret name workdir) = true
      /\ (one_line jar = true -> one_line url = true ->
          one_line secret = true -> one_line name = true ->
          one_line workdir = true ->
          split_lines
            (Manager.service_file_content jar url secret name workdir)
          = [ EmptyString;
              "    [Unit]";
              "    Description=Jenkins Agent";
              "    After=network.target";
              EmptyString;
              "    [Service]";
              "    ExecStart=/usr/bin/java -jar " ++ jar ++ " -url " ++ url
                ++ " -secret " ++ secret ++ " -name " ++ dq ++ name ++ dq
                ++ " -workDir " ++ dq ++ workdir ++ dq;
              "    User=gopal";
              "    Restart=always";
              EmptyString;
              "    [Install]";
              "    WantedBy=multi-user.target";
              "    " ]%string))
  /\ (truthy (getenv w "LINUX_AGENT_SECRET") = true ->
      getenv w "LINUX_AGENT_SECRET" = Some secret ->
      Manager.JENKINS_SERVER_URL c = Some url ->
      Manager.AGENT_DETAILS c = Some details ->
      assoc "LINUX" details = Some (Manager.Object entry) ->
      assoc "AGENT_NAME" entry = Some name ->
      assoc "AGENT_WORKDIR" entry = Some workdir ->
      (forall h ev, fault w h ev = None) ->
      (forall h cmd, proc w h cmd = Exited 0 out err) ->
      exists new,
        Manager.configure_linux_service w jar c tr = (Ok tt, tr ++ new)
        /\ writes new
           = [(Manager.service_file_path,
               Manager.service_file_content jar url secret name workdir)]
        /\ runs new = linux_service_commands)
  /\ (Manager.service_file_path
      = "/etc/systemd/system/jenkins-agent.service"%string
      /\ runs (snd (Manager.configure_linux_service
                      (Examples.host "Linux" Examples.secrets
                         Examples.succeeds)
                      "agent.jar" Examples.manager_config []))
         = linux_service_commands
      /\ runs (snd (Monitor.monitor_iteration
                      (Examples.host "Linux" Examples.secrets
                         (Examples.scripted [Examples.active_out]))
                      Examples.monitor_config "agent-1" []))
         = [["systemctl"; "is-active"; "agent-1"]%string]).
Proof.
  split; [ apply configure_linux_service_triple | ].
  split; [ split; [ apply service_file_user_line
                  | apply service_file_lines ] | ].
  split; [ intros; eapply configure_linux_service_run; eauto | ].
  vm_compute. repeat split.
Qed.

(** C10, witness: a Linux host where nothing fails, with the agent name
    "agent-1". *)
Lemma C10_linux_unit_identity_witness :
  exists new,
    Manager.configure_linux_service
      (Examples.host "Linux" Examples.secrets Examples.succeeds)
      "agent.jar" Examples.manager_config [] = (Ok tt, [] ++ new)
    /\ writes new
       = [(Manager.service_file_path,
           Manager.service_file_content "agent.jar" "http://jenkins:8080"
             "tok123" "agent-1" "/var/jenkins")]
    /\ runs new = linux_service_commands.
Proof.
  destruct (C10_linux_unit_identity
              (Examples.host "Linux" Examples.secrets Examples.succeeds)
              "agent.jar" Examples.manager_config [] "http://jenkins:8080"
              "tok123" "agent-1" "/var/jenkins" EmptyString EmptyString
              [ ("LINUX", Manager.Object [ ("AGENT_NAME", "agent-1");
                            ("AGENT_WORKDIR", "/var/jenkins") ]);
                ("WINDOWS", Manager.Object [ ("AGENT_NAME", "agent-1");
                              ("AGENT_WORKDIR", "D:/jenkins") ]) ]%string
              [ ("AGENT_NAME", "agent-1");
                ("AGENT_WORKDIR", "/var/jenkins") ]%string)
    as (_ & _ & H & _).
  apply H; first [ reflexivity | intros; reflexivity ].
Defined.


(* ================================================================== *)
(** * Further properties of the two scripts *)
(* ================================================================== *)

(** ** The retry runner of test.py *)

Section RetrySuccess.
Variable w : world.
Variable command : list string.
Variable error_message : string.
Variable retries delay : Z.
Variables out err : string.
Hypothesis Hq : quiet w.

(** The loop when the command fails [j] times and then exits with
    status 0. *)
Lemma retry_loop_succeeds_after (j : nat) :
  forall (attempts : list Z) (tr : trace),
    j < length attempts ->
    (forall h, length (runs h) < length (runs tr) + j ->
               fails (proc w h command) = true) ->
    (forall h, length (runs h) = length (runs tr) + j ->
               proc w h command = Exited 0 out err) ->
    exists errs,
      length errs = j /\
      Monitor.retry_loop w command error_message retries delay attempts tr
      = (Ok (Some {| returncode := 0; stdout := out; stderr := err |}),
         tr ++ flat_map (failed_attempt command delay) errs
            ++ [Run command]).
Proof.
  induction j as [ | j IH ]; intros attempts tr Hlen Hfail Hok.
  - destruct attempts as [ | attempt rest ]; [ simpl in Hlen; lia | ].
    exists []. split; [ reflexivity | ].
    cbn [Monitor.retry_loop].
    cbv beta iota delta [bind try_except subprocess_run history emit ret].
    rewrite (Hok tr) by lia. reflexivity.
  - destruct attempts as [ | attempt rest ]; [ simpl in Hlen; lia | ].
    destruct (fails_inv _ (Hfail tr ltac:(lia)))
      as (rc & o & e & Hp & Hrc).
    pose (m := (error_message ++ ": "
                  ++ str_exn (CalledProcessError command rc o e)
                  ++ ". Attempt " ++ str_int (attempt + 1) ++ "/"
                  ++ str_int retries)%string).
    destruct (IH rest (tr ++ failed_attempt command delay m))
      as (errs & Hl & Hrun).
    + simpl in Hlen. lia.
    + intros h Hh. apply Hfail. rewrite runs_app in Hh.
      simpl in Hh. rewrite length_app in Hh. simpl in Hh. lia.
    + intros h Hh. apply Hok. rewrite runs_app in Hh.
      simpl in Hh. rewrite length_app in Hh. simpl in Hh. lia.
    + exists (m :: errs). split; [ simpl; now rewrite Hl | ].
      cbn [Monitor.retry_loop].
      unfold bind at 1, try_except, bind at 1, subprocess_run.
      unfold bind at 1, history. unfold bind at 1, emit.
      rewrite Hp, Hrc. unfold raise at 1. cbn [is_CalledProcessError].
      unfold bind at 1, logging, emit. unfold bind at 1.
      rewrite time_sleep_quiet by assumption. unfold ret at 1.
      unfold failed_attempt in *. subst m.
      rewrite <- !app_assoc in *. cbn [app flat_map] in *. exact Hrun.
Qed.
End RetrySuccess.

(** X1: when no signal arrives and the command fails [j] times and then
    exits with status 0, with [j] below [retries], the runner returns the
    result of attempt [j + 1]: it has made exactly [j + 1] attempts and
    slept [j] times, and it logs no critical record and raises nothing. *)
Theorem X1_retry_returns_first_success
        (w : world) (command : list string) (error_message : string)
        (retries delay : Z) (out err : string) (j : nat) (tr : trace) :
  quiet w ->
  j < Z.to_nat retries ->
  (forall h, length (runs h) < length (runs tr) + j ->
             fails (proc w h command) = true) ->
  (forall h, length (runs h) = length (runs tr) + j ->
             proc w h command = Exited 0 out err) ->
  exists new,
    Monitor.run_command_with_retry w command error_message retries delay tr
    = (Ok {| returncode := 0; stdout := out; stderr := err |}, tr ++ new)
    /\ runs new = repeat command (S j)
    /\ sleeps new = repeat delay j
    /\ (forall msg, ~ In (Log CRITICAL msg) new).
Proof.
  intros Hq Hj Hfail Hok.
  destruct (retry_loop_succeeds_after w command error_message retries delay
              out err Hq j (range retries) tr) as (errs & Hl & Hrun);
    [ unfold range; now rewrite length_map, length_seq | assumption
    | assumption | ].
  eexists. split.
  - unfold Monitor.run_command_with_retry, bind. rewrite Hrun. reflexivity.
  - subst j. clear. induction errs as [ | m errs (Hr & Hs & Hc) ].
    + simpl. repeat split. intros msg [H | []]. discriminate.
    + cbn [flat_map failed_attempt app length repeat runs sleeps] in *.
      split; [ | split ].
      * simpl. f_equal. exact Hr.
      * simpl. f_equal. exact Hs.
      * intros msg [H | [H | [H | H]]]; try discriminate.
        now apply (Hc msg).
Qed.

(** X1, witness: two failures, then a success at the third of three
    attempts. *)
Lemma X1_retry_returns_first_success_witness :
  exists new,
    Monitor.run_command_with_retry
      (Examples.host "Linux" Examples.secrets (Examples.fails_first 2))
      ["systemctl"; "start"; "agent-1"]%string "Failed to start" 3 5 []
    = (Ok {| returncode := 0; stdout := "done"; stderr := EmptyString |},
       [] ++ new)
    /\ runs new = repeat ["systemctl"; "start"; "agent-1"]%string 3
    /\ sleeps new = repeat 5%Z 2
    /\ (forall msg, ~ In (Log CRITICAL msg) new).
Proof.
  apply (X1_retry_returns_first_success
           (Examples.host "Linux" Examples.secrets (Examples.fails_first 2))
           ["systemctl"; "start"; "agent-1"]%string "Failed to start" 3 5
           "done" EmptyString 2 []).
  - intro h. reflexivity.
  - simpl. lia.
  - intros h H. cbn. apply Nat.ltb_lt in H. simpl in H.
    unfold Examples.fails_first. rewrite H. reflexivity.
  - intros h H. cbn. unfold Examples.fails_first. simpl in H.
    rewrite H. reflexivity.
Defined.

(** X2: only a non-zero exit status is retried.  A command that cannot be
    started ends the runner at the first attempt: the [OSError] goes to the
    caller, with no log record, no sleep and no further attempt. *)
Theorem X2_retry_does_not_retry_spawn_failure
        (w : world) (command : list string) (error_message : string)
        (retries delay : Z) (msg : string) (tr : trace) :
  (0 < retries)%Z ->
  proc w tr command = SpawnFailed msg ->
  Monitor.run_command_with_retry w command error_message retries delay tr
  = (Raise (Exc OSErrorC msg), tr ++ [Run command]).
Proof.
  intros Hr Hp. unfold Monitor.run_command_with_retry.
  destruct (range_pos retries Hr) as (rest & ->).
  cbn [Monitor.retry_loop].
  cbv beta iota delta [bind try_except subprocess_run history emit ret].
  rewrite Hp. reflexivity.
Qed.

(** X2, witness: a host where no command can be started. *)
Lemma X2_retry_does_not_retry_spawn_failure_witness :
  Monitor.run_command_with_retry
    (Examples.host "Linux" Examples.secrets Examples.cannot_start)
    ["curl"; "-o"; "agent.jar"; "http://jenkins:8080/jnlpJars/agent.jar"]%string
    "Failed to download Jenkins agent JAR" 3 5 []
  = (Raise (Exc OSErrorC "[Errno 2] No such file or directory"),
     [] ++ [Run ["curl"; "-o"; "agent.jar";
                 "http://jenkins:8080/jnlpJars/agent.jar"]%string]).
Proof.
  apply (X2_retry_does_not_retry_spawn_failure
           (Examples.host "Linux" Examples.secrets Examples.cannot_start)
           ["curl"; "-o"; "agent.jar";
            "http://jenkins:8080/jnlpJars/agent.jar"]%string
           "Failed to download Jenkins agent JAR" 3 5
           "[Errno 2] No such file or directory" []).
  - reflexivity.
  - reflexivity.
Defined.

(** X3: with [retries] zero or negative the runner never runs the command:
    it logs the critical record and raises the [RuntimeError] at once. *)
Theorem X3_retry_without_attempts
        (w : world) (command : list string) (error_message : string)
        (retries delay : Z) (tr : trace) :
  (retries <= 0)%Z ->
  Monitor.run_command_with_retry w command error_message retries delay tr
  = (Raise (Exc RuntimeErrorC error_message),
     tr ++ [Log CRITICAL
              ("Command failed after " ++ str_int retries ++ " attempts: "
                 ++ str_list command)%string]).
Proof.
  intro Hr. unfold Monitor.run_command_with_retry, range.
  replace (Z.to_nat retries) with 0 by lia. reflexivity.
Qed.

(** X3, witness: zero retries on a host where every command would
    succeed. *)
Lemma X3_retry_without_attempts_witness :
  Monitor.run_command_with_retry
    (Examples.host "Linux" Examples.secrets Examples.succeeds)
    ["systemctl"; "daemon-reload"]%string "Failed to reload" 0 5 []
  = (Raise (Exc RuntimeErrorC "Failed to reload"),
     [] ++ [Log CRITICAL
              ("Command failed after " ++ str_int 0 ++ " attempts: "
                 ++ str_list ["systemctl"; "daemon-reload"]%string)%string]).
Proof.
  apply (X3_retry_without_attempts
           (Examples.host "Linux" Examples.secrets Examples.succeeds)
           ["systemctl"; "daemon-reload"]%string "Failed to reload" 0 5 []).
  lia.
Defined.

(** ** The installers of test.py *)

Section RetryEvents.
Variable w : world.
Variable E : event -> Prop.
Hypothesis E_log : forall lv msg, E (Log lv msg).
Hypothesis E_sleep : forall d, E (Sleep d).

Lemma time_sleep_events (d : Z) :
  triple (Monitor.time_sleep w d) E below_Exception.
Proof.
  intro tr. unfold Monitor.time_sleep, bind, history, emit.
  destruct (sigs w tr) as [sig | ].
  - rewrite signal_handler_raises. simpl. eexists.
    rewrite <- app_assoc.
    split; [ reflexivity | split; [ | reflexivity ] ].
    repeat constructor; auto.
  - exists [Sleep d]. simpl. repeat constructor; auto.
Qed.

Lemma retry_loop_events (command : list string) (error_message : string)
      (retries delay : Z) (attempts : list Z) :
  E (Run command) ->
  triple (Monitor.retry_loop w command error_message retries delay attempts)
         E below_Exception.
Proof.
  intro Hrun.
  induction attempts as [ | attempt rest IH ]; cbn [Monitor.retry_loop].
  - tri.
  - tri; [ | tri_with ltac:(exact IH) ].
    eapply triple_try with (X1 := below_Exception).
    + tri_with ltac:(first [ exact Hrun | apply E_log ]).
    + intros e _ _.
      tri_with ltac:(first [ apply time_sleep_events | apply E_log ]).
    + intros e _ He. exact He.
Qed.

Lemma run_command_with_retry_events (command : list string)
      (error_message : string) (retries delay : Z) :
  E (Run command) ->
  triple (Monitor.run_command_with_retry w command error_message retries
            delay) E below_Exception.
Proof.
  intro Hrun. unfold Monitor.run_command_with_retry.
  tri_with ltac:(first [ apply retry_loop_events; exact Hrun
                       | apply E_log ]).
Qed.
End RetryEvents.




(** X5: the Linux installer of test.py stops at the first command that
    fails for good.  When the unit file is written, [daemon-reload]
    succeeds and [systemctl enable] fails at every attempt, it raises the
    [RuntimeError] of the enable step after one [daemon-reload] and three
    attempts to enable, and [systemctl start] is never run. *)
Theorem X5_monitor_linux_install_stops_at_failure
        (w : world) (cfg : Monitor.config)
        (name secret workdir jar out err : string) (tr : trace) :
  quiet w ->
  (forall h ev, fault w h ev = None) ->
  (forall h, proc w h ["systemctl"; "daemon-reload"]%string
             = Exited 0 out err) ->
  (forall h, fails (proc w h ["systemctl"; "enable"; name]%string) = true) ->
  exists new,
    Monitor.install_service_linux w cfg name secret workdir jar tr
    = (Raise (Exc RuntimeErrorC
                ("Failed to enable service '" ++ name ++ "'")%string),
       tr ++ new)
    /\ runs new
       = ["systemctl"; "daemon-reload"]%string
           :: repeat ["systemctl"; "enable"; name]%string 3
    /\ ~ In ["systemctl"; "start"; name]%string (runs new)
    /\ writes new
       = [(monitor_unit_path name,
           Monitor.service_script w cfg name secret workdir jar)].
Proof.
  intros Hq Hf Hreload Henable.
  unfold Monitor.install_service_linux.
  cbv beta iota zeta delta [bind logging emit io history ret].
  rewrite Hf. cbv beta iota.
  rewrite (run_command_with_retry_first w _ _ Monitor.default_retries
             _ _ out err eq_refl (Hreload _)).
  cbv beta iota.
  match goal with
  | |- context [Monitor.run_command_with_retry w ?c ?m ?r ?d ?t] =>
      destruct (run_command_with_retry_all_fail w c m r d t Hq Henable)
        as (errs & Hlen & Hrun)
  end.
  rewrite Hrun.
  destruct (runs_failed_attempts ["systemctl"; "enable"; name]%string
              Monitor.default_delay errs) as (Hr & Hw).
  eexists. split; [ rewrite <- !app_assoc; reflexivity | ].
  assert (Hruns :
            runs ([Log INFO "Configuring Jenkins agent as a Linux service..."] ++
                  [WriteFile ("/etc/systemd/system/" ++ name ++ ".service")
                     (Monitor.service_script w cfg name secret workdir jar)] ++
                  [Run ["systemctl"; "daemon-reload"]%string] ++
                  flat_map
                    (failed_attempt ["systemctl"; "enable"; name]%string
                       Monitor.default_delay) errs ++
                  [Log CRITICAL
                     ("Command failed after "
                        ++ str_int Monitor.default_retries ++ " attempts: "
                        ++ str_list ["systemctl"; "enable"; name]%string)%string])
            = ["systemctl"; "daemon-reload"]%string
                :: repeat ["systemctl"; "enable"; name]%string 3).
  { rewrite !runs_app, Hr, Hlen. simpl. reflexivity. }
  split; [ exact Hruns | split ].
  - rewrite Hruns. simpl. intros [H | [H | [H | [H | []]]]]; discriminate.
  - rewrite !writes_app, Hw. reflexivity.
Qed.

(** X5, witness: a Linux host where only [systemctl enable] fails. *)
Lemma X5_monitor_linux_install_stops_at_failure_witness :
  exists new,
    Monitor.install_service_linux
      (Examples.host "Linux" Examples.secrets Examples.enable_fails)
      Examples.monitor_config "agent-1" "tok123" "/var/jenkins" "agent.jar"
      []
    = (Raise (Exc RuntimeErrorC
                ("Failed to enable service '" ++ "agent-1" ++ "'")%string),
       [] ++ new)
    /\ runs new
       = ["systemctl"; "daemon-reload"]%string
           :: repeat ["systemctl"; "enable"; "agent-1"]%string 3
    /\ ~ In ["systemctl"; "start"; "agent-1"]%string (runs new)
    /\ writes new
       = [(monitor_unit_path "agent-1",
           Monitor.service_script
             (Examples.host "Linux" Examples.secrets Examples.enable_fails)
             Examples.monitor_config "agent-1" "tok123" "/var/jenkins"
             "agent.jar")].
Proof.
  apply (X5_monitor_linux_install_stops_at_failure
           (Examples.host "Linux" Examples.secrets Examples.enable_fails)
           Examples.monitor_config "agent-1" "tok123" "/var/jenkins"
           "agent.jar" EmptyString EmptyString []).
  - intro h. reflexivity.
  - intros h ev. reflexivity.
  - intro h. reflexivity.
  - intro h. reflexivity.
Defined.

(** X6: the Windows installer of test.py stops when the service cannot be
    created: when [sc.exe create] fails at every attempt, it raises the
    [RuntimeError] of the create step after three attempts and never runs
    [sc.exe start]. *)
Theorem X6_monitor_windows_install_stops_at_failure
        (w : world) (cfg : Monitor.config)
        (name secret workdir jar : string) (tr : trace) :
  quiet w ->
  (forall h,
      fails (proc w h (Monitor.create_service_cmd w cfg name secret workdir
                         jar)) = true) ->
  exists new,
    Monitor.install_service_windows w cfg name secret workdir jar tr
    = (Raise (Exc RuntimeErrorC
                ("Failed to create Windows service '" ++ name ++ "'")%string),
       tr ++ new)
    /\ runs new
       = repeat (Monitor.create_service_cmd w cfg name secret workdir jar) 3
    /\ ~ In ["sc.exe"; "start"; name]%string (runs new).
Proof.
  intros Hq Hf.
  destruct (run_command_with_retry_all_fail w
              (Monitor.create_service_cmd w cfg name secret workdir jar)
              ("Failed to create Windows service '" ++ name ++ "'")%string
              Monitor.default_retries Monitor.default_delay
              (tr ++ [Log INFO
                        "Configuring Jenkins agent as a Windows service..."])
              Hq Hf) as (errs & Hlen & Hrun).
  destruct (runs_failed_attempts
              (Monitor.create_service_cmd w cfg name secret workdir jar)
              Monitor.default_delay errs) as (Hr & _).
  eexists. split.
  - cbv beta iota zeta delta [Monitor.install_service_windows bind logging
                                emit].
    rewrite Hrun. rewrite <- !app_assoc. reflexivity.
  - assert (Hruns :
              runs ([Log INFO
                       "Configuring Jenkins agent as a Windows service..."] ++
                    flat_map
                      (failed_attempt
                         (Monitor.create_service_cmd w cfg name secret
                            workdir jar) Monitor.default_delay) errs ++
                    [Log CRITICAL
                       ("Command failed after "
                          ++ str_int Monitor.default_retries
                          ++ " attempts: "
                          ++ str_list
                               (Monitor.create_service_cmd w cfg name secret
                                  workdir jar))%string])
              = repeat (Monitor.create_service_cmd w cfg name secret workdir
                          jar) 3).
    { rewrite !runs_app, Hr, Hlen. simpl. reflexivity. }
    split; [ exact Hruns | ].
    rewrite Hruns. unfold Monitor.create_service_cmd. simpl.
    intros [H | [H | [H | []]]]; discriminate.
Qed.

(** X6, witness: a Windows host where every command exits with status 1. *)
Lemma X6_monitor_windows_install_stops_at_failure_witness :
  exists new,
    Monitor.install_service_windows
      (Examples.host "Windows" Examples.secrets Examples.always_fails)
      Examples.monitor_config "agent-1" "tok123" "D:/jenkins" "agent.jar" []
    = (Raise (Exc RuntimeErrorC
                ("Failed to create Windows service '" ++ "agent-1" ++ "'")%string),
       [] ++ new)
    /\ runs new
       = repeat (Monitor.create_service_cmd
                   (Examples.host "Windows" Examples.secrets
                      Examples.always_fails)
                   Examples.monitor_config "agent-1" "tok123" "D:/jenkins"
                   "agent.jar") 3
    /\ ~ In ["sc.exe"; "start"; "agent-1"]%string (runs new).
Proof.
  apply (X6_monitor_windows_install_stops_at_failure
           (Examples.host "Windows" Examples.secrets Examples.always_fails)
           Examples.monitor_config "agent-1" "tok123" "D:/jenkins"
           "agent.jar" []).
  - intro h. reflexivity.
  - intro h. reflexivity.
Defined.

(** ** The Linux installer of Jenkins_agent_manager.py when a step fails *)

Section ManagerLinuxFailures.
Variable w : world.
Variable jar : string.
Variable c : Manager.config.
Variables url secret name workdir : string.
Variable details : list (string * Manager.value).
Variable entry : Manager.platform_entry.
Hypothesis Ht : truthy (getenv w "LINUX_AGENT_SECRET") = true.
Hypothesis Hs : getenv w "LINUX_AGENT_SECRET" = Some secret.
Hypothesis Hu : Manager.JENKINS_SERVER_URL c = Some url.
Hypothesis Hd : Manager.AGENT_DETAILS c = Some details.
Hypothesis Hl : assoc "LINUX" details = Some (Manager.Object entry).
Hypothesis Hn : assoc "AGENT_NAME" entry = Some name.
Hypothesis Hw : assoc "AGENT_WORKDIR" entry = Some workdir.

Let grant := ["sudo"; "chmod"; "o+w"; "/etc/systemd/system/"]%string.
Let revert := ["sudo"; "chmod"; "o-w"; "/etc/systemd/system/"]%string.
Let reload := ["sudo"; "systemctl"; "daemon-reload"]%string.
Let content := Manager.service_file_content jar url secret name workdir.

Ltac open_installer :=
  cbv delta [grant revert reload content] in *;
  unfold Manager.configure_linux_service, Manager.agent_detail,
    Manager.value_getitem, Manager.server_url, Manager.run_command, getitem;
  rewrite Ht, Hs, Hu, Hd;
  cbv beta iota zeta delta [bind try_except io history emit logging ret
                              subprocess_run negb];
  rewrite Hl, Hn, Hw; cbv beta iota.

Ltac answer H :=
  match goal with
  | |- context [proc w ?h ?cmd] =>
      first
        [ rewrite (H h)
        | let rc := fresh "rc" in
          let o := fresh "o" in
          let e := fresh "e" in
          let Hp := fresh "Hp" in
          let Hrc := fresh "Hrc" in
          destruct (fails_inv _ (H h)) as (rc & o & e & Hp & Hrc);
          rewrite Hp, Hrc ]
  end;
  cbv beta iota delta [raise ret returncode stdout stderr
                         is_CalledProcessError];
  cbn [Z.eqb negb].

(** The grant of the write permission fails. *)
Lemma configure_linux_grant_fails (tr : trace) :
  (forall h, fails (proc w h grant) = true) ->
  exists msg,
    Manager.configure_linux_service w jar c tr
    = (Ok tt,
       tr ++ [Log INFO "Granting write permission to /etc/systemd/system/";
              Run grant;
              Log ERROR
                ("Failed to configure Jenkins agent service: " ++ msg)%string]).
Proof.
  intro Hg. open_installer. answer Hg.
  eexists. rewrite <- !app_assoc. reflexivity.
Qed.

(** The unit file is written, and the revert of the permission fails. *)
Lemma configure_linux_revert_fails (tr : trace) (out err : string) :
  (forall h ev, fault w h ev = None) ->
  (forall h, proc w h grant = Exited 0 out err) ->
  (forall h, fails (proc w h revert) = true) ->
  exists new,
    Manager.configure_linux_service w jar c tr = (Ok tt, tr ++ new)
    /\ writes new = [(Manager.service_file_path, content)]
    /\ runs new = [grant; revert]
    /\ exists msg,
         In (Log ERROR
               ("Failed to configure Jenkins agent service: " ++ msg)%string)
            new.
Proof.
  intros Hf Hg Hr. open_installer. answer Hg.
  rewrite Hf. cbv beta iota delta [raise ret]. answer Hr.
  eexists. split; [ rewrite <- !app_assoc; reflexivity | ].
  split; [ reflexivity | split; [ reflexivity | ] ].
  eexists. simpl. do 7 right. left. reflexivity.
Qed.

(** The permission is granted and reverted, and [daemon-reload] fails. *)
Lemma configure_linux_reload_fails (tr : trace) (out err : string) :
  (forall h ev, fault w h ev = None) ->
  (forall h, proc w h grant = Exited 0 out err) ->
  (forall h, proc w h revert = Exited 0 out err) ->
  (forall h, fails (proc w h reload) = true) ->
  exists new,
    Manager.configure_linux_service w jar c tr
    = (Raise (Exc RuntimeErrorC "Failed to reload systemd daemon"),
       tr ++ new)
    /\ writes new = [(Manager.service_file_path, content)]
    /\ runs new = [grant; revert; reload].
Proof.
  intros Hf Hg Hr Hx. open_installer. answer Hg.
  rewrite Hf. cbv beta iota delta [raise ret]. answer Hr. answer Hx.
  eexists. split; [ rewrite <- !app_assoc; reflexivity | ].
  split; reflexivity.
Qed.
End ManagerLinuxFailures.

(** X7: when the grant of the write permission ([sudo chmod o+w]) exits
    with a non-zero status, the Linux installer of Jenkins_agent_manager.py
    does not raise: it logs the failure at error level and returns
    normally, having written no unit file and run no other command. *)
Theorem X7_manager_linux_grant_failure_is_swallowed
        (w : world) (jar : string) (c : Manager.config) (tr : trace)
        (url secret name workdir : string)
        (details : list (string * Manager.value))
        (entry : Manager.platform_entry) :
  truthy (getenv w "LINUX_AGENT_SECRET") = true ->
  getenv w "LINUX_AGENT_SECRET" = Some secret ->
  Manager.JENKINS_SERVER_URL c = Some url ->
  Manager.AGENT_DETAILS c = Some details ->
  assoc "LINUX" details = Some (Manager.Object entry) ->
  assoc "AGENT_NAME" entry = Some name ->
  assoc "AGENT_WORKDIR" entry = Some workdir ->
  (forall h, fails (proc w h ["sudo"; "chmod"; "o+w";
                               "/etc/systemd/system/"]%string) = true) ->
  exists msg,
    Manager.configure_linux_service w jar c tr
    = (Ok tt,
       tr ++ [Log INFO "Granting write permission to /etc/systemd/system/";
              Run ["sudo"; "chmod"; "o+w"; "/etc/systemd/system/"]%string;
              Log ERROR
                ("Failed to configure Jenkins agent service: " ++ msg)%string]).
Proof.
  intros. eapply configure_linux_grant_fails; eauto.
Qed.

(** X7, witness: a Linux host where [chmod o+w] is denied. *)
Lemma X7_manager_linux_grant_failure_is_swallowed_witness :
  exists msg,
    Manager.configure_linux_service
      (Examples.host "Linux" Examples.secrets (Examples.fails_on "o+w"))
      "agent.jar" Examples.manager_config []
    = (Ok tt,
       [] ++ [Log INFO "Granting write permission to /etc/systemd/system/";
              Run ["sudo"; "chmod"; "o+w"; "/etc/systemd/system/"]%string;
              Log ERROR
                ("Failed to configure Jenkins agent service: " ++ msg)%string]).
Proof.
  apply (X7_manager_linux_grant_failure_is_swallowed
           (Examples.host "Linux" Examples.secrets (Examples.fails_on "o+w"))
           "agent.jar" Examples.manager_config [] "http://jenkins:8080"
           "tok123" "agent-1" "/var/jenkins"
           [ ("LINUX", Manager.Object [ ("AGENT_NAME", "agent-1");
                         ("AGENT_WORKDIR", "/var/jenkins") ]);
             ("WINDOWS", Manager.Object [ ("AGENT_NAME", "agent-1");
                           ("AGENT_WORKDIR", "D:/jenkins") ]) ]%string
           [ ("AGENT_NAME", "agent-1");
             ("AGENT_WORKDIR", "/var/jenkins") ]%string);
    first [ reflexivity | intros; reflexivity ].
Defined.

(** X8: when the unit file is written and the revert of the permission
    ([sudo chmod o-w]) exits with a non-zero status, the Linux installer
    of Jenkins_agent_manager.py logs the failure and returns normally: the
    unit file stays written, and no [systemctl] command is run, so the
    service is neither reloaded, enabled nor started. *)
Theorem X8_manager_linux_revert_failure_skips_systemctl
        (w : world) (jar : string) (c : Manager.config) (tr : trace)
        (url secret name workdir out err : string)
        (details : list (string * Manager.value))
        (entry : Manager.platform_entry) :
  truthy (getenv w "LINUX_AGENT_SECRET") = true ->
  getenv w "LINUX_AGENT_SECRET" = Some secret ->
  Manager.JENKINS_SERVER_URL c = Some url ->
  Manager.AGENT_DETAILS c = Some details ->
  assoc "LINUX" details = Some (Manager.Object entry) ->
  assoc "AGENT_NAME" entry = Some name ->
  assoc "AGENT_WORKDIR" entry = Some workdir ->
  (forall h ev, fault w h ev = None) ->
  (forall h, proc w h ["sudo"; "chmod"; "o+w"; "/etc/systemd/system/"]%string
             = Exited 0 out err) ->
  (forall h, fails (proc w h ["sudo"; "chmod"; "o-w";
                               "/etc/systemd/system/"]%string) = true) ->
  exists new,
    Manager.configure_linux_service w jar c tr = (Ok tt, tr ++ new)
    /\ writes new
       = [(Manager.service_file_path,
           Manager.service_file_content jar url secret name workdir)]
    /\ runs new
       = [["sudo"; "chmod"; "o+w"; "/etc/systemd/system/"]%string;
          ["sudo"; "chmod"; "o-w"; "/etc/systemd/system/"]%string]
    /\ exists msg,
         In (Log ERROR
               ("Failed to configure Jenkins agent service: " ++ msg)%string)
            new.
Proof.
  intros. eapply configure_linux_revert_fails; eauto.
Qed.

(** X8, witness: a Linux host where [chmod o-w] is denied. *)
Lemma X8_manager_linux_revert_failure_skips_systemctl_witness :
  exists new,
    Manager.configure_linux_service
      (Examples.host "Linux" Examples.secrets (Examples.fails_on "o-w"))
      "agent.jar" Examples.manager_config [] = (Ok tt, [] ++ new)
    /\ writes new
       = [(Manager.service_file_path,
           Manager.service_file_content "agent.jar" "http://jenkins:8080"
             "tok123" "agent-1" "/var/jenkins")]
    /\ runs new
       = [["sudo"; "chmod"; "o+w"; "/etc/systemd/system/"]%string;
          ["sudo"; "chmod"; "o-w"; "/etc/systemd/system/"]%string]
    /\ exists msg,
         In (Log ERROR
               ("Failed to configure Jenkins agent service: " ++ msg)%string)
            new.
Proof.
  apply (X8_manager_linux_revert_failure_skips_systemctl
           (Examples.host "Linux" Examples.secrets (Examples.fails_on "o-w"))
           "agent.jar" Examples.manager_config [] "http://jenkins:8080"
           "tok123" "agent-1" "/var/jenkins" EmptyString EmptyString
           [ ("LINUX", Manager.Object [ ("AGENT_NAME", "agent-1");
                         ("AGENT_WORKDIR", "/var/jenkins") ]);
             ("WINDOWS", Manager.Object [ ("AGENT_NAME", "agent-1");
                           ("AGENT_WORKDIR", "D:/jenkins") ]) ]%string
           [ ("AGENT_NAME", "agent-1");
             ("AGENT_WORKDIR", "/var/jenkins") ]%string);
    first [ reflexivity | intros; reflexivity ].
Defined.

(** X9: a [systemctl] step that fails is not swallowed.  When the
    permission is granted and reverted and [systemctl daemon-reload] exits
    with a non-zero status, the Linux installer of
    Jenkins_agent_manager.py raises [RuntimeError] with the message of the
    reload step; the unit file is written, and enable and start are never
    run. *)
Theorem X9_manager_linux_reload_failure_raises
        (w : world) (jar : string) (c : Manager.config) (tr : trace)
        (url secret name workdir out err : string)
        (details : list (string * Manager.value))
        (entry : Manager.platform_entry) :
  truthy (getenv w "LINUX_AGENT_SECRET") = true ->
  getenv w "LINUX_AGENT_SECRET" = Some secret ->
  Manager.JENKINS_SERVER_URL c = Some url ->
  Manager.AGENT_DETAILS c = Some details ->
  assoc "LINUX" details = Some (Manager.Object entry) ->
  assoc "AGENT_NAME" entry = Some name ->
  assoc "AGENT_WORKDIR" entry = Some workdir ->
  (forall h ev, fault w h ev = None) ->
  (forall h, proc w h ["sudo"; "chmod"; "o+w"; "/etc/systemd/system/"]%string
             = Exited 0 out err) ->
  (forall h, proc w h ["sudo"; "chmod"; "o-w"; "/etc/systemd/system/"]%string
             = Exited 0 out err) ->
  (forall h, fails (proc w h ["sudo"; "systemctl"; "daemon-reload"]%string)
             = true) ->
  exists new,
    Manager.configure_linux_service w jar c tr
    = (Raise (Exc RuntimeErrorC "Failed to reload systemd daemon"),
       tr ++ new)
    /\ writes new
       = [(Manager.service_file_path,
           Manager.service_file_content jar url secret name workdir)]
    /\ runs new
       = [["sudo"; "chmod"; "o+w"; "/etc/systemd/system/"]%string;
          ["sudo"; "chmod"; "o-w"; "/etc/systemd/system/"]%string;
          ["sudo"; "systemctl"; "daemon-reload"]%string].
Proof.
  intros. eapply configure_linux_reload_fails; eauto.
Qed.

(** X9, witness: a Linux host where [daemon-reload] fails. *)
Lemma X9_manager_linux_reload_failure_raises_witness :
  exists new,
    Manager.configure_linux_service
      (Examples.host "Linux" Examples.secrets
         (Examples.fails_on "daemon-reload"))
      "agent.jar" Examples.manager_config []
    = (Raise (Exc RuntimeErrorC "Failed to reload systemd daemon"),
       [] ++ new)
    /\ writes new
       = [(Manager.service_file_path,
           Manager.service_file_content "agent.jar" "http://jenkins:8080"
             "tok123" "agent-1" "/var/jenkins")]
    /\ runs new
       = [["sudo"; "chmod"; "o+w"; "/etc/systemd/system/"]%string;
          ["sudo"; "chmod"; "o-w"; "/etc/systemd/system/"]%string;
          ["sudo"; "systemctl"; "daemon-reload"]%string].
Proof.
  apply (X9_manager_linux_reload_failure_raises
           (Examples.host "Linux" Examples.secrets
              (Examples.fails_on "daemon-reload"))
           "agent.jar" Examples.manager_config [] "http://jenkins:8080"
           "tok123" "agent-1" "/var/jenkins" EmptyString EmptyString
           [ ("LINUX", Manager.Object [ ("AGENT_NAME", "agent-1");
                         ("AGENT_WORKDIR", "/var/jenkins") ]);
             ("WINDOWS", Manager.Object [ ("AGENT_NAME", "agent-1");
                           ("AGENT_WORKDIR", "D:/jenkins") ]) ]%string
           [ ("AGENT_NAME", "agent-1");
             ("AGENT_WORKDIR", "/var/jenkins") ]%string);
    first [ reflexivity | intros; reflexivity ].
Defined.

(** ** Config and environment edges of Jenkins_agent_manager.py *)

(** X10: a missing config.json does not stop [load_config_file]: it logs
    the error and hands [None] on, and the validation then raises
    [TypeError].  So [main] ends in an exception before any download: on
    every host it runs no command and writes no file, and when the log
    directory and the .env file are fine, the exception is that
    [TypeError], after the "Config file not found" record. *)
Theorem X10_manager_missing_config_file (w : world) (tr : trace) :
  exists e new,
    Manager.main w Manager.NotFound tr = (Raise e, tr ++ new)
    /\ runs new = [] /\ writes new = []
    /\ ((forall h ev, fault w h ev = None) ->
        e = Exc TypeErrorC "argument of type 'NoneType' is not iterable"
        /\ In (Log ERROR
                 "Config file error: Config file not found: ../config.json")
              new).
Proof.
  cbv beta iota zeta delta [Manager.main Manager.setup_logging
                              Manager.load_env_file Manager.load_config_file
                              Manager.validate_configuration
                              bind try_except io history emit logging ret
                              raise].
  destruct (fault w tr (MakeDirs "../../logs")) as [[c1 m1] | ] eqn:H1;
    cbv beta iota.
  { do 2 eexists. split; [ reflexivity | ].
    split; [ reflexivity | split; [ reflexivity | ] ].
    intro Hf. rewrite Hf in H1. discriminate. }
  match goal with
  | |- context [fault w ?h LoadDotenv] =>
      destruct (fault w h LoadDotenv) as [[c2 m2] | ] eqn:H2
  end; cbv beta iota; cbn [is_Exception].
  { do 2 eexists. split; [ rewrite <- !app_assoc; reflexivity | ].
    split; [ reflexivity | split; [ reflexivity | ] ].
    intro Hf. rewrite Hf in H2. discriminate. }
  do 2 eexists. split; [ rewrite <- !app_assoc; reflexivity | ].
  split; [ reflexivity | split; [ reflexivity | ] ].
  intros _. split; [ reflexivity | simpl; tauto ].
Qed.

Lemma key_among (k : string) (items : list Manager.value) :
  existsb (fun item => match item with
                       | Manager.Text s => String.eqb k s
                       | _ => false
                       end) items = true
  -> In (Manager.Text k) items.
Proof.
  intro H. apply existsb_exists in H. destruct H as (item & Hin & Heq).
  destruct item; try discriminate.
  apply String.eqb_eq in Heq. now subst.
Qed.

Lemma validate_platforms_accepted (items : list (string * Manager.value)) :
  fst (Manager.validate_platforms items []) = Ok tt ->
  forall k v, In (k, v) items -> accepted_value v.
Proof.
  induction items as [ | [k0 v0] rest IH ]; cbn [Manager.validate_platforms].
  - intros _ k v [].
  - intros Hok k v [H | H].
    + inversion H; subst. clear IH H.
      destruct v as [entry | elems | s | n | zero | b | ];
        cbv beta iota zeta delta [bind ret raise Manager.all_in
                                    Manager.value_contains
                                    Manager.value_truthy
                                    Manager.has_key negb] in Hok;
        cbn [accepted_value].
      * destruct entry as [ | kv entry ]; [ discriminate | ].
        destruct (assoc "AGENT_NAME" (kv :: entry)) as [name | ];
          [ | discriminate ].
        destruct (assoc "AGENT_WORKDIR" (kv :: entry)) as [workdir | ];
          [ eauto | discriminate ].
      * destruct elems as [ | e elems ]; [ discriminate | ].
        destruct (existsb _ (e :: elems)) eqn:Hn in Hok;
          [ | discriminate ].
        destruct (existsb _ (e :: elems)) eqn:Hw in Hok;
          [ | discriminate ].
        split; apply key_among; assumption.
      * destruct s as [ | ch s ]; [ discriminate | ].
        destruct (contains "AGENT_NAME" (String ch s)) eqn:Hn;
          [ | discriminate ].
        destruct (contains "AGENT_WORKDIR" (String ch s)) eqn:Hw;
          [ auto | discriminate ].
      * destruct (n =? 0)%Z; discriminate.
      * destruct zero; discriminate.
      * destruct b; discriminate.
      * discriminate.
    + apply (IH) with (k := k); [ | exact H ].
      unfold bind in Hok.
      destruct (if negb (Manager.value_truthy v0) then _ else _)
        as [[[ | ] | e] t]; cbn [fst] in *; try discriminate.
      now rewrite (validate_platforms_pure rest t) in Hok.
Qed.

Lemma among_key (k : string) (items : list Manager.value) :
  In (Manager.Text k) items ->
  existsb (fun item => match item with
                       | Manager.Text s => String.eqb k s
                       | _ => false
                       end) items = true.
Proof.
  intro H. apply existsb_exists. exists (Manager.Text k).
  split; [ exact H | apply String.eqb_refl ].
Qed.

Lemma validate_platforms_accepts (items : list (string * Manager.value)) :
  (forall k v, In (k, v) items -> accepted_value v) ->
  fst (Manager.validate_platforms items []) = Ok tt.
Proof.
  induction items as [ | [k0 v0] rest IH ]; cbn [Manager.validate_platforms].
  - reflexivity.
  - intro Hall.
    assert (H0 : accepted_value v0) by (apply (Hall k0); now left).
    assert (Hrest : fst (Manager.validate_platforms rest []) = Ok tt).
    { apply IH. intros k v Hin. apply (Hall k). now right. }
    destruct v0 as [entry | elems | s | n | zero | b | ];
      cbn [accepted_value] in H0; try contradiction;
      cbv beta iota zeta delta [bind ret raise Manager.all_in
                                  Manager.value_contains
                                  Manager.value_truthy
                                  Manager.has_key negb].
    + destruct H0 as (name & workdir & Hn & Hw).
      destruct entry as [ | kv entry ]; [ discriminate | ].
      rewrite Hn, Hw. exact Hrest.
    + destruct H0 as (Hn & Hw).
      destruct elems as [ | e elems ]; [ contradiction | ].
      rewrite (among_key _ _ Hn), (among_key _ _ Hw). exact Hrest.
    + destruct H0 as (Hn & Hw).
      destruct s as [ | ch s ]; [ discriminate | ].
      rewrite Hn, Hw. exact Hrest.
Qed.

(** X11: which platform values the validation of Jenkins_agent_manager.py
    lets through, and what that is worth to the installers.  For a config
    with a non-empty server URL and with LINUX or WINDOWS among its agent
    details, [validate_configuration] returns normally exactly when every
    platform value passes the test [k in platform_value] for both key
    names: an object with both keys, but also an array with both names
    among its elements, or a string with both names inside.  Only for an
    object can the installers then read AGENT_NAME and AGENT_WORKDIR; for
    an accepted array or string each of these lookups raises
    [TypeError]. *)
Theorem X11_manager_validation_and_lookups
        (c : Manager.config) (tr : trace) (x : ascii) (url : string)
        (ds : list (string * Manager.value)) :
  Manager.JENKINS_SERVER_URL c = Some (String x url) ->
  Manager.AGENT_DETAILS c = Some ds ->
  Manager.has_key "LINUX" ds = true \/ Manager.has_key "WINDOWS" ds = true ->
  (fst (Manager.validate_configuration (Some c) tr) = Ok tt
   <-> forall platform v, In (platform, v) ds -> accepted_value v)
  /\ (forall platform v key,
         assoc platform ds = Some v ->
         accepted_value v ->
         key = "AGENT_NAME"%string \/ key = "AGENT_WORKDIR"%string ->
         match v with
         | Manager.Object _ =>
             exists s, Manager.agent_detail c platform key tr = (Ok s, tr)
         | _ =>
             exists msg,
               Manager.agent_detail c platform key tr
               = (Raise (Exc TypeErrorC msg), tr)
         end).
Proof.
  intros Hu Hd Hk.
  assert (Hrun : fst (Manager.validate_configuration (Some c) tr)
                 = match fst (Manager.validate_platforms ds []) with
                   | Ok _ => Ok tt
                   | Raise e => Raise e
                   end).
  { unfold Manager.validate_configuration. rewrite Hu, Hd.
    destruct ds as [ | d ds ].
    { destruct Hk as [H | H]; discriminate H. }
    assert (Hkeys : negb (Manager.has_key "LINUX" (d :: ds))
                    && negb (Manager.has_key "WINDOWS" (d :: ds)) = false).
    { destruct Hk as [H | H]; rewrite H; cbn [negb andb];
        [ reflexivity | apply andb_false_r ]. }
    rewrite Hkeys. unfold bind.
    rewrite (validate_platforms_pure (d :: ds) tr).
    destruct (fst (Manager.validate_platforms (d :: ds) []));
      reflexivity. }
  split; [ split | ].
  - intro Hok. apply validate_platforms_accepted.
    rewrite Hrun in Hok.
    destruct (fst (Manager.validate_platforms ds [])) as [[] | e];
      [ reflexivity | discriminate Hok ].
  - intro Hall. rewrite Hrun.
    now rewrite (validate_platforms_accepts ds Hall).
  - intros platform v key Ha Hacc Hkey.
    unfold Manager.agent_detail, Manager.value_getitem, getitem, bind, ret,
      raise.
    rewrite Hd, Ha.
    destruct v as [entry | elems | s | n | zero | b | ];
      cbn [accepted_value] in Hacc; try contradiction.
    + destruct Hacc as (name & workdir & Hn & Hw).
      destruct Hkey as [Hkey | Hkey]; subst key;
        [ rewrite Hn | rewrite Hw ]; eauto.
    + eauto.
    + eauto.
Qed.

(** X11, witness: the validation accepts a config whose LINUX value is the
    array of the two key names, and the agent name cannot be read
    from it. *)
Lemma X11_manager_validation_and_lookups_witness :
  fst (Manager.validate_configuration (Some Examples.array_entry_config) [])
  = Ok tt
  /\ exists msg,
       Manager.agent_detail Examples.array_entry_config "LINUX" "AGENT_NAME"
         []
       = (Raise (Exc TypeErrorC msg), []).
Proof.
  destruct (X11_manager_validation_and_lookups Examples.array_entry_config
              [] "h"%char "ttp://jenkins:8080"%string
              [ ("LINUX"%string,
                 Manager.Array [ Manager.Text "AGENT_NAME";
                                 Manager.Text "AGENT_WORKDIR" ]) ]
              eq_refl eq_refl (or_introl eq_refl))
    as (Hvalid & Hread).
  split.
  - apply Hvalid. intros platform v [H | []]. inversion H; subst.
    split; simpl; auto.
  - apply (Hread "LINUX"%string
             (Manager.Array [ Manager.Text "AGENT_NAME";
                              Manager.Text "AGENT_WORKDIR" ])
             "AGENT_NAME"%string eq_refl).
    + split; simpl; auto.
    + left. reflexivity.
Defined.

(** X12: the validation asks for one of LINUX and WINDOWS, not for the
    platform of the host.  With the secret set and a config whose agent
    details have no LINUX entry, the Linux installer of
    Jenkins_agent_manager.py raises [KeyError] for 'LINUX' while it builds
    the unit file: nothing is logged, written or run. *)
Theorem X12_manager_linux_entry_missing
        (w : world) (jar : string) (c : Manager.config) (tr : trace)
        (url : string) (ds : list (string * Manager.value)) :
  truthy (getenv w "LINUX_AGENT_SECRET") = true ->
  Manager.JENKINS_SERVER_URL c = Some url ->
  Manager.AGENT_DETAILS c = Some ds ->
  Manager.has_key "LINUX" ds = false ->
  Manager.configure_linux_service w jar c tr
  = (Raise (Exc KeyErrorC "'LINUX'"), tr).
Proof.
  intros Ht Hu Hd Hk.
  unfold Manager.configure_linux_service, Manager.agent_detail,
    Manager.value_getitem, Manager.server_url, getitem.
  rewrite Ht, Hu, Hd.
  unfold Manager.has_key in Hk.
  destruct (assoc "LINUX" ds) as [v | ] eqn:Ha; [ discriminate | ].
  cbv beta iota zeta delta [bind ret negb]. rewrite Ha. reflexivity.
Qed.

(** X12, witness: a config that passes the validation with a Windows agent
    only, on a Linux host. *)
Lemma X12_manager_linux_entry_missing_witness :
  manager_valid Examples.windows_only_config = true
  /\ Manager.configure_linux_service
       (Examples.host "Linux" Examples.secrets Examples.succeeds)
       "agent.jar" Examples.windows_only_config []
     = (Raise (Exc KeyErrorC "'LINUX'"), []).
Proof.
  split; [ reflexivity | ].
  apply (X12_manager_linux_entry_missing
           (Examples.host "Linux" Examples.secrets Examples.succeeds)
           "agent.jar" Examples.windows_only_config []
           "http://jenkins:8080"
           [ ("WINDOWS", Manager.Object [ ("AGENT_NAME", "agent-1");
                           ("AGENT_WORKDIR", "D:/jenkins") ]) ]%string);
    reflexivity.
Defined.

(** X13: the Windows installer of Jenkins_agent_manager.py needs JAVA_HOME.
    With the secret set and the agent's name and work directory in the
    config, an unset JAVA_HOME raises [TypeError] while the path of
    java.exe is built: the service is not registered, and nothing is
    logged or run. *)
Theorem X13_manager_windows_needs_java_home
        (w : world) (jar : string) (c : Manager.config) (tr : trace)
        (name workdir : string)
        (details : list (string * Manager.value))
        (entry : Manager.platform_entry) :
  truthy (getenv w "WINDOWS_AGENT_SECRET") = true ->
  Manager.AGENT_DETAILS c = Some details ->
  assoc "WINDOWS" details = Some (Manager.Object entry) ->
  assoc "AGENT_NAME" entry = Some name ->
  assoc "AGENT_WORKDIR" entry = Some workdir ->
  getenv w "JAVA_HOME" = None ->
  Manager.configure_windows_service w jar c tr
  = (Raise (Exc TypeErrorC
              "expected str, bytes or os.PathLike object, not NoneType"),
     tr).
Proof.
  intros Ht Hd Hw Hn Hk Hj.
  unfold Manager.configure_windows_service, Manager.agent_detail,
    Manager.value_getitem, getitem.
  rewrite Ht, Hd, Hj.
  cbv beta iota zeta delta [bind ret negb]. rewrite Hw, Hn, Hk.
  reflexivity.
Qed.

(** X13, witness: a Windows host whose environment has no JAVA_HOME. *)
Lemma X13_manager_windows_needs_java_home_witness :
  Manager.configure_windows_service
    (Examples.host "Windows" Examples.no_java_home Examples.succeeds)
    "agent.jar" Examples.manager_config []
  = (Raise (Exc TypeErrorC
              "expected str, bytes or os.PathLike object, not NoneType"),
     []).
Proof.
  apply (X13_manager_windows_needs_java_home
           (Examples.host "Windows" Examples.no_java_home Examples.succeeds)
           "agent.jar" Examples.manager_config [] "agent-1" "D:/jenkins"
           [ ("LINUX", Manager.Object [ ("AGENT_NAME", "agent-1");
                         ("AGENT_WORKDIR", "/var/jenkins") ]);
             ("WINDOWS", Manager.Object [ ("AGENT_NAME", "agent-1");
                           ("AGENT_WORKDIR", "D:/jenkins") ]) ]%string
           [ ("AGENT_NAME", "agent-1");
             ("AGENT_WORKDIR", "D:/jenkins") ]%string);
    reflexivity.
Defined.

(** X14: [run_command] of Jenkins_agent_manager.py runs its command exactly
    once, with no retry, and logs around it.  It returns normally exactly
    when the command exits with status 0; a non-zero status becomes a
    [RuntimeError] whose message is the error context alone; a command that
    cannot be started raises [OSError] with no log record. *)
Theorem X14_manager_run_command_once
        (w : world) (command : list string) (error_message : string)
        (tr : trace) :
  exists new,
    snd (Manager.run_command w command error_message tr)
    = tr ++ Run command :: new
    /\ runs new = [] /\ writes new = [] /\ sleeps new = []
    /\ (fst (Manager.run_command w command error_message tr) = Ok tt
        <-> exists out err, proc w tr command = Exited 0 out err)
    /\ (fails (proc w tr command) = true ->
        fst (Manager.run_command w command error_message tr)
        = Raise (Exc RuntimeErrorC error_message))
    /\ (forall msg, proc w tr command = SpawnFailed msg ->
        Manager.run_command w command error_message tr
        = (Raise (Exc OSErrorC msg), tr ++ [Run command])).
Proof.
  cbv beta iota zeta delta [Manager.run_command bind try_except
                              subprocess_run history emit logging ret raise].
  destruct (proc w tr command) as [rc out err | msg] eqn:Hp.
  - destruct (rc =? 0)%Z eqn:Hrc; cbv beta iota;
      cbn [returncode stdout stderr is_CalledProcessError negb fst snd].
    + rewrite Hrc. cbn [negb]. cbv beta iota. cbn [fst snd].
      apply Z.eqb_eq in Hrc. subst rc.
      eexists. split; [ rewrite <- !app_assoc; reflexivity | ].
      repeat split; try reflexivity; try discriminate.
      * intros _. eauto.
    + eexists. split; [ rewrite <- !app_assoc; reflexivity | ].
      repeat split; try reflexivity; try discriminate.
      intros (o & e & H). inversion H; subst. discriminate.
  - cbv beta iota. cbn [is_CalledProcessError fst snd].
    exists []. repeat split; try reflexivity; try discriminate.
    + intros (o & e & H). discriminate.
    + intros m H. inversion H. reflexivity.
Qed.

(** ** test.py from start to supervision *)

(** X15: test.py asks for the SMTP password before anything else is done.
    With the agent details in the config and SMTP_PASSWORD unset or empty,
    [main] raises [ValueError] at once: nothing is logged, downloaded,
    written or run, also when the agent itself could be installed. *)
Theorem X15_monitor_main_needs_smtp_password
        (w : world) (cfg : Monitor.config) (ticks : nat) (tr : trace)
        (details : list (string * Monitor.agent_entry)) :
  Monitor.AGENT_DETAILS cfg = Some details ->
  truthy (Monitor.SMTP_PASSWORD w) = false ->
  Monitor.main w cfg ticks tr
  = (Raise (Exc ValueErrorC "Missing SMTP_PASSWORD in .env"), tr).
Proof.
  intros Hd Hs. unfold Monitor.main, Monitor.validate_configuration, bind.
  rewrite Hd, Hs. reflexivity.
Qed.

(** X15, witness: a Linux host with the agent secrets and no
    SMTP_PASSWORD. *)
Lemma X15_monitor_main_needs_smtp_password_witness :
  Monitor.main
    (Examples.host "Linux" Examples.no_smtp_password Examples.succeeds)
    Examples.monitor_config 3 []
  = (Raise (Exc ValueErrorC "Missing SMTP_PASSWORD in .env"), []).
Proof.
  apply (X15_monitor_main_needs_smtp_password
           (Examples.host "Linux" Examples.no_smtp_password Examples.succeeds)
           Examples.monitor_config 3 []
           [ ("Linux", {| Monitor.AGENT_NAME := "agent-1";
                          Monitor.AGENT_WORKDIR := "/var/jenkins" |});
             ("Windows", {| Monitor.AGENT_NAME := "agent-1";
                            Monitor.AGENT_WORKDIR := "D:/jenkins" |}) ]%string);
    reflexivity.
Defined.

Section HealthyLoop.
Variable w : world.
Variable cfg : Monitor.config.
Variable name : string.
Variables out err : string.
Hypothesis Hp : platform_system w = "Linux"%string.
Hypothesis Hq : quiet w.
Hypothesis Hproc : forall h cmd, proc w h cmd = Exited 0 out err.
Hypothesis Hactive : Monitor.linux_active out = true.

Let query := ["systemctl"; "is-active"; name]%string.


End HealthyLoop.



(** ** The monitor on a platform it does not know *)

Section UnknownPlatform.
Variable w : world.
Variable cfg : Monitor.config.
Variable name : string.
Hypothesis Hns : ~ supported (platform_system w).
Hypothesis Hq : quiet w.

(** No query is made, [is_active] keeps its initial [False], and the pass
    alerts. *)
Lemma monitor_iteration_unknown (tr : trace) :
  exists new,
    Monitor.monitor_iteration w cfg name tr = (Ok tt, tr ++ new)
    /\ runs new = [] /\ alerts new = 1.
Proof.
  assert (Hl : String.eqb (platform_system w) "Linux" = false).
  { apply String.eqb_neq. intro H. apply Hns. now left. }
  assert (Hw : String.eqb (platform_system w) "Windows" = false).
  { apply String.eqb_neq. intro H. apply Hns. now right. }
  unfold Monitor.monitor_iteration. rewrite Hl, Hw.
  cbv beta iota zeta delta [try_except bind ret negb logging emit].
  match goal with
  | |- context [Monitor.send_alert_email w cfg ?s ?m ?t] =>
      destruct (send_alert_email_cases w cfg s m t)
        as (new & Hsend & Ha & Hr & _);
      rewrite Hsend
  end.
  eexists. split; [ flatten_trace; reflexivity | ].
  split; [ exact Hr | unfold alerts in *; simpl; now rewrite Ha ].
Qed.

Lemma monitor_loop_unknown (ticks : nat) :
  forall tr,
    exists new,
      Monitor.monitor_loop w cfg name ticks tr = (Ok tt, tr ++ new)
      /\ runs new = [] /\ alerts new = ticks.
Proof.
  induction ticks as [ | n IH ]; intro tr.
  - exists []. simpl. rewrite app_nil_r. auto.
  - destruct (monitor_iteration_unknown tr) as (new & Hit & Hr & Ha).
    rewrite (monitor_loop_step w cfg name n tr new Hq Hit).
    destruct (IH (tr ++ new ++ [Sleep (Monitor.CHECK_INTERVAL cfg)]))
      as (more & Hrun & Hr' & Ha').
    exists (new ++ [Sleep (Monitor.CHECK_INTERVAL cfg)] ++ more).
    rewrite Hrun. split; [ now rewrite <- !app_assoc | ].
    rewrite !runs_app, !alerts_app, Hr, Hr', Ha, Ha'. split; reflexivity.
Qed.
End UnknownPlatform.

(** X17: [monitor_service] called on a platform that is neither Linux nor
    Windows never asks for the status of the service: [is_active] keeps its
    initial [False], so every pass of the loop sends an alert, although
    nothing was observed.  ([main] does not get there: it raises in
    [get_agent_details] first.) *)
Theorem X17_monitor_unknown_platform_alerts_every_pass
        (w : world) (cfg : Monitor.config) (name : string) (ticks : nat)
        (tr : trace) :
  ~ supported (platform_system w) ->
  quiet w ->
  exists new,
    Monitor.monitor_service w cfg name ticks tr = (Ok tt, tr ++ new)
    /\ runs new = [] /\ alerts new = ticks.
Proof.
  intros Hns Hq. unfold Monitor.monitor_service, bind, logging, emit.
  destruct (monitor_loop_unknown w cfg name Hns Hq ticks
              (tr ++ [Log INFO ("Starting monitoring for service '" ++ name
                                  ++ "'")%string]))
    as (new & Hrun & Hr & Ha).
  rewrite Hrun. eexists. split; [ rewrite <- app_assoc; reflexivity | ].
  rewrite runs_app, alerts_app, Hr, Ha. split; reflexivity.
Qed.

(** X17, witness: three passes on a host that reports "Darwin". *)
Lemma X17_monitor_unknown_platform_alerts_every_pass_witness :
  exists new,
    Monitor.monitor_service
      (Examples.host "Darwin" Examples.secrets Examples.succeeds)
      Examples.monitor_config "agent-1" 3 [] = (Ok tt, [] ++ new)
    /\ runs new = [] /\ alerts new = 3.
Proof.
  apply (X17_monitor_unknown_platform_alerts_every_pass
           (Examples.host "Darwin" Examples.secrets Examples.succeeds)
           Examples.monitor_config "agent-1" 3 []).
  - exact darwin_unsupported.
  - intro h. reflexivity.
Defined.

(** ** The download of Jenkins_agent_manager.py *)

(** X18: when [download_jenkins_agent] of Jenkins_agent_manager.py returns
    a path, curl was run once, with that path as its [-o] target and the
    agent jar of the configured server as its source, and it exited with
    status 0; the path is [D:/jenkins/agent/agent.jar] on Windows and
    [~/jenkins/agent.jar] elsewhere; the permissions of the jar's directory
    were set (to 0o755) exactly when the platform is not Windows; and
    nothing was written. *)
Theorem X18_manager_download_target
        (w : world) (c : Manager.config) (tr tr' : trace) (path : string) :
  Manager.download_jenkins_agent w c tr = (Ok path, tr') ->
  exists new url,
    tr' = tr ++ new
    /\ Manager.JENKINS_SERVER_URL c = Some url
    /\ runs new
       = [["curl"; "-o"; path; (url ++ "/jnlpJars/agent.jar")%string]%string]
    /\ (exists h out err,
           proc w h
             ["curl"; "-o"; path; (url ++ "/jnlpJars/agent.jar")%string]%string
           = Exited 0 out err)
    /\ path
       = (if String.eqb (Manager.get_platform w) "windows"
          then path_join w ["D:"; "jenkins"; "agent"; "agent.jar"]%string
          else path_join w [home w; "jenkins"; "agent.jar"]%string)
    /\ (In (Chmod (dirname w path) 493) new
        <-> Manager.get_platform w <> "windows"%string)
    /\ writes new = [].
Proof.
  unfold Manager.download_jenkins_agent, Manager.run_command,
    Manager.server_url.
  cbv beta iota zeta delta [bind try_except io history emit logging ret
                              raise subprocess_run].
  destruct (String.eqb (Manager.get_platform w) "windows") eqn:Hw;
    cbn [negb]; cbv beta iota.
  all: destruct (path_exists w _ _); cbn [negb]; cbv beta iota.
  all: repeat match goal with
         | |- context [fault ?w0 ?h ?ev] =>
             destruct (fault w0 h ev) as [[? ?] | ] eqn:?; cbv beta iota
         end;
       try (intro H; discriminate H).
  all: destruct (Manager.JENKINS_SERVER_URL c) as [url | ] eqn:Hu;
       cbv beta iota; try (intro H; discriminate H).
  all: match goal with
       | |- context [proc ?w0 ?h ?cmd] =>
           destruct (proc w0 h cmd) as [rc out err | msg] eqn:Hp
       end; cbv beta iota; cbn [is_CalledProcessError];
       try (intro H; discriminate H).
  all: destruct (rc =? 0)%Z eqn:Hrc;
       cbv beta iota delta [returncode stdout stderr];
       cbn [negb is_CalledProcessError];
       try rewrite Hrc; cbn [negb]; cbv beta iota;
       try (intro H; discriminate H).
  all: apply Z.eqb_eq in Hrc; subst rc.
  all: intro H; injection H as Hpath Htr; subst path tr'.
  all: eexists; exists url.
  all: split; [ flatten_trace; reflexivity | ].
  all: split; [ reflexivity | ].
  all: split; [ reflexivity | ].
  all: split; [ eauto | ].
  all: split; [ reflexivity | ].
  all: split; [ | reflexivity ].
  all: first [ apply String.eqb_eq in Hw | apply String.eqb_neq in Hw ].
  all: simpl; intuition congruence.
Qed.

(** X18, witness: a Linux host where nothing fails. *)
Lemma X18_manager_download_target_witness :
  exists new url,
    [ Log INFO "Downloading Agent jar...";
      MakeDirs "/home/ci/jenkins";
      Chmod "/home/ci/jenkins" 493;
      Run ["curl"; "-o"; "/home/ci/jenkins/agent.jar";
           "http://jenkins:8080/jnlpJars/agent.jar"]%string;
      Log INFO "Command output: ";
      Log INFO "Command error output (if any): ";
      Log INFO "Command completed successfully.";
      Log INFO "Jenkins agent jar downloaded to: /home/ci/jenkins/agent.jar" ]
    = [] ++ new
    /\ Manager.JENKINS_SERVER_URL Examples.manager_config = Some url
    /\ runs new
       = [["curl"; "-o"; "/home/ci/jenkins/agent.jar";
           (url ++ "/jnlpJars/agent.jar")%string]%string]
    /\ (exists h out err,
           proc (Examples.host "Linux" Examples.secrets Examples.succeeds) h
             ["curl"; "-o"; "/home/ci/jenkins/agent.jar";
              (url ++ "/jnlpJars/agent.jar")%string]%string
           = Exited 0 out err)
    /\ "/home/ci/jenkins/agent.jar"%string
       = (if String.eqb
               (Manager.get_platform
                  (Examples.host "Linux" Examples.secrets Examples.succeeds))
               "windows"
          then path_join
                 (Examples.host "Linux" Examples.secrets Examples.succeeds)
                 ["D:"; "jenkins"; "agent"; "agent.jar"]%string
          else path_join
                 (Examples.host "Linux" Examples.secrets Examples.succeeds)
                 [home (Examples.host "Linux" Examples.secrets
                          Examples.succeeds);
                  "jenkins"; "agent.jar"]%string)
    /\ (In (Chmod
              (dirname
                 (Examples.host "Linux" Examples.secrets Examples.succeeds)
                 "/home/ci/jenkins/agent.jar") 493) new
        <-> Manager.get_platform
              (Examples.host "Linux" Examples.secrets Examples.succeeds)
            <> "windows"%string)
    /\ writes new = [].
Proof.
  apply (X18_manager_download_target
           (Examples.host "Linux" Examples.secrets Examples.succeeds)
           Examples.manager_config []).
  reflexivity.
Defined.

(** ** Jenkins_agent_manager.py from start to service *)

(** X19: a config file that is not valid JSON, or that cannot be read, ends
    Jenkins_agent_manager.py before anything is downloaded, written or run,
    on every host.  When logging and the .env file were set up without
    error, the parse error is logged with its message and [main] raises
    [ValueError]; any other error while reading is logged and [main] raises
    [RuntimeError]. *)
Theorem X19_manager_unusable_config_file
        (w : world) (tr : trace) (msg : string) :
  (exists e new,
      Manager.main w (Manager.InvalidJson msg) tr = (Raise e, tr ++ new)
      /\ runs new = [] /\ writes new = []
      /\ ((forall h ev, fault w h ev = None) ->
          e = Exc ValueErrorC
                "Config file contains invalid JSON. Please check the file format."
          /\ In (Log ERROR ("JSON parsing error in config file: " ++ msg)%string)
                new))
  /\ (exists e new,
         Manager.main w (Manager.Unreadable msg) tr = (Raise e, tr ++ new)
         /\ runs new = [] /\ writes new = []
         /\ ((forall h ev, fault w h ev = None) ->
             e = Exc RuntimeErrorC
                   "Failed to load file due to unexpected error."
             /\ In (Log ERROR
                      ("Unexpected error loading config file " ++ msg)%string)
                   new)).
Proof.
  split.
  all: cbv beta iota zeta delta [Manager.main Manager.setup_logging
                                   Manager.load_env_file
                                   Manager.load_config_file
                                   bind try_except io history emit logging
                                   ret raise].
  all: destruct (fault w tr (MakeDirs "../../logs")) as [[c1 m1] | ] eqn:H1;
    cbv beta iota;
    [ do 2 eexists; split; [ reflexivity | ];
      split; [ reflexivity | split; [ reflexivity | ] ];
      intro Hf; rewrite Hf in H1; discriminate | ].
  all: match goal with
       | |- context [fault ?w0 ?h LoadDotenv] =>
           destruct (fault w0 h LoadDotenv) as [[c2 m2] | ] eqn:H2
       end; cbv beta iota; cbn [is_Exception];
    [ do 2 eexists; split; [ rewrite <- !app_assoc; reflexivity | ];
      split; [ reflexivity | split; [ reflexivity | ] ];
      intro Hf; rewrite Hf in H2; discriminate | ].
  all: do 2 eexists; split; [ rewrite <- !app_assoc; reflexivity | ].
  all: split; [ reflexivity | split; [ reflexivity | ] ].
  all: intros _; split; [ reflexivity | simpl; tauto ].
Qed.



Section ManagerCommand.
Variable w : world.

Lemma run_command_ok (command : list string) (error_message : string)
      (tr : trace) (out err : string) :
  proc w tr command = Exited 0 out err ->
  Manager.run_command w command error_message tr
  = (Ok tt,
     tr ++ [Run command;
            Log INFO ("Command output: " ++ out)%string;
            Log INFO ("Command error output (if any): " ++ err)%string;
            Log INFO "Command completed successfully."]).
Proof.
  intro Hp.
  cbv beta iota zeta delta [Manager.run_command bind try_except
                              subprocess_run history emit logging ret raise].
  rewrite Hp. cbn [Z.eqb]. cbv beta iota.
  cbn [returncode stdout stderr Z.eqb negb]. cbv beta iota.
  now rewrite <- !app_assoc.
Qed.

Lemma run_command_fails (command : list string) (error_message : string)
      (tr : trace) :
  fails (proc w tr command) = true ->
  exists new,
    Manager.run_command w command error_message tr
    = (Raise (Exc RuntimeErrorC error_message), tr ++ Run command :: new)
    /\ runs new = [].
Proof.
  intro Hf. destruct (fails_inv _ Hf) as (rc & out & err & Hp & Hrc).
  cbv beta iota zeta delta [Manager.run_command bind try_except
                              subprocess_run history emit logging ret raise].
  rewrite Hp, Hrc. cbv beta iota. cbn [is_CalledProcessError].
  eexists. split; [ rewrite <- !app_assoc; reflexivity | reflexivity ].
Qed.
End ManagerCommand.

(** X21: the Windows installer of Jenkins_agent_manager.py, with the secret
    and JAVA_HOME set and a WINDOWS entry in the config.  It registers the
    service under the agent's name and then starts it, each command run
    once.  When [sc.exe create] exits with a non-zero status the installer
    raises [RuntimeError] naming the service and never runs
    [sc.exe start]; when only the start fails it raises the start error. *)
Theorem X21_manager_windows_service
        (w : world) (c : Manager.config) (tr : trace)
        (jar url secret java name workdir : string)
        (details : list (string * Manager.value))
        (entry : Manager.platform_entry) :
  truthy (getenv w "WINDOWS_AGENT_SECRET") = true ->
  getenv w "WINDOWS_AGENT_SECRET" = Some secret ->
  getenv w "JAVA_HOME" = Some java ->
  Manager.JENKINS_SERVER_URL c = Some url ->
  Manager.AGENT_DETAILS c = Some details ->
  assoc "WINDOWS" details = Some (Manager.Object entry) ->
  assoc "AGENT_NAME" entry = Some name ->
  assoc "AGENT_WORKDIR" entry = Some workdir ->
  let create :=
    Manager.sc_create_command (path_join w [java; "bin"; "java.exe"]%string)
      jar url secret name workdir in
  let start := ["sc.exe"; "start"; name]%string in
  ((forall h, fails (proc w h create) = true) ->
   exists new,
     Manager.configure_windows_service w jar c tr
     = (Raise (Exc RuntimeErrorC
                 ("Failed to create Windows service '" ++ name ++ "'")%string),
        tr ++ new)
     /\ runs new = [create])
  /\ ((forall h, exists out err, proc w h create = Exited 0 out err) ->
      (forall h, fails (proc w h start) = true) ->
      exists new,
        Manager.configure_windows_service w jar c tr
        = (Raise (Exc RuntimeErrorC
                    ("Failed to start Windows service '" ++ name ++ "'")%string),
           tr ++ new)
        /\ runs new = [create; start])
  /\ ((forall h cmd, exists out err, proc w h cmd = Exited 0 out err) ->
      exists new,
        Manager.configure_windows_service w jar c tr = (Ok tt, tr ++ new)
        /\ runs new = [create; start]).
Proof.
  intros Ht Hs Hj Hu Hd He Hn Hw create start.
  unfold Manager.configure_windows_service, Manager.agent_detail,
    Manager.value_getitem, Manager.server_url, getitem.
  rewrite Ht, Hs, Hj, Hu, Hd.
  cbv beta iota zeta delta [bind logging emit ret negb].
  rewrite He, Hn, Hw. cbv beta iota delta [ret].
  fold create. fold start.
  split; [ | split ].
  - intro Hc.
    destruct (run_command_fails w create
                ("Failed to create Windows service '" ++ name ++ "'")%string
                (tr ++ [Log INFO
                          ("Registering Jenkins agent as a Windows service with name '"
                             ++ name ++ "'")%string])
                (Hc _)) as (new & Hrun & Hr).
    rewrite Hrun. eexists. split; [ flatten_trace; reflexivity | ].
    unfold runs in *. cbn [flat_map app]. now rewrite Hr.
  - intros Hc Hst.
    destruct (Hc (tr ++ [Log INFO
                           ("Registering Jenkins agent as a Windows service with name '"
                              ++ name ++ "'")%string]))
      as (out & err & Hp).
    rewrite (run_command_ok w create _ _ out err Hp).
    match goal with
    | |- context [Manager.run_command w start ?m ?h] =>
        destruct (run_command_fails w start m h (Hst _))
          as (new & Hrun & Hr); rewrite Hrun
    end.
    eexists. split; [ flatten_trace; reflexivity | ].
    unfold runs in *. cbn [flat_map app]. now rewrite Hr.
  - intro Hall.
    destruct (Hall (tr ++ [Log INFO
                             ("Registering Jenkins agent as a Windows service with name '"
                                ++ name ++ "'")%string]) create)
      as (out & err & Hp).
    rewrite (run_command_ok w create _ _ out err Hp).
    match goal with
    | |- context [Manager.run_command w start ?m ?h] =>
        destruct (Hall h start) as (out' & err' & Hp');
        rewrite (run_command_ok w start m h out' err' Hp')
    end.
    eexists. split; [ flatten_trace; reflexivity | reflexivity ].
Qed.

(** X21, witness: a Windows host where [sc.exe] is refused. *)
Lemma X21_manager_windows_service_witness :
  exists new,
    Manager.configure_windows_service
      (Examples.host "Windows" Examples.secrets Examples.sc_fails)
      "D:/jenkins/agent/agent.jar" Examples.manager_config []
    = (Raise (Exc RuntimeErrorC
                ("Failed to create Windows service '" ++ "agent-1" ++ "'")%string),
       [] ++ new)
    /\ runs new
       = [Manager.sc_create_command "C:/java/bin/java.exe"
            "D:/jenkins/agent/agent.jar" "http://jenkins:8080" "tok123"
            "agent-1" "D:/jenkins"].
Proof.
  destruct (X21_manager_windows_service
              (Examples.host "Windows" Examples.secrets Examples.sc_fails)
              Examples.manager_config [] "D:/jenkins/agent/agent.jar"
              "http://jenkins:8080" "tok123" "C:/java" "agent-1" "D:/jenkins"
              [ ("LINUX", Manager.Object [ ("AGENT_NAME", "agent-1");
                            ("AGENT_WORKDIR", "/var/jenkins") ]);
                ("WINDOWS", Manager.Object [ ("AGENT_NAME", "agent-1");
                              ("AGENT_WORKDIR", "D:/jenkins") ]) ]%string
              [ ("AGENT_NAME", "agent-1");
                ("AGENT_WORKDIR", "D:/jenkins") ]%string
              eq_refl eq_refl eq_refl eq_refl eq_refl eq_refl eq_refl eq_refl)
    as (H & _).
  apply H. intro h. reflexivity.
Defined.

(** ** test.py before the service is installed *)

(** X22: test.py on Linux or Windows with the SMTP password set and agent
    details that have no entry for the platform of the host.
    [validate_configuration] accepts the config, since it only looks for
    the AGENT_DETAILS key; [get_agent_details] then subscripts the [None]
    that [dict.get] returned, and [main] ends in [TypeError] before
    anything is downloaded, written or run. *)
Theorem X22_monitor_platform_entry_missing
        (w : world) (cfg : Monitor.config) (ticks : nat) (tr : trace)
        (details : list (string * Monitor.agent_entry)) :
  supported (platform_system w) ->
  truthy (Monitor.SMTP_PASSWORD w) = true ->
  Monitor.AGENT_DETAILS cfg = Some details ->
  assoc (platform_system w) details = None ->
  Monitor.main w cfg ticks tr
  = (Raise (Exc TypeErrorC "'NoneType' object is not subscriptable"),
     tr ++ [Log INFO "Configuration validated successfully."]).
Proof.
  intros Hs Hp Hd Ha.
  unfold Monitor.main, Monitor.validate_configuration,
    Monitor.get_agent_details, Monitor.subscript.
  rewrite Hd, Hp.
  cbv beta iota zeta delta [bind logging emit ret negb].
  rewrite Ha.
  destruct Hs as [Hs | Hs]; rewrite Hs; reflexivity.
Qed.

(** X22, witness: a Linux host and a config that names a Windows agent
    only. *)
Lemma X22_monitor_platform_entry_missing_witness :
  Monitor.main
    (Examples.host "Linux" Examples.secrets Examples.succeeds)
    Examples.monitor_windows_only_config 3 []
  = (Raise (Exc TypeErrorC "'NoneType' object is not subscriptable"),
     [] ++ [Log INFO "Configuration validated successfully."]).
Proof.
  apply (X22_monitor_platform_entry_missing
           (Examples.host "Linux" Examples.secrets Examples.succeeds)
           Examples.monitor_windows_only_config 3 []
           [ ("Windows", {| Monitor.AGENT_NAME := "agent-1";
                            Monitor.AGENT_WORKDIR := "D:/jenkins" |}) ]%string).
  - left. reflexivity.
  - reflexivity.
  - reflexivity.
  - reflexivity.
Defined.

(** X23: when the download of the jar keeps failing, test.py stops there.
    On Linux or Windows, with a valid setup, curl is tried three times (the
    default) and [main] raises [RuntimeError]; no unit file is written, no
    service command is run, and the monitor loop is never entered (no
    alert). *)
Theorem X23_monitor_download_failure_stops_main
        (w : world) (cfg : Monitor.config) (ticks : nat) (tr : trace)
        (details : list (string * Monitor.agent_entry))
        (entry : Monitor.agent_entry) (c : ascii) (rest : string) :
  supported (platform_system w) ->
  quiet w ->
  truthy (Monitor.SMTP_PASSWORD w) = true ->
  Monitor.AGENT_DETAILS cfg = Some details ->
  assoc (platform_system w) details = Some entry ->
  getenv w (if String.eqb (platform_system w) "Linux"
            then "LINUX_AGENT_SECRET" else "WINDOWS_AGENT_SECRET")
  = Some (String c rest) ->
  let curl := ["curl"; "-o"; "agent.jar";
               (Monitor.JENKINS_SERVER_URL cfg ++ "/jnlpJars/agent.jar")%string
              ]%string in
  (forall h, fails (proc w h curl) = true) ->
  exists new,
    Monitor.main w cfg ticks tr
    = (Raise (Exc RuntimeErrorC "Failed to download Jenkins agent JAR"),
       tr ++ new)
    /\ runs new = repeat curl 3
    /\ writes new = []
    /\ alerts new = 0.
Proof.
  intros Hs Hq Hp Hd Ha Hsec curl Hfail.
  destruct (run_command_with_retry_all_fail w curl
              "Failed to download Jenkins agent JAR"
              Monitor.default_retries Monitor.default_delay
              (tr ++ [Log INFO "Configuration validated successfully.";
                      Log INFO "Downloading Jenkins agent..."])
              Hq Hfail) as (errs & Hlen & Hrun).
  unfold Monitor.main, Monitor.validate_configuration,
    Monitor.get_agent_details, Monitor.subscript,
    Monitor.download_jenkins_agent.
  rewrite Hd, Hp.
  cbv beta iota zeta delta [bind logging emit ret negb].
  rewrite Ha.
  assert (Hget :
            (if String.eqb (platform_system w) "Linux"
             then getenv w "LINUX_AGENT_SECRET"
             else getenv w "WINDOWS_AGENT_SECRET")
            = Some (String c rest)).
  { destruct (String.eqb (platform_system w) "Linux"); exact Hsec. }
  clear Hsec.
  destruct Hs as [Hs | Hs]; rewrite Hs in *;
    cbv beta iota zeta delta [bind logging emit ret raise negb];
    cbn [String.eqb Ascii.eqb Bool.eqb andb] in *;
    rewrite Hget; cbv beta iota;
    fold curl; rewrite <- !app_assoc; cbn [app];
    rewrite Hrun.
  all: eexists; split; [ rewrite <- app_assoc; reflexivity | ].
  all: assert (H3 : length errs = 3) by exact Hlen.
  all: destruct errs as [ | e1 [ | e2 [ | e3 [ | e4 errs ] ] ] ];
    try discriminate H3.
  all: repeat split; reflexivity.
Qed.

(** X23, witness: a Linux host where curl is refused. *)
Lemma X23_monitor_download_failure_stops_main_witness :
  exists new,
    Monitor.main
      (Examples.host "Linux" Examples.secrets (Examples.fails_on "curl"))
      Examples.monitor_config 3 []
    = (Raise (Exc RuntimeErrorC "Failed to download Jenkins agent JAR"),
       [] ++ new)
    /\ runs new
       = repeat ["curl"; "-o"; "agent.jar";
                 (Monitor.JENKINS_SERVER_URL Examples.monitor_config
                    ++ "/jnlpJars/agent.jar")%string]%string 3
    /\ writes new = []
    /\ alerts new = 0.
Proof.
  apply (X23_monitor_download_failure_stops_main
           (Examples.host "Linux" Examples.secrets (Examples.fails_on "curl"))
           Examples.monitor_config 3 []
           [ ("Linux", {| Monitor.AGENT_NAME := "agent-1";
                          Monitor.AGENT_WORKDIR := "/var/jenkins" |});
             ("Windows", {| Monitor.AGENT_NAME := "agent-1";
                            Monitor.AGENT_WORKDIR := "D:/jenkins" |}) ]%string
           {| Monitor.AGENT_NAME := "agent-1";
              Monitor.AGENT_WORKDIR := "/var/jenkins" |}
           "t"%char "ok123").
  - left. reflexivity.
  - intro h. reflexivity.
  - reflexivity.
  - reflexivity.
  - reflexivity.
  - reflexivity.
  - intro h. reflexivity.
Defined.

(** ** What the monitoring phase may do *)

Section MonitoringEvents.
Variable w : world.
Variable cfg : Monitor.config.
Variable name : string.

Let E := monitoring_event w cfg name.

Lemma with_smtp_events (body : M unit) :
  triple body E below_Exception ->
  triple (Monitor.with_smtp w cfg body) E below_Exception.
Proof.
  intros Hbody tr.
  cbv beta iota zeta delta [Monitor.with_smtp bind io history emit].
  match goal with
  | |- context [fault w ?h ?ev] =>
      destruct (fault w h ev) as [[c0 m0] | ]
  end; cbv beta iota.
  - eexists. split; [ reflexivity | ].
    split; [ | reflexivity ].
    repeat constructor.
  - unfold raise, ret.
    match goal with
    | |- context [body ?h] =>
        destruct (Hbody h) as (n & Hn & Fn & Rn);
        destruct (body h) as [[[] | e] tr1]
    end; cbn [fst snd] in *; subst tr1.
    all: match goal with
         | |- context [fault ?w0 ?h SmtpQuit] =>
             destruct (fault w0 h SmtpQuit) as [[c1 m1] | ]
         end; cbv beta iota; cbn [fst snd].
    all: exists (SmtpConnect (Monitor.SMTP_SERVER cfg)
                   (Monitor.SMTP_PORT cfg) :: n ++ [SmtpQuit]).
    all: split; [ rewrite <- !app_assoc; reflexivity | ].
    all: split; [ | first [ reflexivity | exact Rn | exact I ] ].
    all: constructor; [ split; reflexivity | ].
    all: apply Forall_app; split; [ exact Fn | repeat constructor ].
Qed.

Lemma send_alert_email_events :
  triple (Monitor.send_alert_email w cfg
            ("Jenkins Agent Alert: " ++ name)%string (alert_message name))
         E no_exn.
Proof.
  unfold Monitor.send_alert_email.
  apply triple_bind; [ apply triple_logging; exact I | intros _ ].
  eapply triple_try with (X1 := below_Exception).
  - apply triple_bind; [ | intros _; apply triple_logging; exact I ].
    apply with_smtp_events.
    apply triple_bind; [ apply triple_io; [ exact I | reflexivity ] | ].
    intros _.
    apply triple_bind;
      [ apply triple_io; [ split; reflexivity | reflexivity ] | ].
    intros _. apply triple_io; [ | reflexivity ].
    repeat split; reflexivity.
  - intros e _ _. apply triple_logging. exact I.
  - intros e H1 H2. unfold below_Exception in H2. congruence.
Qed.

Lemma monitor_iteration_events :
  triple (Monitor.monitor_iteration w cfg name) E no_exn.
Proof.
  unfold Monitor.monitor_iteration.
  eapply triple_try with (X1 := below_Exception).
  - apply triple_bind.
    + destruct (String.eqb (platform_system w) "Linux") eqn:Hl;
        [ | destruct (String.eqb (platform_system w) "Windows") eqn:Hw ].
      * apply triple_bind; [ | intro; apply triple_ret ].
        apply run_command_with_retry_events;
          [ intros; exact I | intros; exact I | ].
        subst E. unfold monitoring_event, status_query. now rewrite Hl.
      * apply triple_bind; [ | intro; apply triple_ret ].
        apply run_command_with_retry_events;
          [ intros; exact I | intros; exact I | ].
        subst E. unfold monitoring_event, status_query. now rewrite Hl.
      * apply triple_ret.
    + intro is_active. destruct (negb is_active); [ | apply triple_ret ].
      cbv zeta.
      apply triple_bind; [ apply triple_logging; exact I | intros _ ].
      eapply triple_weaken;
        [ apply send_alert_email_events | auto | intros e [] ].
  - intros e _ _. apply triple_logging. exact I.
  - intros e H1 H2. unfold below_Exception in H2. congruence.
Qed.

Lemma monitor_loop_events (ticks : nat) :
  triple (Monitor.monitor_loop w cfg name ticks) E below_Exception.
Proof.
  induction ticks as [ | n IH ]; cbn [Monitor.monitor_loop].
  - apply triple_ret.
  - apply triple_bind.
    + eapply triple_weaken;
        [ apply monitor_iteration_events | auto | intros e [] ].
    + intros _. apply triple_bind; [ | intros _; exact IH ].
      apply time_sleep_events; intros; exact I.
Qed.
End MonitoringEvents.

(** X24: what the monitoring phase of test.py can do, on every host and
    for any number of passes, whatever fails and whenever a signal
    arrives.  Besides logging and sleeping, [monitor_service] only runs the
    status query of the platform for the service it was given, and only
    talks to the configured SMTP server: it logs in as SMTP_USERNAME with
    SMTP_PASSWORD, and every mail goes from SMTP_USERNAME to the configured
    alert address, with the service name in the subject and the down
    message as body.  It writes no file, creates no directory and changes
    no mode; and no [SystemExit] comes out of it. *)
Theorem X24_monitoring_events
        (w : world) (cfg : Monitor.config) (name : string) (ticks : nat) :
  triple (Monitor.monitor_service w cfg name ticks)
         (monitoring_event w cfg name) below_Exception.
Proof.
  unfold Monitor.monitor_service.
  apply triple_bind; [ apply triple_logging; exact I | intros _ ].
  apply monitor_loop_events.
Qed.
